(** * ai-cli-server: the request-admission pipeline

    A shallow embedding of the Go sources of the gateway:
    - [auth]       : internal/auth (API key shape check and SHA-256 fingerprint)
    - [json]       : the part of encoding/json used to decode [allowed_models]
    - [models]     : internal/database/models
    - [database]   : internal/database (clients.go, usage.go)
    - [rate]       : the golang.org/x/time/rate limiter used by the middleware
    - [agents]     : internal/agents/types.go (the Provider interface,
                     EstimateTokens), with [copilot] and [cursor] for the
                     two providers
    - [http]       : requests, responses and the state shared by the handlers
    - [middleware] : internal/api/middleware/auth.go
    - [handlers]   : internal/api/handlers/chat.go
    - [api]        : internal/api/routes.go (the middleware chain)

    Go strings are byte sequences; they are modelled by [string], whose
    characters are 8-bit [ascii] values.  Go [int]/[int64] values are
    modelled by [Z]; none of the arithmetic below can leave the 64-bit range
    for inputs that fit in memory, so no wrap-around is written out except
    in SHA-256, where it is part of the algorithm. *)

From Stdlib Require Import ZArith QArith Lia Lqa List Ascii String DecimalString.
From stdpp Require Import base option list strings gmap fin_maps sorting.

Open Scope string_scope.
Open Scope Z_scope.

(** ** Go string helpers *)

(** [len(s)] *)
Definition len (s : string) : Z := Z.of_nat (String.length s).

(** [s[:n]] for [0 <= n <= len(s)] *)
Definition slice_to (s : string) (n : Z) : string :=
  String.substring 0 (Z.to_nat n) s.

(** [[]byte(s)], each byte as a number in [0, 256) *)
Fixpoint bytes_of_string (s : string) : list Z :=
  match s with
  | EmptyString => []
  | String c s' => Z.of_N (Ascii.N_of_ascii c) :: bytes_of_string s'
  end.

(** ** internal/auth *)
Module auth.

Definition APIKeyLength : Z := 32.
Definition APIKeyPrefix : string := "aics_".

(** func ValidateAPIKeyFormat(key string) bool *)
Definition ValidateAPIKeyFormat (key : string) : bool :=
  if len key <? len APIKeyPrefix then false
  else String.eqb (slice_to key (len APIKeyPrefix)) APIKeyPrefix.

(** *** crypto/sha256 (FIPS 180-4), on 32-bit words held in [Z] *)

Definition wrap32 (x : Z) : Z := x mod 2 ^ 32.
Definition add32 (x y : Z) : Z := wrap32 (x + y).
Definition rotr (n x : Z) : Z :=
  Z.lor (Z.shiftr x n) (wrap32 (Z.shiftl x (32 - n))).
Definition not32 (x : Z) : Z := Z.lxor x 0xffffffff.

Definition Ch (x y z : Z) : Z := Z.lxor (Z.land x y) (Z.land (not32 x) z).
Definition Maj (x y z : Z) : Z :=
  Z.lxor (Z.lxor (Z.land x y) (Z.land x z)) (Z.land y z).
Definition Sigma0 (x : Z) : Z :=
  Z.lxor (Z.lxor (rotr 2 x) (rotr 13 x)) (rotr 22 x).
Definition Sigma1 (x : Z) : Z :=
  Z.lxor (Z.lxor (rotr 6 x) (rotr 11 x)) (rotr 25 x).
Definition sigma0 (x : Z) : Z :=
  Z.lxor (Z.lxor (rotr 7 x) (rotr 18 x)) (Z.shiftr x 3).
Definition sigma1 (x : Z) : Z :=
  Z.lxor (Z.lxor (rotr 17 x) (rotr 19 x)) (Z.shiftr x 10).

(** the constants are fractional parts of roots of the first primes *)
Definition is_prime (p : nat) : bool :=
  forallb (fun d => negb (Nat.eqb (p mod d) 0)) (seq 2 (p - 2)).

Definition primes : list Z :=
  map Z.of_nat (List.filter is_prime (seq 2 310)).

(** the floor of the [k]-th root of [n], found bit by bit from bit
    [bits - 1] down *)
Fixpoint root_bits (k : Z) (bits : nat) (n r : Z) : Z :=
  match bits with
  | O => r
  | S b =>
      let c := r + 2 ^ Z.of_nat b in
      root_bits k b n (if c ^ k <=? n then c else r)
  end.

(** the first 32 bits of the fractional part of the [k]-th root of [p] *)
Definition frac_root (k p : Z) : Z :=
  wrap32 (root_bits k 40 (p * 2 ^ (32 * k)) 0).

(** cube roots of the first 64 primes *)
Definition K256 : list Z := map (frac_root 3) primes.

(** square roots of the first 8 primes *)
Definition H256 : list Z := map (frac_root 2) (firstn 8 primes).

(** big-endian bytes of [x], [n] of them *)
Fixpoint be_bytes (n : nat) (x : Z) : list Z :=
  match n with
  | O => []
  | S n' => (Z.shiftr x (8 * Z.of_nat n')) mod 256 :: be_bytes n' x
  end.

(** the message followed by 0x80, zero bytes up to 56 mod 64, and the
    bit length as a 64-bit big-endian number *)
Definition pad (msg : list Z) : list Z :=
  let l := Z.of_nat (length msg) in
  let zeros := Z.to_nat ((55 - l) mod 64) in
  msg ++ [0x80] ++ repeat 0 zeros ++ be_bytes 8 ((8 * l) mod 2 ^ 64).

Fixpoint words_of_bytes (bs : list Z) : list Z :=
  match bs with
  | b0 :: b1 :: b2 :: b3 :: rest =>
      (Z.shiftl b0 24 + Z.shiftl b1 16 + Z.shiftl b2 8 + b3)
        :: words_of_bytes rest
  | _ => []
  end.

(** the message schedule: [w] holds W(t-1) ... W(0), newest first *)
Fixpoint extend (n : nat) (w : list Z) : list Z :=
  match n with
  | O => w
  | S n' =>
      let g := fun i => nth i w 0 in
      extend n'
        (add32 (add32 (add32 (sigma1 (g 1%nat)) (g 6%nat)) (sigma0 (g 14%nat)))
               (g 15%nat) :: w)
  end.

Definition schedule (block : list Z) : list Z :=
  rev (extend 48 (rev block)).

Record regs := Regs { ra : Z; rb : Z; rc : Z; rd : Z;
                      re : Z; rf : Z; rg : Z; rh : Z }.

Definition round (s : regs) (kw : Z * Z) : regs :=
  let t1 := add32 (add32 (add32 (add32 (rh s) (Sigma1 (re s)))
                                (Ch (re s) (rf s) (rg s))) (fst kw)) (snd kw) in
  let t2 := add32 (Sigma0 (ra s)) (Maj (ra s) (rb s) (rc s)) in
  Regs (add32 t1 t2) (ra s) (rb s) (rc s) (add32 (rd s) t1) (re s) (rf s) (rg s).

Definition regs_of (h : list Z) : regs :=
  let g := fun i => nth i h 0 in
  Regs (g 0%nat) (g 1%nat) (g 2%nat) (g 3%nat)
       (g 4%nat) (g 5%nat) (g 6%nat) (g 7%nat).

Definition list_of (s : regs) : list Z :=
  [ra s; rb s; rc s; rd s; re s; rf s; rg s; rh s].

Definition compress (h : list Z) (block : list Z) : list Z :=
  let s := fold_left round (combine K256 (schedule block)) (regs_of h) in
  map (fun p => add32 (fst p) (snd p)) (combine h (list_of s)).

(** the digest state after all 16-word blocks of [ws] *)
Fixpoint blocks (fuel : nat) (h : list Z) (ws : list Z) : list Z :=
  match fuel, ws with
  | S fuel', _ :: _ => blocks fuel' (compress h (firstn 16 ws)) (skipn 16 ws)
  | _, _ => h
  end.

(** the digest as one 256-bit number, most significant word first *)
Definition digest_num (h : list Z) : Z :=
  fold_left (fun acc w => acc * 2 ^ 32 + wrap32 w) h 0 mod 2 ^ 256.

Definition Sum256_num (msg : list Z) : Z :=
  let ws := words_of_bytes (pad msg) in
  digest_num (blocks (length ws) H256 ws).

(** sha256.Sum256: the 32 digest bytes *)
Definition Sum256 (msg : list Z) : list Z := be_bytes 32 (Sum256_num msg).

(** *** encoding/base64, URLEncoding (padded) *)

Definition encodeURL : string :=
  "ABCDEFGHIJKLMNOPQRSTUVWXYZabcdefghijklmnopqrstuvwxyz0123456789-_".

Definition b64char (i : Z) : ascii :=
  match String.get (Z.to_nat i) encodeURL with
  | Some c => c
  | None => "="%char
  end.

Fixpoint EncodeToString (bs : list Z) : string :=
  match bs with
  | [] => ""
  | [b0] =>
      String (b64char (Z.shiftr b0 2))
     (String (b64char (Z.land (Z.shiftl b0 4) 63)) "==")
  | [b0; b1] =>
      String (b64char (Z.shiftr b0 2))
     (String (b64char (Z.land (Z.lor (Z.shiftl b0 4) (Z.shiftr b1 4)) 63))
     (String (b64char (Z.land (Z.shiftl b1 2) 63)) "="))
  | b0 :: b1 :: b2 :: rest =>
      String (b64char (Z.shiftr b0 2))
     (String (b64char (Z.land (Z.lor (Z.shiftl b0 4) (Z.shiftr b1 4)) 63))
     (String (b64char (Z.land (Z.lor (Z.shiftl b1 2) (Z.shiftr b2 6)) 63))
     (String (b64char (Z.land b2 63)) (EncodeToString rest))))
  end.

(** func HashAPIKey(key string) string *)
Definition HashAPIKey (key : string) : string :=
  EncodeToString (Sum256 (bytes_of_string key)).

End auth.

(** ** encoding/json, as used by [json.Unmarshal(data, &allowedModels)]
    with [allowedModels []string]

    Only the outcome matters to the caller: [None] stands for a non-nil
    error (a syntax error found by the scanner, or an UnmarshalTypeError
    saved by the decoder), [Some l] for a nil error with the slice [l].
    Every JSON value other than a string or [null] in element position, and
    every top-level value other than an array or [null], yields an error of
    one kind or the other, so the decoder below only has to recognise
    arrays of strings and nulls.  A [null] element leaves the freshly grown
    slice element at its zero value, the empty string, without error; a
    top-level [null] leaves the slice nil. *)
Module json.

Definition code (c : ascii) : Z := Z.of_N (Ascii.N_of_ascii c).
Definition chr (n : Z) : ascii := Ascii.ascii_of_N (Z.to_N n).
Definition dquote : ascii := chr 34.
Definition backslash : ascii := chr 92.

Definition isSpace (c : ascii) : bool :=
  let n := code c in (n =? 32) || (n =? 9) || (n =? 13) || (n =? 10).

Fixpoint skipSpace (s : string) : string :=
  match s with
  | String c s' => if isSpace c then skipSpace s' else s
  | EmptyString => s
  end.

Definition hexval (c : ascii) : option Z :=
  let n := code c in
  if (48 <=? n) && (n <=? 57) then Some (n - 48)
  else if (97 <=? n) && (n <=? 102) then Some (n - 87)
  else if (65 <=? n) && (n <=? 70) then Some (n - 55)
  else None.

Definition hex4 (s : string) : option (Z * string) :=
  match s with
  | String a (String b (String c (String d rest))) =>
      match hexval a, hexval b, hexval c, hexval d with
      | Some x, Some y, Some z, Some w =>
          Some (((x * 16 + y) * 16 + z) * 16 + w, rest)
      | _, _, _, _ => None
      end
  | _ => None
  end.

(** getu4: the code unit of a leading [\uXXXX] *)
Definition getu4 (s : string) : option (Z * string) :=
  match s with
  | String b (String u rest) =>
      if Ascii.eqb b backslash && (code u =? 117) then hex4 rest else None
  | _ => None
  end.

Definition RuneError : Z := 0xFFFD.

Definition IsSurrogate (r : Z) : bool := (0xd800 <=? r) && (r <? 0xe000).

(** utf16.DecodeRune *)
Definition DecodeRune16 (r1 r2 : Z) : Z :=
  if (0xd800 <=? r1) && (r1 <? 0xdc00) && (0xdc00 <=? r2) && (r2 <? 0xe000)
  then Z.lor (Z.shiftl (r1 - 0xd800) 10) (r2 - 0xdc00) + 0x10000
  else RuneError.

(** utf8.EncodeRune *)
Definition EncodeRune (r : Z) : list Z :=
  let cont := fun x => Z.lor 0x80 (Z.land x 0x3F) in
  if r <? 0x80 then [r]
  else if r <? 0x800 then [Z.lor 0xC0 (Z.shiftr r 6); cont r]
  else if IsSurrogate r || (0x10FFFF <? r) then [0xEF; 0xBF; 0xBD]
  else if r <? 0x10000 then
    [Z.lor 0xE0 (Z.shiftr r 12); cont (Z.shiftr r 6); cont r]
  else
    [Z.lor 0xF0 (Z.shiftr r 18); cont (Z.shiftr r 12);
     cont (Z.shiftr r 6); cont r].

Definition between (lo hi : Z) (c : ascii) : bool :=
  (lo <=? code c) && (code c <=? hi).

(** utf8.DecodeRune: the size of the well-formed encoding at the head of
    [s], or [None] where DecodeRune returns (RuneError, 1) *)
Definition utf8_size (s : string) : option nat :=
  match s with
  | EmptyString => None
  | String c0 s1 =>
      if code c0 <? 0x80 then Some 1%nat
      else
        let second :=
          if between 0xC2 0xDF c0 then Some (0x80, 0xBF, 1%nat)
          else if code c0 =? 0xE0 then Some (0xA0, 0xBF, 2%nat)
          else if between 0xE1 0xEC c0 then Some (0x80, 0xBF, 2%nat)
          else if code c0 =? 0xED then Some (0x80, 0x9F, 2%nat)
          else if between 0xEE 0xEF c0 then Some (0x80, 0xBF, 2%nat)
          else if code c0 =? 0xF0 then Some (0x90, 0xBF, 3%nat)
          else if between 0xF1 0xF3 c0 then Some (0x80, 0xBF, 3%nat)
          else if code c0 =? 0xF4 then Some (0x80, 0x8F, 3%nat)
          else None in
        match second, s1 with
        | Some (lo, hi, n), String c1 s2 =>
            if between lo hi c1 then
              match n, s2 with
              | 1%nat, _ => Some 2%nat
              | 2%nat, String c2 _ =>
                  if between 0x80 0xBF c2 then Some 3%nat else None
              | 3%nat, String c2 (String c3 _) =>
                  if between 0x80 0xBF c2 && between 0x80 0xBF c3
                  then Some 4%nat else None
              | _, _ => None
              end
            else None
        | _, _ => None
        end
  end.

Fixpoint string_of_bytes (bs : list Z) : string :=
  match bs with
  | [] => EmptyString
  | b :: bs' => String (chr b) (string_of_bytes bs')
  end.

Fixpoint take (n : nat) (s : string) : string :=
  match n, s with
  | S n', String c s' => String c (take n' s')
  | _, _ => EmptyString
  end.

Fixpoint drop (n : nat) (s : string) : string :=
  match n, s with
  | S n', String _ s' => drop n' s'
  | _, _ => s
  end.

(** the simple escapes of a string literal *)
Definition escape (e : ascii) : option Z :=
  let n := code e in
  if (n =? 34) || (n =? 92) || (n =? 47) then Some n
  else if n =? 98 then Some 8
  else if n =? 102 then Some 12
  else if n =? 110 then Some 10
  else if n =? 114 then Some 13
  else if n =? 116 then Some 9
  else None.

(** unquote: [s] is the text after the opening quote; the result is the
    decoded literal and the text after the closing quote.  Control
    characters and unknown escapes are syntax errors; ill-formed UTF-8 is
    coerced to U+FFFD as [unquoteBytes] does. *)
Fixpoint unquote (fuel : nat) (s : string) : option (string * string) :=
  match fuel with
  | O => None
  | S fuel' =>
      let push := fun (bs : string) (r : option (string * string)) =>
        match r with
        | Some (lit, rest) => Some (bs +:+ lit, rest)
        | None => None
        end in
      match s with
      | EmptyString => None
      | String c s' =>
          if Ascii.eqb c dquote then Some (EmptyString, s')
          else if Ascii.eqb c backslash then
            match s' with
            | EmptyString => None
            | String e s'' =>
                match escape e with
                | Some b => push (String (chr b) EmptyString) (unquote fuel' s'')
                | None =>
                    if code e =? 117 then
                      match hex4 s'' with
                      | None => None
                      | Some (rr, s3) =>
                          let '(r, s4) :=
                            if IsSurrogate rr then
                              match getu4 s3 with
                              | Some (rr1, s5) =>
                                  if DecodeRune16 rr rr1 =? RuneError
                                  then (RuneError, s3)
                                  else (DecodeRune16 rr rr1, s5)
                              | None => (RuneError, s3)
                              end
                            else (rr, s3) in
                          push (string_of_bytes (EncodeRune r)) (unquote fuel' s4)
                      end
                    else None
                end
            end
          else if code c <? 0x20 then None
          else
            match utf8_size s with
            | Some n => push (take n s) (unquote fuel' (drop n s))
            | None => push (string_of_bytes [0xEF; 0xBF; 0xBD]) (unquote fuel' s')
            end
      end
  end.

Definition is_null (s : string) : option string :=
  if String.eqb (take 4 s) "null" then Some (drop 4 s) else None.

(** one array element: a string literal or, where [nulls] says so,
    [null] *)
Definition element (nulls : bool) (s : string) : option (string * string) :=
  match s with
  | String c s' =>
      if Ascii.eqb c dquote then unquote (S (String.length s')) s'
      else if nulls then
        match is_null s with
        | Some rest => Some (EmptyString, rest)
        | None => None
        end
      else None
  | EmptyString => None
  end.

(** the elements after the first one, up to the closing bracket *)
Fixpoint elements (nulls : bool) (fuel : nat) (s : string)
  : option (list string * string) :=
  match fuel with
  | O => None
  | S fuel' =>
      match skipSpace s with
      | String c s' =>
          if code c =? 93 then Some ([], s')
          else if code c =? 44 then
            match element nulls (skipSpace s') with
            | Some (x, rest) =>
                match elements nulls fuel' rest with
                | Some (xs, rest') => Some (x :: xs, rest')
                | None => None
                end
            | None => None
            end
          else None
      | EmptyString => None
      end
  end.

Definition array (nulls : bool) (s : string) : option (list string * string) :=
  match skipSpace s with
  | String c s' =>
      if code c =? 93 then Some ([], s')
      else
        match element nulls (skipSpace s) with
        | Some (x, rest) =>
            match elements nulls (S (String.length rest)) rest with
            | Some (xs, rest') => Some (x :: xs, rest')
            | None => None
            end
        | None => None
        end
  | EmptyString => None
  end.

Definition at_end (s : string) : bool :=
  match skipSpace s with EmptyString => true | _ => false end.

(** an array of strings and, where [nulls] says so, nulls, or a lone
    [null]; white space may surround every token *)
Definition decode (nulls : bool) (data : string) : option (list string) :=
  match skipSpace data with
  | String c s' =>
      if code c =? 91 then
        match array nulls s' with
        | Some (l, rest) => if at_end rest then Some l else None
        | None => None
        end
      else if nulls then
        match is_null (skipSpace data) with
        | Some rest => if at_end rest then Some [] else None
        | None => None
        end
      else None
  | EmptyString => None
  end.

(** json.Unmarshal([]byte(data), &v) for [var v []string] *)
Definition Unmarshal (data : string) : option (list string) :=
  decode true data.

(** the texts that are a JSON array all of whose elements are strings *)
Definition string_array (data : string) : bool :=
  match decode false data with Some _ => true | None => false end.

(** test inputs are written with ['] for the JSON quote *)
Fixpoint js (s : string) : string :=
  match s with
  | EmptyString => EmptyString
  | String c s' => String (if code c =? 39 then dquote else c) (js s')
  end.

End json.

(** ** internal/database/models

    [time.Time] values are instants in nanoseconds, [float64] costs are
    exact rationals, nullable columns are [option]s. *)
Module models.

Module Client.
Record t := mk {
  ID : Z;
  Name : string;
  APIKeyHash : string;
  Provider : string;
  AllowedModels : string;
  DefaultModel : string;
  RateLimitPerMinute : Z;
  CreatedAt : Z;
  UpdatedAt : Z;
  ExpiresAt : option Z;
  IsActive : bool;
  Metadata : string }.
End Client.

Module UsageLog.
Record t := mk {
  ID : Z;
  ClientID : Z;
  SessionID : option string;
  Timestamp : Z;
  Provider : string;
  Model : string;
  Prompt : option string;
  PromptTokens : Z;
  CompletionTokens : Z;
  TotalTokens : Z;
  Cost : Q;
  ResponseTimeMs : Z;
  ResponseStatus : Z;
  ErrorMessage : option string }.

Definition with_ID (id : Z) (l : t) : t :=
  mk id (ClientID l) (SessionID l) (Timestamp l) (Provider l) (Model l)
     (Prompt l) (PromptTokens l) (CompletionTokens l) (TotalTokens l)
     (Cost l) (ResponseTimeMs l) (ResponseStatus l) (ErrorMessage l).
End UsageLog.

Module UsageStats.
Record t := mk {
  TotalRequests : Z;
  TotalTokens : Z;
  TotalCost : Q;
  ByProvider : gmap string Z;
  ByModel : gmap string Z }.
End UsageStats.

End models.

(** ** internal/database

    The store is the three tables of 001_schema.sql.  A statement either
    runs against the tables or fails in the driver; the failure is an input
    ([fail]) of each operation. *)
Module database.
Import models.

Record DB := mkDB {
  clients : list Client.t;
  usage_logs : list UsageLog.t;
  usage_logs_seq : Z;
  rate_limit_buckets : gmap (Z * Z) Z }.

(** func (db *DB) GetClientByAPIKeyHash(keyHash string), returning the client and the error:
    [inl None] is (nil, nil), the sql.ErrNoRows case *)
Definition GetClientByAPIKeyHash (fail : bool) (db : DB) (keyHash : string)
  : option Client.t + string :=
  if fail then inr "failed to get client"
  else inl (List.find (fun c => String.eqb (Client.APIKeyHash c) keyHash)
                      (clients db)).

(** func IsModelAllowed(client *models.Client, model string) bool *)
Definition IsModelAllowed (client : Client.t) (model : string) : bool :=
  match json.Unmarshal (Client.AllowedModels client) with
  | None => false
  | Some allowedModels =>
      existsb (fun allowedModel =>
                 String.eqb allowedModel model || String.eqb allowedModel "*")
              allowedModels
  end.

(** func (db *DB) CreateUsageLog(log *models.UsageLog) error: the row is
    appended under the next AUTOINCREMENT id, which is written back to
    [log.ID]; on failure nothing is stored and [log] is left as it was *)
Definition CreateUsageLog (fail : bool) (db : DB) (log : UsageLog.t)
  : DB * UsageLog.t * option string :=
  if fail then (db, log, Some "failed to insert usage log")
  else
    let id := usage_logs_seq db + 1 in
    let row := UsageLog.with_ID id log in
    (mkDB (clients db) (usage_logs db ++ [row])%list id (rate_limit_buckets db),
     row, None).

(** the WHERE clause shared by GetUsageLogs and GetUsageStats *)
Definition selected (clientID : Z) (startTime endTime : option Z)
           (l : UsageLog.t) : Prop :=
  UsageLog.ClientID l = clientID
  ∧ from_option (λ t, t <= UsageLog.Timestamp l) True startTime
  ∧ from_option (λ t, UsageLog.Timestamp l <= t) True endTime.

Global Instance selected_dec c s e l : Decision (selected c s e l).
Proof. unfold selected; destruct s, e; simpl; apply _. Defined.

(** SELECT key, COUNT( * ) ... GROUP BY key: one row per distinct key *)
Definition group_count (key : UsageLog.t → string) (rows : list UsageLog.t)
  : list (string * Z) :=
  (λ k, (k, Z.of_nat (length (filter (λ r, key r = k) rows))))
    <$> remove_dups (key <$> rows).

(** for rows.Next() { ...; m[key] = count } *)
Definition scan_counts (rows : list (string * Z)) : gmap string Z :=
  fold_left (λ m kc, <[kc.1 := kc.2]> m) rows ∅.

Definition sum_tokens (rows : list UsageLog.t) : Z :=
  fold_right (λ r acc, UsageLog.TotalTokens r + acc) 0 rows.

Definition sum_cost (rows : list UsageLog.t) : Q :=
  fold_right (λ r acc, Qplus (UsageLog.Cost r) acc) 0%Q rows.

(** func (db *DB) GetUsageStats(clientID int64, startTime, endTime *time.Time)
    [fail1], [fail2], [fail3]: the totals, provider and model queries *)
Definition GetUsageStats (fail1 fail2 fail3 : bool) (db : DB) (clientID : Z)
           (startTime endTime : option Z) : UsageStats.t + string :=
  let rows := filter (selected clientID startTime endTime) (usage_logs db) in
  if fail1 then inr "failed to get usage stats"
  else if fail2 then inr "failed to get provider stats"
  else if fail3 then inr "failed to get model stats"
  else inl (UsageStats.mk
              (Z.of_nat (length rows)) (sum_tokens rows) (sum_cost rows)
              (scan_counts (group_count UsageLog.Provider rows))
              (scan_counts (group_count UsageLog.Model rows))).

(** ORDER BY timestamp DESC *)
Definition newer (a b : UsageLog.t) : Prop :=
  UsageLog.Timestamp b <= UsageLog.Timestamp a.

Global Instance newer_dec a b : Decision (newer a b).
Proof. unfold newer. apply _. Defined.

Definition newest_first (rows : list UsageLog.t) : list UsageLog.t :=
  merge_sort newer rows.

(** func (db *DB) GetUsageLogs(clientID, limit, offset, startTime, endTime) *)
Definition GetUsageLogs (fail : bool) (db : DB) (clientID : Z)
           (limit offset : Z) (startTime endTime : option Z)
  : list UsageLog.t + string :=
  if fail then inr "failed to query usage logs"
  else inl (firstn (Z.to_nat limit) (skipn (Z.to_nat offset)
              (newest_first
                 (filter (selected clientID startTime endTime) (usage_logs db))))).

(** func (db *DB) IncrementRateLimitBucket(clientID int64, windowStart time.Time) error *)
Definition IncrementRateLimitBucket (fail : bool) (db : DB)
           (clientID windowStart : Z) : DB * option string :=
  if fail then (db, Some "failed to increment rate limit bucket")
  else
    let n := match rate_limit_buckets db !! (clientID, windowStart) with
             | Some c => c + 1
             | None => 1
             end in
    (mkDB (clients db) (usage_logs db) (usage_logs_seq db)
          (<[(clientID, windowStart) := n]> (rate_limit_buckets db)), None).

(** the sum of the counts of a by_provider / by_model breakdown *)
Definition sum_counts (m : gmap string Z) : Z :=
  map_fold (λ _ c acc, c + acc) 0 m.

End database.

(** ** golang.org/x/time/rate

    The limiter of the middleware.  [float64] token counts are exact
    rationals; instants and durations are in nanoseconds.  [Inf] is left
    out: [getLimiter] only ever passes [ratePerMinute / 60]. *)
Module rate.

Record Limiter := mkLimiter {
  limit : Q;
  burst : Z;
  tokens : Q;
  last : Z }.

Definition Second : Z := 1000000000.
Definition InfDuration : Z := 2 ^ 63 - 1.

(** func NewLimiter(r Limit, b int) *Limiter *)
Definition NewLimiter (r : Q) (b : Z) : Limiter :=
  mkLimiter r b (inject_Z b) 0.

(** float to integer conversion: truncation towards zero *)
Definition Qtrunc (q : Q) : Z := Z.quot (Qnum q) (Zpos (Qden q)).

(** func (limit Limit) tokensFromDuration(d time.Duration) float64 *)
Definition tokensFromDuration (lim : Q) (d : Z) : Q :=
  if Qle_bool lim 0 then 0%Q
  else Qmult (Qmake d 1000000000) lim.

(** func (limit Limit) durationFromTokens(tokens float64) time.Duration *)
Definition durationFromTokens (lim : Q) (tok : Q) : Z :=
  if Qle_bool lim 0 then InfDuration
  else
    let duration := Qmult (Qdiv tok lim) (inject_Z Second) in
    if Qle_bool duration (inject_Z InfDuration) then Qtrunc duration
    else InfDuration.

(** func (lim *Limiter) advance(t time.Time) (newT time.Time, newTokens float64) *)
Definition advance (lim : Limiter) (t : Z) : Q :=
  let last := if t <? last lim then t else last lim in
  let elapsed := t - last in
  let delta := tokensFromDuration (limit lim) elapsed in
  let tokens := Qplus (tokens lim) delta in
  if Qle_bool tokens (inject_Z (burst lim)) then tokens
  else inject_Z (burst lim).

(** func (lim *Limiter) reserveN(t, n, maxFutureReserve), as called by
    [Allow()]: n = 1 and maxFutureReserve = 0.  The result is the [ok]
    flag and the limiter after the call. *)
Definition Allow (lim : Limiter) (t : Z) : bool * Limiter :=
  let tokens := Qminus (advance lim t) 1 in
  let waitDuration :=
    if Qle_bool 0 tokens then 0
    else durationFromTokens (limit lim) (Qopp tokens) in
  let ok := (1 <=? burst lim) && (waitDuration <=? 0) in
  if ok then (true, mkLimiter (limit lim) (burst lim) tokens t)
  else (false, lim).

End rate.

(** ** internal/agents: types.go, and the os/exec calls of the providers *)
Module agents.

Record ModelInfo := mkModelInfo { Name : string; Enabled : bool }.

Module ExecuteRequest.
Record t := mk {
  Prompt : string;
  Model : string;
  AllowTools : list string;
  DenyTools : list string;
  Force : bool;
  WorkingDirectory : string;
  EnvironmentVars : list (string * string);
  Timeout : Z }.
End ExecuteRequest.

Module ExecuteResponse.
Record t := mk {
  Content : string;
  Model : string;
  PromptTokens : Z;
  CompletionTokens : Z;
  TotalTokens : Z;
  ResponseTime : Z;
  SessionID : string }.
End ExecuteResponse.

(** func EstimateTokens(text string) int: Go's [/] on [int] truncates *)
Definition EstimateTokens (text : string) : Z := Z.quot (len text) 4.

(** an exec.Cmd as the providers set it up *)
Record Cmd := mkCmd {
  Path : string;
  Args : list string;
  Dir : string;
  Env : list string;
  Deadline : Z }.

(** what the host answers to the providers during one request:
    exec.LookPath, os.Environ, cmd.CombinedOutput (output and error),
    time.Since(startTime) once the command has returned, and the models
    that the provider's help text yields (fetchModelsFromCLI; the two
    regular expressions are not modelled, nor is the cache in front) *)
Record Host := mkHost {
  LookPath : string → bool;
  Environ : list string;
  CombinedOutput : Cmd → string * option string;
  Since : Z;
  fetchModelsFromCLI : string → list ModelInfo }.

(** type Provider interface *)
Record Provider := mkProvider {
  Execute : Host → ExecuteRequest.t → ExecuteResponse.t + string;
  ProviderName : string;
  IsAvailable : Host → bool;
  GetSupportedModels : Host → list string;
  GetModelsInfo : Host → list ModelInfo }.

(** the names of the enabled models, in order *)
Definition enabled_names (models : list ModelInfo) : list string :=
  Name <$> List.filter Enabled models.

Definition nonempty (s : string) : bool := negb (String.eqb s "").

(** append(env, k+"="+v) for each caller-supplied variable *)
Definition env_entries (vars : list (string * string)) : list string :=
  (λ kv, kv.1 +:+ "=" +:+ kv.2) <$> vars.

End agents.

(** ** internal/agents/copilot/copilot.go *)
Module copilot.
Import agents.

Record Provider := mk { binaryPath : string; timeout : Z; token : string }.

Definition NewProvider (binaryPath : string) (timeout : Z) (token : string)
  : Provider :=
  mk (if nonempty binaryPath then binaryPath else "copilot")
     (if timeout =? 0 then 120 * rate.Second else timeout)
     token.

Definition IsAvailable (p : Provider) (os : Host) : bool :=
  LookPath os (binaryPath p).

Definition GetModelsInfo (p : Provider) (os : Host) : list ModelInfo :=
  fetchModelsFromCLI os (binaryPath p).

Definition GetSupportedModels (p : Provider) (os : Host) : list string :=
  let models := GetModelsInfo p os in
  match models with
  | [] =>
      [ "claude-sonnet-4.5"; "claude-haiku-4.5"; "claude-opus-4.5";
        "claude-sonnet-4"; "gpt-5.1-codex-max"; "gpt-5.1-codex"; "gpt-5.2";
        "gpt-5.1"; "gpt-5"; "gpt-5.1-codex-mini"; "gpt-5-mini"; "gpt-4.1";
        "gemini-3-pro-preview" ]
  | _ => enabled_names models
  end.

(** func (p *Provider) Execute(ctx, req) *)
Definition Execute (p : Provider) (os : Host) (req : ExecuteRequest.t)
  : ExecuteResponse.t + string :=
  let timeout :=
    if 0 <? ExecuteRequest.Timeout req then ExecuteRequest.Timeout req
    else timeout p in
  let args :=
    (["-p"; ExecuteRequest.Prompt req; "-s"; "--allow-all-tools"]
     ++ (if nonempty (ExecuteRequest.Model req)
         then ["--model"; ExecuteRequest.Model req] else [])
     ++ flat_map (λ tool, ["--allow-tool"; tool]) (ExecuteRequest.AllowTools req)
     ++ flat_map (λ tool, ["--deny-tool"; tool]) (ExecuteRequest.DenyTools req))%list in
  let env :=
    (Environ os
     ++ (if nonempty (token p) then ["COPILOT_GITHUB_TOKEN=" +:+ token p] else [])
     ++ env_entries (ExecuteRequest.EnvironmentVars req))%list in
  let cmd := mkCmd (binaryPath p) args (ExecuteRequest.WorkingDirectory req)
                   env timeout in
  match CombinedOutput os cmd with
  | (output, Some err) =>
      inr ("copilot CLI execution failed: " +:+ err +:+ ", output: " +:+ output)
  | (output, None) =>
      let content := output in
      let responseTime := Since os in
      let promptTokens := EstimateTokens (ExecuteRequest.Prompt req) in
      let completionTokens := EstimateTokens content in
      inl (ExecuteResponse.mk content (ExecuteRequest.Model req)
             promptTokens completionTokens (promptTokens + completionTokens)
             responseTime "")
  end.

Definition as_Provider (p : Provider) : agents.Provider :=
  mkProvider (Execute p) "copilot" (IsAvailable p) (GetSupportedModels p)
             (GetModelsInfo p).

End copilot.

(** ** internal/agents/cursor/cursor.go *)
Module cursor.
Import agents.

Record Provider := mk { binaryPath : string; timeout : Z; apiKey : string }.

(** the fields of the anonymous [result] struct of Execute *)
Record result := mkResult {
  Content : string; Model : string; Metadata_SessionID : string }.

Definition NewProvider (binaryPath : string) (timeout : Z) (apiKey : string)
  : Provider :=
  mk (if nonempty binaryPath then binaryPath else "cursor-agent")
     (if timeout =? 0 then 120 * rate.Second else timeout)
     apiKey.

Definition IsAvailable (p : Provider) (os : Host) : bool :=
  LookPath os (binaryPath p).

Definition GetModelsInfo (p : Provider) (os : Host) : list ModelInfo :=
  fetchModelsFromCLI os (binaryPath p).

Definition GetSupportedModels (p : Provider) (os : Host) : list string :=
  let models := GetModelsInfo p os in
  match models with
  | [] => []
  | _ => enabled_names models
  end.

Section Execute.
(** json.Unmarshal(output, &result): the decoder of the result struct is
    taken as given; [None] is a non-nil error *)
Variable Unmarshal_result : string → option result.

(** func (p *Provider) Execute(ctx, req) *)
Definition Execute (p : Provider) (os : Host) (req : ExecuteRequest.t)
  : ExecuteResponse.t + string :=
  let timeout :=
    if 0 <? ExecuteRequest.Timeout req then ExecuteRequest.Timeout req
    else timeout p in
  let args :=
    (["-p"; "--output-format"; "json"; ExecuteRequest.Prompt req]
     ++ (if nonempty (ExecuteRequest.Model req)
         then ["--model"; ExecuteRequest.Model req] else [])
     ++ (if ExecuteRequest.Force req then ["--force"] else []))%list in
  let env :=
    (Environ os
     ++ (if nonempty (apiKey p) then ["CURSOR_API_KEY=" +:+ apiKey p] else [])
     ++ env_entries (ExecuteRequest.EnvironmentVars req))%list in
  let cmd := mkCmd (binaryPath p) args (ExecuteRequest.WorkingDirectory req)
                   env timeout in
  match CombinedOutput os cmd with
  | (output, Some err) =>
      inr ("cursor CLI execution failed: " +:+ err +:+ ", output: " +:+ output)
  | (output, None) =>
      let result :=
        match Unmarshal_result output with
        | Some r => r
        | None => mkResult output "" ""
        end in
      let responseTime := Since os in
      let promptTokens := EstimateTokens (ExecuteRequest.Prompt req) in
      let completionTokens := EstimateTokens (Content result) in
      inl (ExecuteResponse.mk (Content result) (Model result)
             promptTokens completionTokens (promptTokens + completionTokens)
             responseTime (Metadata_SessionID result))
  end.

Definition as_Provider (p : Provider) : agents.Provider :=
  mkProvider (Execute p) "cursor" (IsAvailable p) (GetSupportedModels p)
             (GetModelsInfo p).
End Execute.

End cursor.

(** ** net/http, as far as the gateway uses it *)
Module http.

Definition StatusOK : Z := 200.
Definition StatusBadRequest : Z := 400.
Definition StatusUnauthorized : Z := 401.
Definition StatusForbidden : Z := 403.
Definition StatusTooManyRequests : Z := 429.
Definition StatusInternalServerError : Z := 500.
Definition StatusServiceUnavailable : Z := 503.

(** a request: the Authorization header (empty when absent), the body as
    json.NewDecoder(r.Body).Decode reads it ([None] when Decode fails),
    and the client stored in the context under ClientContextKey *)
Record Request (B : Type) := mkRequest {
  Authorization : string;
  Body : option B;
  Context : option models.Client.t }.
Arguments mkRequest {B}.
Arguments Authorization {B}.
Arguments Body {B}.
Arguments Context {B}.

(** a response: the status and the JSON body, [inl msg] for the
    single-field error object *)
Record Response (R : Type) := mkResponse {
  Status : Z;
  Payload : string + R }.
Arguments mkResponse {R}.
Arguments Status {R}.
Arguments Payload {R}.

(** the calls that leave the process, in the order they are made *)
Inductive Event :=
| LookupClient (keyHash : string)
| IncrementBucket (clientID windowStart : Z)
| InsertUsageLog (log : models.UsageLog.t)
| ProbeProvider (provider : string)
| ListModels (provider : string)
| Dispatch (provider : string) (req : agents.ExecuteRequest.t).

(** the state shared by all requests: the store behind [*database.DB],
    the limiter map of RateLimitMiddleware, and the calls made so far *)
Record Server := mkServer {
  db : database.DB;
  limiters : gmap Z rate.Limiter;
  trace : list Event }.

Definition emit (e : Event) (s : Server) : Server :=
  mkServer (db s) (limiters s) (trace s ++ [e])%list.

(** what the surroundings contribute to one request: time.Now() (one
    instant stands for all the readings of the clock within a request), the
    host, which store statements fail, and the handler's
    time.Since(startTime) *)
Record Env := mkEnv {
  Now : Z;
  os : agents.Host;
  lookup_fails : bool;
  bucket_fails : bool;
  insert_fails : bool;
  Elapsed : Z }.

Definition Handler (B R : Type) : Type :=
  Env → Request B → Server → Server * Response R.

(** respondJSON(w, status, map[string]string{"error": message}) *)
Definition respondError {R} (status : Z) (message : string) : Response R :=
  mkResponse status (inl message).

End http.

(** ** internal/api/middleware/auth.go *)
Module middleware.
Import models http.

(** strings.SplitN(s, " ", 2) *)
Fixpoint cut_space (s : string) : option (string * string) :=
  match s with
  | EmptyString => None
  | String c s' =>
      if Ascii.eqb c " "%char then Some (EmptyString, s')
      else match cut_space s' with
           | Some (a, b) => Some (String c a, b)
           | None => None
           end
  end.

Definition SplitN2 (s : string) : list string :=
  match cut_space s with
  | Some (a, b) => [a; b]
  | None => [s]
  end.

Section Middleware.
Context {B R : Type}.

(** func (m *AuthMiddleware) Authenticate(next http.Handler) http.Handler *)
Definition Authenticate (next : Handler B R) : Handler B R :=
  λ env r s,
    let authHeader := Authorization r in
    if String.eqb authHeader "" then
      (s, respondError StatusUnauthorized "missing authorization header")
    else
      match SplitN2 authHeader with
      | [scheme; apiKey] =>
          if negb (String.eqb scheme "Bearer") then
            (s, respondError StatusUnauthorized
                  "invalid authorization header format")
          else if negb (auth.ValidateAPIKeyFormat apiKey) then
            (s, respondError StatusUnauthorized "invalid API key format")
          else
            let keyHash := auth.HashAPIKey apiKey in
            let s := emit (LookupClient keyHash) s in
            match database.GetClientByAPIKeyHash (lookup_fails env)
                                                 (db s) keyHash with
            | inr _ =>
                (s, respondError StatusInternalServerError
                      "failed to validate API key")
            | inl None =>
                (s, respondError StatusUnauthorized "invalid API key")
            | inl (Some client) =>
                if negb (Client.IsActive client) then
                  (s, respondError StatusForbidden "API key is inactive")
                else if match Client.ExpiresAt client with
                        | Some t => t <? Now env
                        | None => false
                        end then
                  (s, respondError StatusForbidden "API key has expired")
                else
                  next env (mkRequest (Authorization r) (Body r) (Some client)) s
            end
      | _ =>
          (s, respondError StatusUnauthorized
                "invalid authorization header format")
      end.

(** func (m *RateLimitMiddleware) getLimiter(clientID int64, ratePerMinute int):
    the limiter and the map after the create-on-miss *)
Definition getLimiter (limiters : gmap Z rate.Limiter)
           (clientID ratePerMinute : Z)
  : rate.Limiter * gmap Z rate.Limiter :=
  match limiters !! clientID with
  | Some limiter => (limiter, limiters)
  | None =>
      let ratePerSecond := Qdiv (inject_Z ratePerMinute) 60 in
      let limiter := rate.NewLimiter ratePerSecond ratePerMinute in
      (limiter, <[clientID := limiter]> limiters)
  end.

(** time.Now().Truncate(time.Minute) *)
Definition Truncate_Minute (t : Z) : Z := t - t mod (60 * rate.Second).

(** func (m *RateLimitMiddleware) RateLimit(next http.Handler) http.Handler:
    the map holds pointers, so the limiter that [Allow] has updated is
    the one found at the next request *)
Definition RateLimit (next : Handler B R) : Handler B R :=
  λ env r s,
    match Context r with
    | None =>
        (s, respondError StatusInternalServerError
              "client not found in context")
    | Some client =>
        let '(limiter, lims) :=
          getLimiter (limiters s) (Client.ID client)
                     (Client.RateLimitPerMinute client) in
        let '(ok, limiter) := rate.Allow limiter (Now env) in
        let s := mkServer (db s) (<[Client.ID client := limiter]> lims)
                          (trace s) in
        if negb ok then
          (s, respondError StatusTooManyRequests "rate limit exceeded")
        else
          let windowStart := Truncate_Minute (Now env) in
          let s := emit (IncrementBucket (Client.ID client) windowStart) s in
          let '(db', _) :=
            database.IncrementRateLimitBucket (bucket_fails env) (db s)
                                              (Client.ID client) windowStart in
          next env r (mkServer db' (limiters s) (trace s))
    end.
End Middleware.

End middleware.

(** ** internal/api/handlers/chat.go *)
Module handlers.
Import models http.

Record Message := mkMessage { Role : string; Content : string }.

Module ChatCompletionRequest.
Record t := mk {
  Provider : string;
  Model : string;
  Messages : list Message;
  AllowTools : list string;
  DenyTools : list string;
  Force : bool;
  WorkingDirectory : string }.
End ChatCompletionRequest.

Module ChatCompletionResponse.
Record t := mk {
  ID : string;
  Provider : string;
  Model : string;
  Content : string;
  PromptTokens : Z;
  CompletionTokens : Z;
  TotalTokens : Z;
  Cost : Q;
  DurationMs : Z }.
End ChatCompletionResponse.

(** type ChatHandler struct: [db] is the [Server]'s *)
Record ChatHandler := mkChatHandler {
  providers : gmap string agents.Provider }.

(** func NewChatHandler(db, copilotProvider, cursorProvider) *ChatHandler *)
Definition NewChatHandler (copilotProvider cursorProvider : agents.Provider)
  : ChatHandler :=
  mkChatHandler (<["cursor" := cursorProvider]>
                   (<["copilot" := copilotProvider]> ∅)).

Definition newline : string := String (json.chr 10) EmptyString.

(** func (h *ChatHandler) messagesToPrompt(messages []Message) string *)
Definition messagesToPrompt (messages : list Message) : string :=
  fold_left
    (λ prompt msg,
       if String.eqb (Role msg) "user"
       then prompt +:+ (Content msg +:+ newline)
       else prompt)
    messages EmptyString.

(** func (h *ChatHandler) calculateCost(model string, tokens int) float64 *)
Definition calculateCost (model : string) (tokens : Z) : Q :=
  let pricePerThousand :=
    (if String.eqb model "gpt-5" then 0.05
     else if String.eqb model "gpt-4o" then 0.03
     else if String.eqb model "claude-sonnet-4.5" then 0.03
     else if String.eqb model "claude-sonnet-3.5" then 0.02
     else if String.eqb model "gpt-4" then 0.03
     else if String.eqb model "o1-preview" then 0.10
     else if String.eqb model "o1-mini" then 0.05
     else 0.01)%Q in
  (inject_Z tokens / 1000 * pricePerThousand)%Q.

(** strconv for "%d" *)
Definition itoa (n : Z) : string := NilZero.string_of_int (Z.to_int n).

(** time.Duration.Milliseconds() *)
Definition Milliseconds (d : Z) : Z := Z.quot d 1000000.

(** the model of the request after the defaulting at the top of
    HandleChatCompletion, and the server after the GetSupportedModels
    call it may make *)
Definition resolve_model (h : ChatHandler) (env : Env) (client : Client.t)
           (req : ChatCompletionRequest.t) (s : Server) : Server * string :=
  if negb (String.eqb (ChatCompletionRequest.Model req) "") then
    (s, ChatCompletionRequest.Model req)
  else if negb (String.eqb (Client.DefaultModel client) "") then
    (s, Client.DefaultModel client)
  else
    match providers h !! Client.Provider client with
    | Some provider =>
        (emit (ListModels (Client.Provider client)) s,
         match agents.GetSupportedModels provider (os env) with
         | m :: _ => m
         | [] => EmptyString
         end)
    | None => (s, EmptyString)
    end.

(** func (h *ChatHandler) HandleChatCompletion(w, r) *)
Definition HandleChatCompletion (h : ChatHandler)
  : Handler ChatCompletionRequest.t ChatCompletionResponse.t :=
  λ env r s,
    match Context r with
    | None =>
        (s, respondError StatusInternalServerError "client not found in context")
    | Some client =>
        match Body r with
        | None => (s, respondError StatusBadRequest "invalid request body")
        | Some req =>
            let req_Provider := Client.Provider client in
            let '(s, req_Model) := resolve_model h env client req s in
            if String.eqb req_Model "" then
              (s, respondError StatusBadRequest
                    "model is required (no default configured)")
            else
              match providers h !! req_Provider with
              | None =>
                  (s, respondError StatusBadRequest
                        ("unknown provider: " +:+ req_Provider))
              | Some provider =>
                  let s := emit (ProbeProvider req_Provider) s in
                  if negb (agents.IsAvailable provider (os env)) then
                    (s, respondError StatusServiceUnavailable
                          ("provider " +:+ req_Provider +:+ " is not available"))
                  else if negb (database.IsModelAllowed client req_Model)
                          && negb (database.IsModelAllowed client "*") then
                    (s, respondError StatusForbidden
                          ("model " +:+ req_Model
                           +:+ " is not allowed for this client"))
                  else
                    let prompt :=
                      messagesToPrompt (ChatCompletionRequest.Messages req) in
                    let cliReq :=
                      agents.ExecuteRequest.mk prompt req_Model
                        (ChatCompletionRequest.AllowTools req)
                        (ChatCompletionRequest.DenyTools req)
                        (ChatCompletionRequest.Force req)
                        (ChatCompletionRequest.WorkingDirectory req) [] 0 in
                    let s := emit (Dispatch req_Provider cliReq) s in
                    match agents.Execute provider (os env) cliReq with
                    | inr err =>
                        let errorMsg := err in
                        let usageLog :=
                          UsageLog.mk 0 (Client.ID client) None (Now env)
                            req_Provider req_Model (Some prompt) 0 0 0 0%Q
                            (Milliseconds (Elapsed env))
                            StatusInternalServerError (Some errorMsg) in
                        let s := emit (InsertUsageLog usageLog) s in
                        let '(db', _, _) :=
                          database.CreateUsageLog (insert_fails env) (db s)
                                                  usageLog in
                        (mkServer db' (limiters s) (trace s),
                         respondError StatusInternalServerError
                           ("CLI execution failed: " +:+ err))
                    | inl resp =>
                        let cost :=
                          calculateCost req_Model
                            (agents.ExecuteResponse.TotalTokens resp) in
                        let usageLog :=
                          UsageLog.mk 0 (Client.ID client)
                            (Some (agents.ExecuteResponse.SessionID resp))
                            (Now env) req_Provider
                            (agents.ExecuteResponse.Model resp) (Some prompt)
                            (agents.ExecuteResponse.PromptTokens resp)
                            (agents.ExecuteResponse.CompletionTokens resp)
                            (agents.ExecuteResponse.TotalTokens resp)
                            cost
                            (Milliseconds (agents.ExecuteResponse.ResponseTime resp))
                            StatusOK None in
                        let s := emit (InsertUsageLog usageLog) s in
                        let '(db', usageLog, _) :=
                          database.CreateUsageLog (insert_fails env) (db s)
                                                  usageLog in
                        let response :=
                          ChatCompletionResponse.mk
                            ("chatcmpl-" +:+ itoa (UsageLog.ID usageLog))
                            req_Provider
                            (agents.ExecuteResponse.Model resp)
                            (agents.ExecuteResponse.Content resp)
                            (agents.ExecuteResponse.PromptTokens resp)
                            (agents.ExecuteResponse.CompletionTokens resp)
                            (agents.ExecuteResponse.TotalTokens resp)
                            cost
                            (Milliseconds (agents.ExecuteResponse.ResponseTime resp)) in
                        (mkServer db' (limiters s) (trace s),
                         mkResponse StatusOK (inr response))
                    end
              end
        end
    end.

End handlers.

(** ** internal/api/routes.go *)
Module api.
Import http.

(** func applyMiddleware(h, middleware...): the first middleware is the
    outermost *)
Definition applyMiddleware {B R} (h : Handler B R)
           (mw : list (Handler B R → Handler B R)) : Handler B R :=
  fold_right (λ m h, m h) h mw.

(** the handler mounted at /v1/chat/completions by SetupRoutes *)
Definition chat_completions (chatHandler : handlers.ChatHandler)
  : Handler handlers.ChatCompletionRequest.t handlers.ChatCompletionResponse.t :=
  applyMiddleware (handlers.HandleChatCompletion chatHandler)
                  [middleware.Authenticate; middleware.RateLimit].

End api.

(** ** internal/database/clients.go: the operations of the management side

    The engine contributes the row id it assigns to an insert
    ([result.LastInsertId()]; the schema declares AUTOINCREMENT, whose
    counter is not part of [DB]), its CURRENT_TIMESTAMP, and whether the
    connection enforces the foreign keys ([PRAGMA foreign_keys], which
    database.New switches on for the connection it opens). *)
Module clients.
Import models database.

Definition with_ID_times (id created updated : Z) (c : Client.t) : Client.t :=
  Client.mk id (Client.Name c) (Client.APIKeyHash c) (Client.Provider c)
            (Client.AllowedModels c) (Client.DefaultModel c)
            (Client.RateLimitPerMinute c) created updated
            (Client.ExpiresAt c) (Client.IsActive c) (Client.Metadata c).

(** the UNIQUE constraint on api_key_hash *)
Definition hash_taken (db : DB) (keyHash : string) : bool :=
  existsb (λ c, String.eqb (Client.APIKeyHash c) keyHash) (clients db).

(** func (db *DB) CreateClient(client *models.Client) error: the row gets
    the engine's id and timestamp; the struct gets the id and time.Now() *)
Definition CreateClient (fail : bool) (rowid stamp now : Z) (db : DB)
           (client : Client.t) : DB * Client.t * option string :=
  if fail || hash_taken db (Client.APIKeyHash client) then
    (db, client, Some "failed to insert client")
  else
    (mkDB (clients db ++ [with_ID_times rowid stamp stamp client])%list
          (usage_logs db) (usage_logs_seq db) (rate_limit_buckets db),
     with_ID_times rowid now now client, None).

(** func (db *DB) GetClientByID(id int64) *)
Definition GetClientByID (fail : bool) (db : DB) (id : Z)
  : option Client.t + string :=
  if fail then inr "failed to get client"
  else inl (List.find (λ c, Client.ID c =? id) (clients db)).

(** ORDER BY created_at DESC *)
Definition created_after (a b : Client.t) : Prop :=
  Client.CreatedAt b <= Client.CreatedAt a.

Global Instance created_after_dec a b : Decision (created_after a b).
Proof. unfold created_after. apply _. Defined.

(** func (db *DB) ListClients() *)
Definition ListClients (fail : bool) (db : DB) : list Client.t + string :=
  if fail then inr "failed to query clients"
  else inl (merge_sort created_after (clients db)).

(** the SET clause of UpdateClient: every column but id, api_key_hash and
    created_at *)
Definition updated_row (now : Z) (client row : Client.t) : Client.t :=
  Client.mk (Client.ID row) (Client.Name client) (Client.APIKeyHash row)
            (Client.Provider client) (Client.AllowedModels client)
            (Client.DefaultModel client) (Client.RateLimitPerMinute client)
            (Client.CreatedAt row) now (Client.ExpiresAt client)
            (Client.IsActive client) (Client.Metadata client).

(** func (db *DB) UpdateClient(client *models.Client) error *)
Definition UpdateClient (fail : bool) (now : Z) (db : DB) (client : Client.t)
  : DB * option string :=
  if fail then (db, Some "failed to update client")
  else
    (mkDB (map (λ row, if Client.ID row =? Client.ID client
                       then updated_row now client row else row)
               (clients db))
          (usage_logs db) (usage_logs_seq db) (rate_limit_buckets db), None).

(** func (db *DB) DeleteClient(id int64) error: ON DELETE CASCADE takes the
    client's usage logs and rate buckets along where the connection
    enforces the foreign keys *)
Definition DeleteClient (fail cascade : bool) (db : DB) (id : Z)
  : DB * option string :=
  if fail then (db, Some "failed to delete client")
  else
    (mkDB (List.filter (λ c, negb (Client.ID c =? id)) (clients db))
          (if cascade
           then List.filter (λ l, negb (UsageLog.ClientID l =? id)) (usage_logs db)
           else usage_logs db)
          (usage_logs_seq db)
          (if cascade
           then filter (λ kv, kv.1.1 ≠ id) (rate_limit_buckets db)
           else rate_limit_buckets db),
     None).

End clients.

(** ** internal/database/usage.go: deletion and the rate buckets *)
Module usage.
Import models database.

(** func (db *DB) DeleteUsageLogsByClient(clientID int64) error: the
    driver's error is returned as it is *)
Definition DeleteUsageLogsByClient (fail : option string) (db : DB)
           (clientID : Z) : DB * option string :=
  match fail with
  | Some err => (db, Some err)
  | None =>
      (mkDB (clients db)
            (List.filter (λ l, negb (UsageLog.ClientID l =? clientID))
                         (usage_logs db))
            (usage_logs_seq db) (rate_limit_buckets db), None)
  end.

(** func (db *DB) GetRateLimitCount(clientID int64, windowStart time.Time):
    a missing row counts 0 *)
Definition GetRateLimitCount (fail : bool) (db : DB) (clientID windowStart : Z)
  : Z + string :=
  if fail then inr "failed to get rate limit count"
  else inl (match rate_limit_buckets db !! (clientID, windowStart) with
            | Some count => count
            | None => 0
            end).

(** func (db *DB) CleanupOldRateLimitBuckets(before time.Time) error *)
Definition CleanupOldRateLimitBuckets (fail : bool) (db : DB) (before : Z)
  : DB * option string :=
  if fail then (db, Some "failed to cleanup old rate limit buckets")
  else
    (mkDB (clients db) (usage_logs db) (usage_logs_seq db)
          (filter (λ kv, ¬ kv.1.2 < before) (rate_limit_buckets db)), None).

End usage.

(** ** internal/management: DeleteClientJSON *)
Module management.
Import models database.

(** func (cm *ClientManager) DeleteClientJSON(clientID int64): the usage
    logs first, then the client; [true] is the output with success *)
Definition DeleteClientJSON (fail_logs : option string) (fail_client cascade : bool)
           (db : DB) (clientID : Z) : DB * bool :=
  match usage.DeleteUsageLogsByClient fail_logs db clientID with
  | (db, Some _) => (db, false)
  | (db, None) =>
      match clients.DeleteClient fail_client cascade db clientID with
      | (db, Some _) => (db, false)
      | (db, None) => (db, true)
      end
  end.

End management.

(** ** internal/auth: GenerateAPIKey *)
Module keygen.

(** func GenerateAPIKey() (string, error): [random] is what rand.Read
    delivers, the bytes or its error *)
Definition GenerateAPIKey (random : list Z + string) : string + string :=
  match random with
  | inr err => inr ("failed to generate random bytes: " +:+ err)
  | inl bytes => inl (auth.APIKeyPrefix +:+ auth.EncodeToString bytes)
  end.

End keygen.

(** ** internal/api/handlers/usage.go *)
Module usage_handlers.
Import models http.

(** the four parameters that the handlers read from r.URL.Query(); Get
    gives the empty string for a parameter that is absent *)
Record Query := mkQuery {
  limit : string;
  offset : string;
  start_time : string;
  end_time : string }.

Definition digit (c : ascii) : option Z :=
  let n := json.code c in
  if (48 <=? n) && (n <=? 57) then Some (n - 48) else None.

Fixpoint digits (s : string) (acc : Z) : option Z :=
  match s with
  | EmptyString => Some acc
  | String c s' =>
      match digit c with
      | Some d => digits s' (10 * acc + d)
      | None => None
      end
  end.

(** strconv.Atoi: an optional sign and decimal digits, within int64;
    [None] is a non-nil error *)
Definition Atoi (s : string) : option Z :=
  let '(sign, body) :=
    match s with
    | String c s' =>
        if json.code c =? 43 then (1, s')
        else if json.code c =? 45 then (-1, s')
        else (1, s)
    | EmptyString => (1, s)
    end in
  match body with
  | EmptyString => None
  | _ =>
      match digits body 0 with
      | Some n =>
          let v := sign * n in
          if (- 2 ^ 63 <=? v) && (v <=? 2 ^ 63 - 1) then Some v else None
      | None => None
      end
  end.

(** the body of the 200 answer of HandleGetUsage *)
Record Page := mkPage { logs : list UsageLog.t; page_limit : Z; page_offset : Z }.

Section Handlers.
(** time.Parse(time.RFC3339, text): the parser is taken as given; [None]
    is a non-nil error *)
Variable ParseRFC3339 : string → option Z.

Definition query_of (r : Request Query) : Query :=
  match Body r with
  | Some q => q
  | None => mkQuery "" "" "" ""
  end.

Definition limit_of (q : Query) : Z :=
  match Atoi (limit q) with
  | Some parsed => if 0 <? parsed then parsed else 100
  | None => 100
  end.

Definition offset_of (q : Query) : Z :=
  match Atoi (offset q) with
  | Some parsed => if 0 <=? parsed then parsed else 0
  | None => 0
  end.

(** a time parameter that is absent or does not parse is no bound *)
Definition time_of (text : string) : option Z :=
  if String.eqb text "" then None else ParseRFC3339 text.

(** func (h *UsageHandler) HandleGetUsage(w, r); [fail]: the query fails *)
Definition HandleGetUsage (fail : bool) : Handler Query Page :=
  λ env r s,
    match Context r with
    | None =>
        (s, respondError StatusInternalServerError "client not found in context")
    | Some client =>
        let q := query_of r in
        let limit := limit_of q in
        let offset := offset_of q in
        let startTime := time_of (start_time q) in
        let endTime := time_of (end_time q) in
        match database.GetUsageLogs fail (db s) (Client.ID client) limit offset
                                    startTime endTime with
        | inr _ =>
            (s, respondError StatusInternalServerError
                  "failed to retrieve usage logs")
        | inl logs => (s, mkResponse StatusOK (inr (mkPage logs limit offset)))
        end
    end.

(** func (h *UsageHandler) HandleGetUsageStats(w, r) *)
Definition HandleGetUsageStats (fail1 fail2 fail3 : bool)
  : Handler Query UsageStats.t :=
  λ env r s,
    match Context r with
    | None =>
        (s, respondError StatusInternalServerError "client not found in context")
    | Some client =>
        let q := query_of r in
        let startTime := time_of (start_time q) in
        let endTime := time_of (end_time q) in
        match database.GetUsageStats fail1 fail2 fail3 (db s) (Client.ID client)
                                     startTime endTime with
        | inr _ =>
            (s, respondError StatusInternalServerError
                  "failed to retrieve usage stats")
        | inl stats => (s, mkResponse StatusOK (inr stats))
        end
    end.

(** the handlers mounted at /v1/usage and /v1/usage/stats by SetupRoutes *)
Definition usage_route (fail : bool) : Handler Query Page :=
  api.applyMiddleware (HandleGetUsage fail) [middleware.Authenticate].

Definition stats_route (fail1 fail2 fail3 : bool) : Handler Query UsageStats.t :=
  api.applyMiddleware (HandleGetUsageStats fail1 fail2 fail3)
                      [middleware.Authenticate].
End Handlers.

End usage_handlers.

(** * Definitions used to state the properties *)

(** a host on which every binary resolves and every command prints a
    greeting *)
Definition host_hello : agents.Host :=
  agents.mkHost (λ _, true) [] (λ _, ("Hello, world!", None)) 1500000000 (λ _, []).

Definition is_user (msg : handlers.Message) : bool :=
  String.eqb (handlers.Role msg) "user".

(** the contents of the "user" messages, in order *)
Definition user_contents (messages : list handlers.Message) : list string :=
  handlers.Content <$> List.filter is_user messages.

(** the prompt in the words of the specification: the "user" contents
    joined by newlines, as strings.Join does *)
Definition spec_prompt (messages : list handlers.Message) : string :=
  String.concat handlers.newline (user_contents messages).

(** every piece followed by a newline *)
Definition terminated (pieces : list string) : string :=
  fold_right (λ piece rest, piece +:+ (handlers.newline +:+ rest))
             EmptyString pieces.

(** the check that HandleChatCompletion makes before it builds the prompt *)
Definition permitted (client : models.Client.t) (model : string) : bool :=
  database.IsModelAllowed client model || database.IsModelAllowed client "*".

(** the calls that only ask a provider about itself *)
Definition quiet (e : http.Event) : Prop :=
  match e with
  | http.ProbeProvider _ | http.ListModels _ => True
  | _ => False
  end.

(** the statuses with which HandleChatCompletion turns a request away
    before the model check, or at it *)
Definition turned_away {R} (resp : http.Response R) : Prop :=
  (http.Status resp = http.StatusBadRequest
   ∨ http.Status resp = http.StatusServiceUnavailable
   ∨ http.Status resp = http.StatusForbidden)
  ∧ ∃ msg, http.Payload resp = inl msg.

(** ModelNotAllowed, as HandleChatCompletion words it *)
Definition ModelNotAllowed (model : string)
  : http.Response handlers.ChatCompletionResponse.t :=
  http.respondError http.StatusForbidden
    ("model " +:+ model +:+ " is not allowed for this client").

(** ** The scenario of the specification: one client, bound to copilot,
    with rate limit 2, allow-list ["m1"] and no default model *)

Definition scenario_key : string := "aics_test".

Definition scenario_client : models.Client.t :=
  models.Client.mk 1 "acme" (auth.HashAPIKey scenario_key) "copilot"
                   (json.js "['m1']") "" 2 0 0 None true "".

Definition scenario_handler : handlers.ChatHandler :=
  handlers.NewChatHandler
    (copilot.as_Provider (copilot.NewProvider "" 0 ""))
    (cursor.as_Provider (λ _, None) (cursor.NewProvider "" 0 "")).

Definition server_of (client : models.Client.t) : http.Server :=
  http.mkServer (database.mkDB [client] [] 0 ∅) ∅ [].

(** the surroundings at instant [now]: every command succeeds, no store
    statement fails *)
Definition env_at (now : Z) : http.Env :=
  http.mkEnv now host_hello false false false 1600000000.

(** a chat request for [model] with one "user" message *)
Definition chat (model : string) : handlers.ChatCompletionRequest.t :=
  handlers.ChatCompletionRequest.mk "" model [handlers.mkMessage "user" "hi"]
                                    [] [] false "".

Definition request_with (key model : string)
  : http.Request handlers.ChatCompletionRequest.t :=
  http.mkRequest ("Bearer " +:+ key) (Some (chat model)) None.

(** the same request once Authenticate has put [client] in its context *)
Definition authenticated (client : models.Client.t) (model : string)
  : http.Request handlers.ChatCompletionRequest.t :=
  http.mkRequest "" (Some (chat model)) (Some client).

(** a client whose allow-list holds the wildcard and a null *)
Definition client_star_null : models.Client.t :=
  models.Client.mk 2 "nully" (auth.HashAPIKey "aics_null") "copilot"
                   (json.js "['*',null]") "" 60 0 0 None true "".

(** a client whose allow-list is not JSON *)
Definition client_garbled : models.Client.t :=
  models.Client.mk 3 "garbled" (auth.HashAPIKey "aics_garbled") "copilot"
                   "m1,m2" "" 60 0 0 None true "".

(** the sum of a column of counts *)
Definition total (counts : list Z) : Z := fold_right Z.add 0 counts.

(** the ExecuteRequest that HandleChatCompletion hands to the provider *)
Definition cliReq_of (req : handlers.ChatCompletionRequest.t) (model : string)
  : agents.ExecuteRequest.t :=
  agents.ExecuteRequest.mk
    (handlers.messagesToPrompt (handlers.ChatCompletionRequest.Messages req))
    model
    (handlers.ChatCompletionRequest.AllowTools req)
    (handlers.ChatCompletionRequest.DenyTools req)
    (handlers.ChatCompletionRequest.Force req)
    (handlers.ChatCompletionRequest.WorkingDirectory req) [] 0.

(** the request gets as far as provider.Execute: it carries a client and a
    body, a model resolves, the provider is known and available, and the
    model is permitted *)
Definition reaches_dispatch (h : handlers.ChatHandler) (env : http.Env)
           (r : http.Request handlers.ChatCompletionRequest.t) (s : http.Server)
           (client : models.Client.t) (req : handlers.ChatCompletionRequest.t)
           (s1 : http.Server) (model : string) (provider : agents.Provider)
  : Prop :=
  http.Context r = Some client
  ∧ http.Body r = Some req
  ∧ handlers.resolve_model h env client req s = (s1, model)
  ∧ model ≠ ""
  ∧ handlers.providers h !! models.Client.Provider client = Some provider
  ∧ agents.IsAvailable provider (http.os env) = true
  ∧ permitted client model = true.

(** the ledger entry that HandleChatCompletion builds when Execute fails *)
Definition error_entry (env : http.Env) (client : models.Client.t)
           (req : handlers.ChatCompletionRequest.t) (model err : string)
  : models.UsageLog.t :=
  models.UsageLog.mk 0 (models.Client.ID client) None (http.Now env)
    (models.Client.Provider client) model
    (Some (handlers.messagesToPrompt (handlers.ChatCompletionRequest.Messages req)))
    0 0 0 0%Q (handlers.Milliseconds (http.Elapsed env))
    http.StatusInternalServerError (Some err).

(** the ledger entry that it builds when Execute succeeds *)
Definition success_entry (env : http.Env) (client : models.Client.t)
           (req : handlers.ChatCompletionRequest.t) (model : string)
           (resp : agents.ExecuteResponse.t) : models.UsageLog.t :=
  models.UsageLog.mk 0 (models.Client.ID client)
    (Some (agents.ExecuteResponse.SessionID resp)) (http.Now env)
    (models.Client.Provider client) (agents.ExecuteResponse.Model resp)
    (Some (handlers.messagesToPrompt (handlers.ChatCompletionRequest.Messages req)))
    (agents.ExecuteResponse.PromptTokens resp)
    (agents.ExecuteResponse.CompletionTokens resp)
    (agents.ExecuteResponse.TotalTokens resp)
    (handlers.calculateCost model (agents.ExecuteResponse.TotalTokens resp))
    (handlers.Milliseconds (agents.ExecuteResponse.ResponseTime resp))
    http.StatusOK None.

(** the success response, under the ledger id [id] *)
Definition success_response (client : models.Client.t) (model : string)
           (resp : agents.ExecuteResponse.t) (id : Z)
  : http.Response handlers.ChatCompletionResponse.t :=
  http.mkResponse http.StatusOK
    (inr (handlers.ChatCompletionResponse.mk
            ("chatcmpl-" +:+ handlers.itoa id)
            (models.Client.Provider client)
            (agents.ExecuteResponse.Model resp)
            (agents.ExecuteResponse.Content resp)
            (agents.ExecuteResponse.PromptTokens resp)
            (agents.ExecuteResponse.CompletionTokens resp)
            (agents.ExecuteResponse.TotalTokens resp)
            (handlers.calculateCost model (agents.ExecuteResponse.TotalTokens resp))
            (handlers.Milliseconds (agents.ExecuteResponse.ResponseTime resp)))).

(** a host on which every command exits with an error *)
Definition host_failing : agents.Host :=
  agents.mkHost (λ _, true) [] (λ _, ("boom", Some "exit status 1"))
                1500000000 (λ _, []).

(** surroundings in which the provider fails, resp. the ledger insert *)
Definition env_exec_fails : http.Env :=
  http.mkEnv 0 host_failing false false false 1600000000.

Definition env_insert_fails : http.Env :=
  http.mkEnv 0 host_hello false false true 1600000000.

(** ** Rate admission *)

(** RateLimitExceeded, as the RateLimit middleware words it *)
Definition RateLimitExceeded {R} : http.Response R :=
  http.respondError http.StatusTooManyRequests "rate limit exceeded".

(** the limiter that getLimiter makes for a client whose limit is 0 *)
Definition zero_limiter : rate.Limiter :=
  rate.NewLimiter (Qdiv (inject_Z 0) 60) 0.

(** the client has no limiter yet, or the one made for limit 0 *)
Definition zero_limited (s : http.Server) (clientID : Z) : Prop :=
  http.limiters s !! clientID = None
  ∨ http.limiters s !! clientID = Some zero_limiter.

(** a handler that admits everything that reaches it *)
Definition admit_all : http.Handler unit unit :=
  λ _ _ s, (s, http.mkResponse http.StatusOK (inr ())).

(** a client like the scenario's, but with rate limit 0 *)
Definition client_unlimited : models.Client.t :=
  models.Client.mk 4 "unlimited" (auth.HashAPIKey "aics_zero") "copilot"
                   (json.js "['*']") "" 0 0 0 None true "".

(** requests served one after the other by the same process *)
Fixpoint serve {B R} (h : http.Handler B R)
         (reqs : list (http.Env * http.Request B)) (s : http.Server)
  : http.Server * list (http.Response R) :=
  match reqs with
  | [] => (s, [])
  | (env, r) :: rest =>
      let '(s1, resp) := h env r s in
      let '(s2, resps) := serve h rest s1 in
      (s2, resp :: resps)
  end.

(** the four requests of the scenario, one millisecond apart *)
Definition scenario_start : Z := 1700000000 * rate.Second.

Definition scenario_requests
  : list (http.Env * http.Request handlers.ChatCompletionRequest.t) :=
  [ (env_at scenario_start, request_with scenario_key "m1");
    (env_at (scenario_start + 1000000), request_with scenario_key "m2");
    (env_at (scenario_start + 2000000), request_with scenario_key "m1");
    (env_at (scenario_start + 3000000), request_with scenario_key "m1") ].

Definition scenario_run
  : http.Server * list (http.Response handlers.ChatCompletionResponse.t) :=
  serve (api.chat_completions scenario_handler) scenario_requests
        (server_of scenario_client).

(** total_requests of the aggregate over the client, after the run *)
Definition scenario_total_requests : option Z :=
  match database.GetUsageStats false false false (http.db scenario_run.1)
                               (models.Client.ID scenario_client) None None with
  | inl stats => Some (models.UsageStats.TotalRequests stats)
  | inr _ => None
  end.

(** ** Fingerprints *)

(** the key made of [n] letters a *)
Fixpoint a_string (n : nat) : string :=
  match n with
  | O => EmptyString
  | S n' => String "a" (a_string n')
  end.

(** a bearer request with body [body] *)
Definition bearer {B} (key : string) (body : option B) : http.Request B :=
  http.mkRequest ("Bearer " +:+ key) body None.

(** ** A small ledger: three rows of client 1 and one of client 2 *)

Definition log_row (id clientID timestamp : Z) (provider model : string)
  : models.UsageLog.t :=
  models.UsageLog.mk id clientID None timestamp provider model None 1 2 3
                     0.00003%Q 10 200 None.

Definition small_ledger : database.DB :=
  database.mkDB []
    [ log_row 1 1 5 "copilot" "m1"; log_row 2 1 10 "copilot" "m2";
      log_row 3 2 15 "cursor" "m1"; log_row 4 1 20 "cursor" "m1" ]
    4 ∅.

(** ** Authentication *)

(** the client passes the checks that Authenticate makes after the lookup *)
Definition in_good_standing (env : http.Env) (client : models.Client.t) : Prop :=
  models.Client.IsActive client = true
  ∧ ∀ t, models.Client.ExpiresAt client = Some t → http.Now env <= t.

(** [client] is the row that the lookup by the fingerprint of [key] finds *)
Definition resolves_to (s : http.Server) (key : string)
           (client : models.Client.t) : Prop :=
  In client (database.clients (http.db s))
  ∧ models.Client.APIKeyHash client = auth.HashAPIKey key
  ∧ List.find (λ c, String.eqb (models.Client.APIKeyHash c) (auth.HashAPIKey key))
              (database.clients (http.db s)) = Some client.

(** ** The footprint of a chat request *)

(** the success response reports what the ledger row records *)
Definition echoes (resp : http.Response handlers.ChatCompletionResponse.t)
           (row : models.UsageLog.t) : Prop :=
  match http.Payload resp with
  | inl _ => http.Status resp = http.StatusInternalServerError
  | inr body =>
      handlers.ChatCompletionResponse.ID body
      = "chatcmpl-" +:+ handlers.itoa (models.UsageLog.ID row)
      ∧ handlers.ChatCompletionResponse.Provider body = models.UsageLog.Provider row
      ∧ handlers.ChatCompletionResponse.Model body = models.UsageLog.Model row
      ∧ handlers.ChatCompletionResponse.PromptTokens body
        = models.UsageLog.PromptTokens row
      ∧ handlers.ChatCompletionResponse.CompletionTokens body
        = models.UsageLog.CompletionTokens row
      ∧ handlers.ChatCompletionResponse.TotalTokens body
        = models.UsageLog.TotalTokens row
      ∧ handlers.ChatCompletionResponse.Cost body = models.UsageLog.Cost row
      ∧ handlers.ChatCompletionResponse.DurationMs body
        = models.UsageLog.ResponseTimeMs row
  end.

(** the store after a chat request: as it was, or with one more ledger row
    that belongs to [owner], carries the next id and the status of the
    response, which is then 200 or 500 *)
Definition ledger_step (d d' : database.DB) (owner : models.Client.t)
           (resp : http.Response handlers.ChatCompletionResponse.t) : Prop :=
  d' = d
  ∨ ∃ row,
      d' = database.mkDB (database.clients d)
                         (database.usage_logs d ++ [row])%list
                         (database.usage_logs_seq d + 1)
                         (database.rate_limit_buckets d)
      ∧ models.UsageLog.ID row = database.usage_logs_seq d + 1
      ∧ models.UsageLog.ClientID row = models.Client.ID owner
      ∧ models.UsageLog.ResponseStatus row = http.Status resp
      ∧ (http.Status resp = 200 ∨ http.Status resp = 500)
      ∧ echoes resp row.

(** the statuses that HandleChatCompletion answers with *)
Definition handler_status (status : Z) : Prop :=
  status = 200 ∨ status = 400 ∨ status = 403 ∨ status = 500 ∨ status = 503.

(** the ids of the ledger rows are distinct and none is above the counter *)
Definition ledger_ids_ok (d : database.DB) : Prop :=
  NoDup (models.UsageLog.ID <$> database.usage_logs d)
  ∧ Forall (λ row, models.UsageLog.ID row <= database.usage_logs_seq d)
           (database.usage_logs d).

(** the request carries the key of a client that Authenticate lets pass *)
Definition authenticated_as (env : http.Env) {B} (r : http.Request B)
           (s : http.Server) (client : models.Client.t) : Prop :=
  ∃ key, http.Authorization r = "Bearer " +:+ key
         ∧ auth.ValidateAPIKeyFormat key = true
         ∧ http.lookup_fails env = false
         ∧ resolves_to s key client
         ∧ in_good_standing env client.

(** ** Bursts *)






(** ** What reaches the command line *)


(** ** The clients table *)

(** the UNIQUE constraint of the schema on api_key_hash *)
Definition hashes_unique (d : database.DB) : Prop :=
  NoDup (models.Client.APIKeyHash <$> database.clients d).

(** the PRIMARY KEY of the clients table *)
Definition ids_unique (d : database.DB) : Prop :=
  NoDup (models.Client.ID <$> database.clients d).

(** what UpdateClient does to a row of the table *)
Definition update_of (now : Z) (client row : models.Client.t) : models.Client.t :=
  if models.Client.ID row =? models.Client.ID client
  then clients.updated_row now client row else row.

(** the second expiry test of Authenticate *)
Definition expired (env : http.Env) (client : models.Client.t) : bool :=
  match models.Client.ExpiresAt client with
  | Some t => t <? http.Now env
  | None => false
  end.

(** the client with another per-minute limit *)
Definition with_limit (limit : Z) (c : models.Client.t) : models.Client.t :=
  models.Client.mk (models.Client.ID c) (models.Client.Name c)
    (models.Client.APIKeyHash c) (models.Client.Provider c)
    (models.Client.AllowedModels c) (models.Client.DefaultModel c)
    limit (models.Client.CreatedAt c) (models.Client.UpdatedAt c)
    (models.Client.ExpiresAt c) (models.Client.IsActive c)
    (models.Client.Metadata c).

(** ** Key generation *)

(** a byte, as rand.Read delivers it *)
Definition is_byte (b : Z) : Prop := 0 <= b < 256.

(** the numbers below [n] *)
Definition below (n : nat) : list Z := Z.of_nat <$> seq 0 n.

(** * Properties *)

(** ** Test vectors *)

Example sha256_constants :
  length auth.K256 = 64%nat
  ∧ nth 0 auth.K256 0 = 0x428a2f98 ∧ nth 63 auth.K256 0 = 0xc67178f2
  ∧ nth 0 auth.H256 0 = 0x6a09e667 ∧ nth 7 auth.H256 0 = 0x5be0cd19.
Proof. by vm_compute. Qed.

Example sha256_empty :
  auth.Sum256_num []
  = 0xe3b0c44298fc1c149afbf4c8996fb92427ae41e4649b934ca495991b7852b855.
Proof. vm_compute. reflexivity. Qed.

Example sha256_four_blocks :
  auth.Sum256_num (bytes_of_string (String.concat "" (repeat "a" 200)))
  = 0xc2a908d98f5df987ade41b5fce213067efbcc21ef2240212a41e54b5e7c28ae5.
Proof. vm_compute. reflexivity. Qed.

Example sha256_abc :
  auth.Sum256_num (bytes_of_string "abc")
  = 0xba7816bf8f01cfea414140de5dae2223b00361a396177a9cb410ff61f20015ad.
Proof. vm_compute. reflexivity. Qed.

Example HashAPIKey_test :
  auth.HashAPIKey "aics_test" = "g5zXL987bps-ac7KyhuWrXF92RIZBMdqXKy-qBKdruM=".
Proof. vm_compute. reflexivity. Qed.

Example Unmarshal_m1 : json.Unmarshal (json.js "['m1']") = Some ["m1"].
Proof. vm_compute. reflexivity. Qed.

Example Unmarshal_spaces :
  json.Unmarshal (json.js " [ 'a' , '*',null ] ") = Some ["a"; "*"; ""].
Proof. vm_compute. reflexivity. Qed.

Example Unmarshal_escape :
  json.Unmarshal (json.js "['a\nA\/']")
  = Some ["a" +:+ String (json.chr 10) "A/"].
Proof. vm_compute. reflexivity. Qed.

Example Unmarshal_errors :
  map json.Unmarshal
      [""; "m1"; json.js "'m1'"; json.js "['m1'"; json.js "['m1',]";
       json.js "['m1' 'm2']"; json.js "[1]"; json.js "['a',true]";
       json.js "{'a':'b'}"; json.js "[['a']]"; json.js "['a'] x";
       json.js "[nul]"; json.js "['\x']"]
  = repeat None 13.
Proof. vm_compute. reflexivity. Qed.

Example Unmarshal_unicode :
  json.Unmarshal (json.js "['\u00e9','\ud83d\ude00','\ud83d','\uD83Dx']")
  = Some [json.string_of_bytes [0xC3; 0xA9];
          json.string_of_bytes [0xF0; 0x9F; 0x98; 0x80];
          json.string_of_bytes [0xEF; 0xBF; 0xBD];
          json.string_of_bytes [0xEF; 0xBF; 0xBD; 120]].
Proof. vm_compute. reflexivity. Qed.

Example Unmarshal_coerces_utf8 :
  json.Unmarshal
    (json.js "['" +:+ json.string_of_bytes [0xC3; 0xA9; 0xFF; 0xE2; 0x82] +:+ json.js "']")
  = Some [json.string_of_bytes
            [0xC3; 0xA9; 0xEF; 0xBF; 0xBD; 0xEF; 0xBF; 0xBD; 0xEF; 0xBF; 0xBD]].
Proof. vm_compute. reflexivity. Qed.

Example Unmarshal_null : json.Unmarshal " null " = Some [].
Proof. vm_compute. reflexivity. Qed.


Example GetUsageLogs_newest_first :
  match database.GetUsageLogs false small_ledger 1 100 0 None None with
  | inl logs => models.UsageLog.ID <$> logs
  | inr _ => []
  end = [4; 2; 1].
Proof. by vm_compute. Qed.

Example Allow_two_then_refuse :
  let l0 := rate.NewLimiter (Qdiv (inject_Z 2) 60) 2 in
  let '(ok1, l1) := rate.Allow l0 scenario_start in
  let '(ok2, l2) := rate.Allow l1 scenario_start in
  let '(ok3, l3) := rate.Allow l2 (scenario_start + 29 * rate.Second) in
  let '(ok4, l4) := rate.Allow l3 (scenario_start + 30 * rate.Second) in
  [ok1; ok2; ok3; ok4] = [true; true; false; true].
Proof. by vm_compute. Qed.

(** ** Credential shape *)
Section CredentialShape.
Import http middleware.

Lemma len_nonneg s : 0 <= len s.
Proof. unfold len. lia. Qed.

Lemma substring_0_0 s : String.substring 0 0 s = EmptyString.
Proof. by destruct s. Qed.

(** a key passes the shape check exactly when it starts with the prefix *)
Lemma ValidateAPIKeyFormat_prefix key :
  auth.ValidateAPIKeyFormat key = true
  ↔ ∃ rest, key = auth.APIKeyPrefix +:+ rest.
Proof.
  unfold auth.ValidateAPIKeyFormat, auth.APIKeyPrefix.
  destruct key as [|a1 [|a2 [|a3 [|a4 [|a5 rest]]]]];
    try (split; [discriminate | intros [rest' Hr]; discriminate Hr]).
  replace (len (String a1 (String a2 (String a3 (String a4 (String a5 rest)))))
           <? len "aics_") with false
    by (symmetry; apply Z.ltb_ge; unfold len; simpl String.length; lia).
  change (len "aics_") with 5.
  unfold slice_to. change (Z.to_nat 5) with 5%nat.
  cbn [String.substring]. rewrite substring_0_0, String.eqb_eq.
  split.
  - intros H. injection H as -> -> -> -> ->. by exists rest.
  - intros [rest' Hr]. simpl in Hr. by injection Hr as -> -> -> -> -> _.
Qed.

Lemma ValidateAPIKeyFormat_length key :
  auth.ValidateAPIKeyFormat key = true → len auth.APIKeyPrefix <= len key.
Proof.
  unfold auth.ValidateAPIKeyFormat.
  destruct (len key <? len auth.APIKeyPrefix) eqn:E; [discriminate|].
  intros _. by apply Z.ltb_ge.
Qed.

Lemma cut_space_Bearer key : cut_space ("Bearer " +:+ key) = Some ("Bearer", key).
Proof. reflexivity. Qed.

Lemma SplitN2_Bearer key : SplitN2 ("Bearer " +:+ key) = ["Bearer"; key].
Proof. reflexivity. Qed.
End CredentialShape.

(** C4: ValidateAPIKeyFormat accepts exactly the keys that carry the prefix
    "aics_" and are at least as long as it (the minimum length), and
    Authenticate runs this check before the store lookup: a bearer key that
    fails it is answered 401 with the server untouched, so no lookup and no
    other call is made; and whenever Authenticate does touch the server, the
    header held a bearer key that passed the check. *)
Theorem C4_shape_check_before_lookup :
  (∀ key, auth.ValidateAPIKeyFormat key = true
          ↔ len auth.APIKeyPrefix <= len key
            ∧ slice_to key (len auth.APIKeyPrefix) = auth.APIKeyPrefix)
  ∧ (∀ key, auth.ValidateAPIKeyFormat key = true
            ↔ ∃ rest, key = "aics_" +:+ rest)
  ∧ (∀ (B R : Type) (next : http.Handler B R) env r s key,
       http.Authorization r = "Bearer " +:+ key →
       auth.ValidateAPIKeyFormat key = false →
       middleware.Authenticate next env r s
       = (s, http.respondError http.StatusUnauthorized "invalid API key format"))
  ∧ (∀ (B R : Type) (next : http.Handler B R) env r s,
       (∃ resp, middleware.Authenticate next env r s = (s, resp))
       ∨ (∃ key, middleware.SplitN2 (http.Authorization r) = ["Bearer"; key]
                 ∧ auth.ValidateAPIKeyFormat key = true)).
Proof.
  split; [|split; [|split]].
  - intros key. unfold auth.ValidateAPIKeyFormat.
    destruct (len key <? len auth.APIKeyPrefix) eqn:E.
    + apply Z.ltb_lt in E. split; [discriminate | lia].
    + apply Z.ltb_ge in E. rewrite String.eqb_eq. tauto.
  - apply ValidateAPIKeyFormat_prefix.
  - intros B R next env r s key Hauth Hbad.
    unfold middleware.Authenticate. rewrite Hauth, SplitN2_Bearer.
    cbn [String.eqb String.append Ascii.eqb Bool.eqb negb]. by rewrite Hbad.
  - intros B R next env r s. unfold middleware.Authenticate.
    destruct (String.eqb (http.Authorization r) ""); [by eauto|].
    destruct (middleware.SplitN2 (http.Authorization r))
      as [|scheme [|key [|]]]; try by eauto.
    destruct (String.eqb scheme "Bearer") eqn:Hs; simpl; [|by eauto].
    destruct (auth.ValidateAPIKeyFormat key) eqn:Hk; simpl; [|by eauto].
    apply String.eqb_eq in Hs as ->. right. by exists key.
Qed.

(** C4 at a key without the prefix: 401, and the server is left as it was *)
Lemma C4_shape_check_before_lookup_witness :
  auth.ValidateAPIKeyFormat "sk-123" = false
  ∧ middleware.Authenticate (B := unit) (R := unit)
      (λ _ _ s, (s, http.mkResponse http.StatusOK (inr ())))
      (http.mkEnv 0 (agents.mkHost (λ _, true) [] (λ _, ("", None)) 0 (λ _, []))
                  false false false 0)
      (http.mkRequest "Bearer sk-123" None None)
      (http.mkServer (database.mkDB [] [] 0 ∅) ∅ [])
    = (http.mkServer (database.mkDB [] [] 0 ∅) ∅ [],
       http.respondError http.StatusUnauthorized "invalid API key format").
Proof.
  split; [reflexivity|].
  apply (proj1 (proj2 (proj2 C4_shape_check_before_lookup))
           unit unit _ _ _ _ "sk-123");
    reflexivity.
Defined.

(** ** Token estimates *)
Section TokenEstimates.
Import agents.

Lemma EstimateTokens_floor text : EstimateTokens text = len text / 4.
Proof.
  unfold EstimateTokens. apply Z.quot_div_nonneg; [apply len_nonneg | lia].
Qed.

Lemma copilot_Execute_tokens p os req resp :
  copilot.Execute p os req = inl resp →
  ExecuteResponse.PromptTokens resp = EstimateTokens (ExecuteRequest.Prompt req)
  ∧ ExecuteResponse.CompletionTokens resp
    = EstimateTokens (ExecuteResponse.Content resp)
  ∧ ExecuteResponse.TotalTokens resp
    = ExecuteResponse.PromptTokens resp + ExecuteResponse.CompletionTokens resp.
Proof.
  unfold copilot.Execute.
  destruct (CombinedOutput os _) as [output [err|]]; [discriminate|].
  intros [= <-]. by simpl.
Qed.

Lemma cursor_Execute_tokens dec p os req resp :
  cursor.Execute dec p os req = inl resp →
  ExecuteResponse.PromptTokens resp = EstimateTokens (ExecuteRequest.Prompt req)
  ∧ ExecuteResponse.CompletionTokens resp
    = EstimateTokens (ExecuteResponse.Content resp)
  ∧ ExecuteResponse.TotalTokens resp
    = ExecuteResponse.PromptTokens resp + ExecuteResponse.CompletionTokens resp.
Proof.
  unfold cursor.Execute.
  destruct (CombinedOutput os _) as [output [err|]]; [discriminate|].
  intros [= <-]. by simpl.
Qed.
End TokenEstimates.

(** C8: EstimateTokens is the byte length of the text (Go's [len], the
    character count of a [string] here) divided by 4 and rounded down; the
    Execute of either provider applies it to the prompt and, separately, to
    the content it returns, and reports their sum as the total. *)
Theorem C8_token_estimation :
  (∀ text, agents.EstimateTokens text = len text / 4
           ∧ agents.EstimateTokens text
             = Z.of_nat (String.length text `div` 4))
  ∧ (∀ p os req resp,
       copilot.Execute p os req = inl resp →
       agents.ExecuteResponse.PromptTokens resp
       = len (agents.ExecuteRequest.Prompt req) / 4
       ∧ agents.ExecuteResponse.CompletionTokens resp
         = len (agents.ExecuteResponse.Content resp) / 4
       ∧ agents.ExecuteResponse.TotalTokens resp
         = agents.ExecuteResponse.PromptTokens resp
           + agents.ExecuteResponse.CompletionTokens resp)
  ∧ (∀ dec p os req resp,
       cursor.Execute dec p os req = inl resp →
       agents.ExecuteResponse.PromptTokens resp
       = len (agents.ExecuteRequest.Prompt req) / 4
       ∧ agents.ExecuteResponse.CompletionTokens resp
         = len (agents.ExecuteResponse.Content resp) / 4
       ∧ agents.ExecuteResponse.TotalTokens resp
         = agents.ExecuteResponse.PromptTokens resp
           + agents.ExecuteResponse.CompletionTokens resp)
  ∧ (∀ p os req output,
       agents.CombinedOutput os
         (agents.mkCmd (copilot.binaryPath p)
            (["-p"; agents.ExecuteRequest.Prompt req; "-s"; "--allow-all-tools"]
             ++ (if agents.nonempty (agents.ExecuteRequest.Model req)
                 then ["--model"; agents.ExecuteRequest.Model req] else [])
             ++ flat_map (λ tool, ["--allow-tool"; tool])
                  (agents.ExecuteRequest.AllowTools req)
             ++ flat_map (λ tool, ["--deny-tool"; tool])
                  (agents.ExecuteRequest.DenyTools req))%list
            (agents.ExecuteRequest.WorkingDirectory req)
            (agents.Environ os
             ++ (if agents.nonempty (copilot.token p)
                 then ["COPILOT_GITHUB_TOKEN=" +:+ copilot.token p] else [])
             ++ agents.env_entries (agents.ExecuteRequest.EnvironmentVars req))%list
            (if 0 <? agents.ExecuteRequest.Timeout req
             then agents.ExecuteRequest.Timeout req else copilot.timeout p))
       = (output, None) →
       ∃ resp, copilot.Execute p os req = inl resp
               ∧ agents.ExecuteResponse.Content resp = output
               ∧ agents.ExecuteResponse.TotalTokens resp
                 = len (agents.ExecuteRequest.Prompt req) / 4 + len output / 4).
Proof.
  split; [|split; [|split]].
  - intros text. split; [apply EstimateTokens_floor|].
    rewrite EstimateTokens_floor. unfold len.
    by rewrite (Nat2Z.inj_div _ 4).
  - intros p os req resp H.
    destruct (copilot_Execute_tokens _ _ _ _ H) as (Hp & Hc & Ht).
    by rewrite <- !EstimateTokens_floor.
  - intros dec p os req resp H.
    destruct (cursor_Execute_tokens _ _ _ _ _ H) as (Hp & Hc & Ht).
    by rewrite <- !EstimateTokens_floor.
  - intros p os req output H. unfold copilot.Execute. rewrite H.
    eexists. split; [reflexivity|]. simpl.
    by rewrite !EstimateTokens_floor.
Qed.

(** C8 at a 12-byte prompt and a 13-byte answer *)
Lemma C8_token_estimation_witness :
  ∃ resp,
    copilot.Execute (copilot.NewProvider "" 0 "") host_hello
      (agents.ExecuteRequest.mk "What is 2+2?" "gpt-5" [] [] false "" [] 0)
    = inl resp
    ∧ agents.ExecuteResponse.PromptTokens resp = 3
    ∧ agents.ExecuteResponse.CompletionTokens resp = 3
    ∧ agents.ExecuteResponse.TotalTokens resp = 6.
Proof.
  eexists. split; [reflexivity|].
  pose proof (proj1 (proj2 C8_token_estimation)
                (copilot.NewProvider "" 0 "") host_hello
                (agents.ExecuteRequest.mk "What is 2+2?" "gpt-5" [] [] false "" [] 0)
                _ eq_refl) as (Hp & Hc & Ht).
  rewrite Ht, Hp, Hc. by vm_compute.
Defined.

(** ** The prompt builder *)
Section Prompt.
Import handlers.

Lemma append_cons x (a b : string) : String x a +:+ b = String x (a +:+ b).
Proof. reflexivity. Qed.

Lemma append_assoc (a b c : string) : (a +:+ b) +:+ c = a +:+ (b +:+ c).
Proof.
  induction a as [|x a IH]; [done|]. rewrite !append_cons. by rewrite IH.
Qed.

Lemma append_empty_r (a : string) : a +:+ EmptyString = a.
Proof.
  induction a as [|x a IH]; [done|]. rewrite append_cons. by rewrite IH.
Qed.

Lemma messagesToPrompt_from messages prompt :
  fold_left
    (λ prompt msg,
       if String.eqb (Role msg) "user"
       then prompt +:+ (Content msg +:+ newline) else prompt)
    messages prompt
  = prompt +:+ terminated (user_contents messages).
Proof.
  revert prompt. induction messages as [|msg messages IH]; intros prompt.
  - simpl. by rewrite append_empty_r.
  - cbn [fold_left]. rewrite IH. unfold user_contents. cbn [List.filter].
    unfold is_user at 2. destruct (String.eqb (Role msg) "user"); [|done].
    cbn [fmap list_fmap terminated fold_right].
    by rewrite !append_assoc.
Qed.

Lemma messagesToPrompt_terminated messages :
  messagesToPrompt messages = terminated (user_contents messages).
Proof. unfold messagesToPrompt. by rewrite messagesToPrompt_from. Qed.

Lemma terminated_concat piece pieces :
  terminated (piece :: pieces)
  = String.concat newline (piece :: pieces) +:+ newline.
Proof.
  revert piece. induction pieces as [|p pieces IH]; intros piece.
  - simpl. by rewrite append_empty_r.
  - change (terminated (piece :: p :: pieces))
      with (piece +:+ (newline +:+ terminated (p :: pieces))).
    rewrite IH.
    change (String.concat newline (piece :: p :: pieces))
      with (piece +:+ (newline +:+ String.concat newline (p :: pieces))).
    by rewrite !append_assoc.
Qed.

Lemma user_contents_app l1 l2 :
  user_contents (l1 ++ l2) = (user_contents l1 ++ user_contents l2)%list.
Proof. unfold user_contents. by rewrite List.filter_app, fmap_app. Qed.
End Prompt.

(** C9 as stated fails: one "user" message "hi" gives the prompt "hi"
    followed by a newline, not the newline-joined "hi". *)
Lemma C9_counterexample :
  handlers.messagesToPrompt [handlers.mkMessage "user" "hi"]
  ≠ spec_prompt [handlers.mkMessage "user" "hi"].
Proof. vm_compute. discriminate. Qed.

(** C9, amended: the prompt is built from exactly the messages whose role
    is "user", in their original order, each content followed by a newline;
    messages of any other role contribute nothing.  So the prompt is empty
    when there is no "user" message, and otherwise it is the newline-joined
    contents with one more newline at the end. *)
Theorem C9_prompt_user_messages_newline_terminated :
  ∀ messages,
    handlers.messagesToPrompt messages = terminated (user_contents messages)
    ∧ (user_contents messages = [] → handlers.messagesToPrompt messages = "")
    ∧ (user_contents messages ≠ [] →
       handlers.messagesToPrompt messages
       = spec_prompt messages +:+ handlers.newline)
    ∧ (∀ before msg after,
         messages = (before ++ msg :: after)%list →
         handlers.Role msg ≠ "user" →
         handlers.messagesToPrompt messages
         = handlers.messagesToPrompt (before ++ after)).
Proof.
  intros messages. split; [apply messagesToPrompt_terminated|].
  rewrite messagesToPrompt_terminated. unfold spec_prompt.
  split; [|split].
  - by intros ->.
  - destruct (user_contents messages) as [|piece pieces]; [done|].
    intros _. apply terminated_concat.
  - intros before msg after -> Hrole.
    rewrite messagesToPrompt_terminated, !user_contents_app.
    do 2 f_equal. unfold user_contents. cbn [List.filter]. unfold is_user at 1.
    by apply String.eqb_neq in Hrole as ->.
Qed.

(** C9 at four messages, two of them from the user *)
Lemma C9_prompt_user_messages_newline_terminated_witness :
  handlers.messagesToPrompt
    [handlers.mkMessage "system" "be brief"; handlers.mkMessage "user" "a";
     handlers.mkMessage "assistant" "b"; handlers.mkMessage "user" "c"]
  = "a" +:+ handlers.newline +:+ "c" +:+ handlers.newline.
Proof.
  destruct (C9_prompt_user_messages_newline_terminated
              [handlers.mkMessage "system" "be brief"; handlers.mkMessage "user" "a";
               handlers.mkMessage "assistant" "b"; handlers.mkMessage "user" "c"])
    as (_ & _ & H & _).
  rewrite H; [reflexivity | discriminate].
Defined.

(** ** The model allow-list *)
Section AllowList.
Import models http handlers.

Lemma IsModelAllowed_spec client model :
  database.IsModelAllowed client model = true
  ↔ ∃ l, json.Unmarshal (Client.AllowedModels client) = Some l
         ∧ (In model l ∨ In "*" l).
Proof.
  unfold database.IsModelAllowed.
  destruct (json.Unmarshal (Client.AllowedModels client)) as [l|].
  - rewrite existsb_exists. split.
    + intros (x & Hin & Hx). exists l. split; [done|].
      apply orb_true_iff in Hx as [Hx|Hx]; apply String.eqb_eq in Hx; subst; auto.
    + intros (l' & [= <-] & [Hin|Hin]).
      * exists model. split; [done|]. by rewrite String.eqb_refl.
      * exists "*". split; [done|]. rewrite (String.eqb_refl "*"). apply orb_true_r.
  - split; [discriminate|]. by intros (l & ? & _).
Qed.

Lemma permitted_spec client model :
  permitted client model = true
  ↔ ∃ l, json.Unmarshal (Client.AllowedModels client) = Some l
         ∧ (In model l ∨ In "*" l).
Proof.
  unfold permitted. rewrite orb_true_iff, !IsModelAllowed_spec.
  split; [intros [H|H] | by left]; [done|].
  destruct H as (l & Hl & H). exists l. tauto.
Qed.

Lemma IsModelAllowed_undecodable client :
  json.Unmarshal (Client.AllowedModels client) = None →
  ∀ model, database.IsModelAllowed client model = false.
Proof. intros H model. unfold database.IsModelAllowed. by rewrite H. Qed.

Lemma resolve_model_quiet h env client req s s1 model :
  resolve_model h env client req s = (s1, model) →
  db s1 = db s ∧ limiters s1 = limiters s
  ∧ ∃ evs, trace s1 = (trace s ++ evs)%list ∧ Forall quiet evs.
Proof.
  unfold resolve_model.
  destruct (negb (String.eqb (ChatCompletionRequest.Model req) "")).
  { intros [= <- _]. repeat split. exists []. by rewrite app_nil_r. }
  destruct (negb (String.eqb (Client.DefaultModel client) "")).
  { intros [= <- _]. repeat split. exists []. by rewrite app_nil_r. }
  destruct (providers h !! Client.Provider client).
  - intros [= <- _]. repeat split. eexists. split; [reflexivity|].
    by repeat constructor.
  - intros [= <- _]. repeat split. exists []. by rewrite app_nil_r.
Qed.

(** a request for a model that is not permitted is turned away: nothing
    is stored, nothing is dispatched, and the answer is ModelNotAllowed
    as soon as the provider is known and available *)
Lemma HandleChatCompletion_not_permitted h env r s client req s1 model :
  Context r = Some client →
  Body r = Some req →
  resolve_model h env client req s = (s1, model) →
  permitted client model = false →
  ∃ s' resp,
    HandleChatCompletion h env r s = (s', resp)
    ∧ db s' = db s ∧ limiters s' = limiters s
    ∧ (∃ evs, trace s' = (trace s ++ evs)%list ∧ Forall quiet evs)
    ∧ turned_away resp
    ∧ (model ≠ "" →
       ∀ provider, providers h !! Client.Provider client = Some provider →
                   agents.IsAvailable provider (os env) = true →
                   resp = ModelNotAllowed model).
Proof.
  intros Hctx Hbody Hres Hperm.
  destruct (resolve_model_quiet _ _ _ _ _ _ _ Hres) as (Hdb & Hlim & evs & Htr & Hq).
  assert (∃ evs', (trace s1 ++ [ProbeProvider (Client.Provider client)]
                   = trace s ++ evs')%list ∧ Forall quiet evs') as Hprobe.
  { exists (evs ++ [ProbeProvider (Client.Provider client)])%list.
    rewrite Htr, app_assoc. split; [done|].
    apply Forall_app. split; [done|]. by repeat constructor. }
  unfold HandleChatCompletion. rewrite Hctx, Hbody, Hres.
  destruct (String.eqb model "") eqn:Hm.
  { do 2 eexists. split_and!; [reflexivity | done | done | by eauto | |].
    - unfold turned_away; simpl; eauto.
    - intros Hne. by apply String.eqb_eq in Hm. }
  destruct (providers h !! Client.Provider client) as [provider|] eqn:Hp.
  2:{ do 2 eexists. split_and!; [reflexivity | done | done | by eauto | |].
      - unfold turned_away; simpl; eauto.
      - intros _ provider [=]. }
  destruct (agents.IsAvailable provider (os env)) eqn:Hav; cbn [negb].
  2:{ do 2 eexists. split_and!; [reflexivity | done | done | done | |].
      - unfold turned_away; simpl; eauto.
      - intros _ provider' [= <-]. by rewrite Hav. }
  unfold permitted in Hperm. apply orb_false_iff in Hperm as [-> ->]. cbn [negb andb].
  do 2 eexists. split_and!; [reflexivity | done | done | done | |].
  - unfold turned_away; simpl; eauto.
  - done.
Qed.
End AllowList.

(** C5: the model check of HandleChatCompletion lets a model through
    exactly when the decoded allow-list holds the model itself or the
    wildcard; a request whose model is not permitted stores nothing, is
    never dispatched to the provider, and is answered with ModelNotAllowed
    (403) once the earlier checks (model present, provider known and
    available) have passed. *)
Theorem C5_model_permitted_iff_listed_or_wildcard :
  (∀ client model,
     permitted client model = true
     ↔ ∃ l, json.Unmarshal (models.Client.AllowedModels client) = Some l
            ∧ (In model l ∨ In "*" l))
  ∧ (∀ h env r s client req s1 model,
       http.Context r = Some client →
       http.Body r = Some req →
       handlers.resolve_model h env client req s = (s1, model) →
       permitted client model = false →
       ∃ s' resp,
         handlers.HandleChatCompletion h env r s = (s', resp)
         ∧ http.db s' = http.db s ∧ http.limiters s' = http.limiters s
         ∧ (∃ evs, http.trace s' = (http.trace s ++ evs)%list ∧ Forall quiet evs)
         ∧ turned_away resp
         ∧ (model ≠ "" →
            ∀ provider,
              handlers.providers h !! models.Client.Provider client = Some provider →
              agents.IsAvailable provider (http.os env) = true →
              resp = ModelNotAllowed model)).
Proof.
  split; [apply permitted_spec | apply HandleChatCompletion_not_permitted].
Qed.

(** C5 at the scenario's client and the model m2 *)
Lemma C5_model_permitted_iff_listed_or_wildcard_witness :
  permitted scenario_client "m2" = false
  ∧ ∃ s',
      handlers.HandleChatCompletion scenario_handler (env_at 0)
        (authenticated scenario_client "m2") (server_of scenario_client)
      = (s', ModelNotAllowed "m2")
      ∧ http.db s' = http.db (server_of scenario_client).
Proof.
  split; [by vm_compute|].
  destruct (proj2 C5_model_permitted_iff_listed_or_wildcard
              scenario_handler (env_at 0) (authenticated scenario_client "m2")
              (server_of scenario_client) scenario_client (chat "m2") _ "m2"
              eq_refl eq_refl eq_refl ltac:(by vm_compute))
    as (s' & resp & Hrun & Hdb & _ & _ & _ & H403).
  exists s'. rewrite Hrun. split; [|done]. f_equal.
  eapply H403; [discriminate | by vm_compute | by vm_compute].
Defined.

(** ** Allow-lists that do not decode *)
Section Undecodable.
Import models http handlers.

Lemma element_strict s r : json.element false s = Some r → json.element true s = Some r.
Proof.
  unfold json.element. destruct s as [|c s']; [done|].
  by destruct (Ascii.eqb c json.dquote).
Qed.

Lemma elements_strict fuel s r :
  json.elements false fuel s = Some r → json.elements true fuel s = Some r.
Proof.
  revert s r. induction fuel as [|fuel IH]; intros s r; [done|].
  cbn [json.elements]. destruct (json.skipSpace s) as [|c s']; [done|].
  destruct (json.code c =? 93); [done|].
  destruct (json.code c =? 44); [|done].
  destruct (json.element false (json.skipSpace s')) as [[x rest]|] eqn:He; [|done].
  rewrite (element_strict _ _ He).
  destruct (json.elements false fuel rest) as [[xs rest']|] eqn:Hes; [|done].
  by rewrite (IH _ _ Hes).
Qed.

Lemma array_strict s r : json.array false s = Some r → json.array true s = Some r.
Proof.
  unfold json.array. destruct (json.skipSpace s) as [|c s']; [done|].
  destruct (json.code c =? 93); [done|].
  destruct (json.element false _) as [[x rest]|] eqn:He; [|done].
  rewrite (element_strict _ _ He).
  destruct (json.elements false _ rest) as [[xs rest']|] eqn:Hes; [|done].
  by rewrite (elements_strict _ _ _ Hes).
Qed.

(** an array of strings is decoded without error *)
Lemma string_array_decodes data :
  json.string_array data = true → ∃ l, json.Unmarshal data = Some l.
Proof.
  unfold json.string_array, json.Unmarshal, json.decode.
  destruct (json.skipSpace data) as [|c s']; [done|].
  destruct (json.code c =? 91); [|done].
  destruct (json.array false s') as [[l rest]|] eqn:Ha; [|done].
  rewrite (array_strict _ _ Ha). destruct (json.at_end rest); [|done]. eauto.
Qed.

Lemma HandleChatCompletion_undecodable h env r s client :
  Context r = Some client →
  json.Unmarshal (Client.AllowedModels client) = None →
  ∃ s' resp,
    HandleChatCompletion h env r s = (s', resp)
    ∧ db s' = db s ∧ limiters s' = limiters s
    ∧ (∃ evs, trace s' = (trace s ++ evs)%list ∧ Forall quiet evs)
    ∧ turned_away resp
    ∧ (∀ req s1 model provider,
         Body r = Some req →
         resolve_model h env client req s = (s1, model) →
         model ≠ "" →
         providers h !! Client.Provider client = Some provider →
         agents.IsAvailable provider (os env) = true →
         resp = ModelNotAllowed model).
Proof.
  intros Hctx Hdec.
  destruct (Body r) as [req|] eqn:Hbody.
  - destruct (resolve_model h env client req s) as [s1 model] eqn:Hres.
    assert (permitted client model = false) as Hperm.
    { unfold permitted. by rewrite !IsModelAllowed_undecodable. }
    destruct (HandleChatCompletion_not_permitted _ _ _ _ _ _ _ _
                Hctx Hbody Hres Hperm)
      as (s' & resp & Hrun & Hdb & Hlim & Htr & Haway & H403).
    exists s', resp. split_and!; try done.
    intros req' s1' model' provider [= <-]. rewrite Hres. intros [= <- <-] Hne.
    by apply H403.
  - unfold HandleChatCompletion. rewrite Hctx, Hbody.
    do 2 eexists. split_and!; [reflexivity | done | done | | | done].
    + exists []. by rewrite app_nil_r.
    + unfold turned_away; simpl; eauto.
Qed.
End Undecodable.

(** C10 as stated fails: the stored value ["*",null] is not a JSON array
    of strings, yet it decodes without error (the null becomes an empty
    string), IsModelAllowed accepts every model, and a chat request is
    served. *)
Lemma C10_counterexample :
  json.string_array (models.Client.AllowedModels client_star_null) = false
  ∧ json.Unmarshal (models.Client.AllowedModels client_star_null) = Some ["*"; ""]
  ∧ database.IsModelAllowed client_star_null "gpt-5" = true
  ∧ http.Status
      (handlers.HandleChatCompletion scenario_handler (env_at 0)
         (authenticated client_star_null "gpt-5") (server_of client_star_null)).2
    = 200.
Proof. split_and!; by vm_compute. Qed.

(** C10, amended: if json.Unmarshal reports an error for the stored
    allowed-models value (which no JSON array of strings does),
    IsModelAllowed is false for every model name, the wildcard included;
    every chat request of that client is then turned away with 400, 503 or
    403, never dispatched, never stored and never answered with an internal
    error, and the answer is ModelNotAllowed once the model is present and
    the provider known and available.  A null element is decoded as the
    empty string, so an array with nulls is judged by its elements. *)
Theorem C10_undecodable_allow_list_rejects :
  (∀ data, json.Unmarshal data = None → json.string_array data = false)
  ∧ (∀ client,
       json.Unmarshal (models.Client.AllowedModels client) = None →
       (∀ model, database.IsModelAllowed client model = false)
       ∧ ∀ h env r s,
           http.Context r = Some client →
           ∃ s' resp,
             handlers.HandleChatCompletion h env r s = (s', resp)
             ∧ http.db s' = http.db s ∧ http.limiters s' = http.limiters s
             ∧ (∃ evs, http.trace s' = (http.trace s ++ evs)%list
                       ∧ Forall quiet evs)
             ∧ turned_away resp
             ∧ (∀ req s1 model provider,
                  http.Body r = Some req →
                  handlers.resolve_model h env client req s = (s1, model) →
                  model ≠ "" →
                  handlers.providers h !! models.Client.Provider client
                  = Some provider →
                  agents.IsAvailable provider (http.os env) = true →
                  resp = ModelNotAllowed model)).
Proof.
  split.
  - intros data Hnone. destruct (json.string_array data) eqn:Hs; [|done].
    destruct (string_array_decodes _ Hs) as [l Hl]. congruence.
  - intros client Hnone. split; [by apply IsModelAllowed_undecodable|].
    intros h env r s Hctx. by apply HandleChatCompletion_undecodable.
Qed.

(** C10 at a client whose stored allow-list is the text m1,m2 *)
Lemma C10_undecodable_allow_list_rejects_witness :
  json.Unmarshal (models.Client.AllowedModels client_garbled) = None
  ∧ database.IsModelAllowed client_garbled "*" = false
  ∧ ∃ s',
      handlers.HandleChatCompletion scenario_handler (env_at 0)
        (authenticated client_garbled "m1") (server_of client_garbled)
      = (s', ModelNotAllowed "m1").
Proof.
  assert (json.Unmarshal (models.Client.AllowedModels client_garbled) = None)
    as Hnone by (by vm_compute).
  destruct (proj2 C10_undecodable_allow_list_rejects client_garbled Hnone)
    as [Hfalse Hrun].
  split; [done|]. split; [apply Hfalse|].
  destruct (Hrun scenario_handler (env_at 0) (authenticated client_garbled "m1")
              (server_of client_garbled) eq_refl)
    as (s' & resp & Heq & _ & _ & _ & _ & H403).
  exists s'. rewrite Heq. f_equal.
  eapply H403; [reflexivity | reflexivity | discriminate
               | by vm_compute | by vm_compute].
Defined.

(** ** Aggregate statistics *)
Section Aggregates.
Import models database.

Lemma total_app l1 l2 : total (l1 ++ l2) = total l1 + total l2.
Proof. induction l1 as [|x l1 IH]; simpl; [done | rewrite IH; lia]. Qed.

Lemma sum_counts_insert (m : gmap string Z) k c :
  m !! k = None → sum_counts (<[k := c]> m) = c + sum_counts m.
Proof.
  intros Hk. unfold sum_counts.
  rewrite map_fold_insert_L; [done | intros; lia | done].
Qed.

(** the counts scanned into the Go map add up to the counts of the rows,
    since GROUP BY yields every key once *)
Lemma sum_counts_scan_from (rows : list (string * Z)) (m : gmap string Z) :
  NoDup rows.*1 →
  (∀ k, k ∈ rows.*1 → m !! k = None) →
  sum_counts (fold_left (λ m kc, <[kc.1 := kc.2]> m) rows m)
  = sum_counts m + total rows.*2.
Proof.
  revert m. induction rows as [|[k c] rows IH]; intros m Hnd Hfresh.
  - simpl. lia.
  - cbn [fold_left fmap list_fmap fst snd] in *.
    apply NoDup_cons in Hnd as [Hk Hnd].
    rewrite IH; [|done|].
    + rewrite sum_counts_insert; [simpl; lia|]. apply Hfresh. left.
    + intros k' Hk'. rewrite lookup_insert_ne by (by intros ->).
      apply Hfresh. by right.
Qed.

Lemma sum_counts_scan (rows : list (string * Z)) :
  NoDup rows.*1 → sum_counts (scan_counts rows) = total rows.*2.
Proof.
  intros Hnd. unfold scan_counts. rewrite sum_counts_scan_from; [|done|done].
  unfold sum_counts. by rewrite map_fold_empty.
Qed.

Section GroupBy.
Context (key : UsageLog.t → string).

Lemma group_count_keys rows :
  (group_count key rows).*1 = remove_dups (key <$> rows).
Proof.
  unfold group_count. rewrite <- list_fmap_compose. apply list_fmap_id.
Qed.

Lemma group_count_counts rows :
  (group_count key rows).*2
  = (λ k, Z.of_nat (length (filter (λ r, key r = k) rows)))
      <$> remove_dups (key <$> rows).
Proof. unfold group_count. by rewrite <- list_fmap_compose. Qed.

Lemma length_filter_split k ks (rows : list UsageLog.t) :
  k ∉ ks →
  length (filter (λ r, key r ∈ k :: ks) rows)
  = (length (filter (λ r, key r = k) rows)
     + length (filter (λ r, key r ∈ ks) rows))%nat.
Proof.
  intros Hk. induction rows as [|r rows IH]; [done|].
  rewrite !filter_cons.
  destruct (decide (key r = k)) as [Heq|Hne].
  - rewrite decide_True by (rewrite Heq; left).
    rewrite decide_False by (by rewrite Heq).
    simpl. by rewrite IH.
  - destruct (decide (key r ∈ ks)) as [Hin|Hnin].
    + rewrite decide_True by (by right). simpl. rewrite IH. lia.
    + rewrite decide_False; [done|].
      intros [Heq|Hin]%elem_of_cons; done.
Qed.

Lemma total_group_counts ks (rows : list UsageLog.t) :
  NoDup ks →
  total ((λ k, Z.of_nat (length (filter (λ r, key r = k) rows))) <$> ks)
  = Z.of_nat (length (filter (λ r, key r ∈ ks) rows)).
Proof.
  induction 1 as [|k ks Hk Hnd IH].
  - simpl. induction rows as [|r rows IHr]; [done|].
    rewrite filter_cons, decide_False; [done | apply not_elem_of_nil].
  - cbn [fmap list_fmap total fold_right].
    change (fold_right Z.add 0 ?l) with (total l).
    rewrite IH, length_filter_split by done. lia.
Qed.

Lemma filter_own_keys (rows : list UsageLog.t) :
  filter (λ r, key r ∈ remove_dups (key <$> rows)) rows = rows.
Proof.
  assert (∀ ks : list string, (∀ r, r ∈ rows → key r ∈ ks) →
                filter (λ r, key r ∈ ks) rows = rows) as Hall.
  { intros ks. induction rows as [|r rows IH]; intros Hks; [done|].
    rewrite filter_cons, decide_True by (apply Hks; left).
    f_equal. apply IH. intros r' Hr'. apply Hks. by right. }
  apply Hall. intros r Hr. apply elem_of_remove_dups.
  by apply list_elem_of_fmap_2.
Qed.

(** the per-key counts of a GROUP BY add up to the number of rows *)
Lemma sum_counts_group_count rows :
  sum_counts (scan_counts (group_count key rows)) = Z.of_nat (length rows).
Proof.
  rewrite sum_counts_scan
    by (rewrite group_count_keys; apply NoDup_remove_dups).
  rewrite group_count_counts.
  rewrite total_group_counts by apply NoDup_remove_dups.
  by rewrite filter_own_keys.
Qed.
End GroupBy.
End Aggregates.

(** C6: for every store, client and optional time range, GetUsageStats
    (when none of its three queries fails) returns statistics in which the
    per-provider counts and the per-model counts each add up to
    total_requests, and total_requests is the number of log rows that
    GetUsageLogs selects under the same filter. *)
Theorem C6_stats_consistent_with_log :
  ∀ db clientID startTime endTime,
    ∃ stats,
      database.GetUsageStats false false false db clientID startTime endTime
      = inl stats
      ∧ database.sum_counts (models.UsageStats.ByProvider stats)
        = models.UsageStats.TotalRequests stats
      ∧ models.UsageStats.TotalRequests stats
        = database.sum_counts (models.UsageStats.ByModel stats)
      ∧ models.UsageStats.TotalRequests stats
        = Z.of_nat (length (filter (database.selected clientID startTime endTime)
                                   (database.usage_logs db)))
      ∧ ∀ limit offset,
          0 <= limit → 0 <= offset →
          ∃ logs,
            database.GetUsageLogs false db clientID limit offset startTime endTime
            = inl logs
            ∧ Z.of_nat (length logs)
              = Z.min limit
                  (Z.max 0 (models.UsageStats.TotalRequests stats - offset)).
Proof.
  intros db clientID startTime endTime. eexists. split; [reflexivity|].
  cbn [models.UsageStats.ByProvider models.UsageStats.ByModel
       models.UsageStats.TotalRequests].
  rewrite !sum_counts_group_count. split_and!; try done.
  intros limit offset Hl Ho. eexists. split; [reflexivity|].
  rewrite length_take, length_drop.
  unfold database.newest_first.
  rewrite (Permutation_length (merge_sort_Permutation _ _)). lia.
Qed.

(** C6 on a ledger of four rows, for client 1 from instant 10 on *)
Lemma C6_stats_consistent_with_log_witness :
  ∃ stats,
    database.GetUsageStats false false false small_ledger 1 (Some 10) None
    = inl stats
    ∧ models.UsageStats.TotalRequests stats = 2
    ∧ database.sum_counts (models.UsageStats.ByProvider stats) = 2
    ∧ database.sum_counts (models.UsageStats.ByModel stats) = 2
    ∧ models.UsageStats.ByProvider stats !! "copilot" = Some 1.
Proof.
  destruct (C6_stats_consistent_with_log small_ledger 1 (Some 10) None)
    as (stats & Heq & Hp & Hm & Hn & _).
  exists stats. rewrite Hp, <- Hm, Hn. split; [exact Heq|].
  split_and!; try by vm_compute.
  injection Heq as <-. by vm_compute.
Defined.

(** ** The usage ledger *)
Section Ledger.
Import models http handlers.

(** from the dispatch on, HandleChatCompletion is decided by what
    Execute returns and by whether the insert fails *)
Lemma HandleChatCompletion_dispatch h env r s client req s1 model provider :
  reaches_dispatch h env r s client req s1 model provider →
  HandleChatCompletion h env r s
  = let s2 := emit (Dispatch (Client.Provider client) (cliReq_of req model))
                   (emit (ProbeProvider (Client.Provider client)) s1) in
    match agents.Execute provider (os env) (cliReq_of req model) with
    | inr err =>
        let entry := error_entry env client req model err in
        let s3 := emit (InsertUsageLog entry) s2 in
        (mkServer (database.CreateUsageLog (insert_fails env) (db s3) entry).1.1
                  (limiters s3) (trace s3),
         respondError StatusInternalServerError ("CLI execution failed: " +:+ err))
    | inl resp =>
        let entry := success_entry env client req model resp in
        let s3 := emit (InsertUsageLog entry) s2 in
        let out := database.CreateUsageLog (insert_fails env) (db s3) entry in
        (mkServer out.1.1 (limiters s3) (trace s3),
         success_response client model resp (UsageLog.ID out.1.2))
    end.
Proof.
  intros (Hctx & Hbody & Hres & Hm & Hp & Hav & Hperm).
  unfold HandleChatCompletion. rewrite Hctx, Hbody, Hres.
  apply String.eqb_neq in Hm. rewrite Hm, Hp, Hav. cbn [negb].
  unfold permitted in Hperm.
  replace (negb (database.IsModelAllowed client model)
           && negb (database.IsModelAllowed client "*")) with false
    by (by destruct (database.IsModelAllowed client model),
                    (database.IsModelAllowed client "*")).
  fold (cliReq_of req model).
  destruct (agents.Execute provider (os env) (cliReq_of req model)) as [resp|err].
  - fold (success_entry env client req model resp).
    by destruct (database.CreateUsageLog _ _ _) as [[db' log'] e].
  - fold (error_entry env client req model err).
    by destruct (database.CreateUsageLog _ _ _) as [[db' log'] e].
Qed.

Lemma resolve_model_db h env client req s :
  db (resolve_model h env client req s).1 = db s
  ∧ limiters (resolve_model h env client req s).1 = limiters s.
Proof.
  destruct (resolve_model h env client req s) as [s1 model] eqn:Hres.
  destruct (resolve_model_quiet _ _ _ _ _ _ _ Hres) as (? & ? & _). by simpl.
Qed.
End Ledger.

(** C7: when Execute fails on an admitted request, HandleChatCompletion
    makes exactly one ledger insert; its entry carries the error text and
    status 500 and has the token counts and the cost at zero; if the insert
    goes through the ledger grows by exactly that row, and in either case
    the caller gets the same 500 answer.  When Execute succeeds, a failing
    insert is swallowed: the caller still gets status 200 with the same
    provider, model, content, token counts, cost and duration; only the id
    in the response shows the row id that was never assigned (0). *)
Theorem C7_execution_failure_logged_insert_failure_swallowed :
  ∀ h env r s client req s1 model provider,
    reaches_dispatch h env r s client req s1 model provider →
    (∀ err,
       agents.Execute provider (http.os env) (cliReq_of req model) = inr err →
       let entry := error_entry env client req model err in
       ∃ s',
         handlers.HandleChatCompletion h env r s
         = (s', http.respondError http.StatusInternalServerError
                  ("CLI execution failed: " +:+ err))
         ∧ http.trace s'
           = (http.trace s1
              ++ [http.ProbeProvider (models.Client.Provider client);
                  http.Dispatch (models.Client.Provider client) (cliReq_of req model);
                  http.InsertUsageLog entry])%list
         ∧ models.UsageLog.ErrorMessage entry = Some err
         ∧ models.UsageLog.ResponseStatus entry = 500
         ∧ models.UsageLog.PromptTokens entry = 0
         ∧ models.UsageLog.CompletionTokens entry = 0
         ∧ models.UsageLog.TotalTokens entry = 0
         ∧ models.UsageLog.Cost entry = 0%Q
         ∧ (if http.insert_fails env
            then http.db s' = http.db s
            else database.usage_logs (http.db s')
                 = (database.usage_logs (http.db s)
                    ++ [models.UsageLog.with_ID
                          (database.usage_logs_seq (http.db s) + 1) entry])%list))
    ∧ (∀ resp,
         agents.Execute provider (http.os env) (cliReq_of req model) = inl resp →
         ∃ s',
           handlers.HandleChatCompletion h env r s
           = (s', success_response client model resp
                    (if http.insert_fails env then 0
                     else database.usage_logs_seq (http.db s) + 1))
           ∧ (if http.insert_fails env
              then http.db s' = http.db s
              else database.usage_logs (http.db s')
                   = (database.usage_logs (http.db s)
                      ++ [models.UsageLog.with_ID
                            (database.usage_logs_seq (http.db s) + 1)
                            (success_entry env client req model resp)])%list)).
Proof.
  intros h env r s client req s1 model provider Hreach.
  pose proof (HandleChatCompletion_dispatch _ _ _ _ _ _ _ _ _ Hreach) as Hrun.
  destruct Hreach as (_ & _ & Hres & _).
  pose proof (resolve_model_db h env client req s) as [Hdb _].
  rewrite Hres in Hdb. cbn [fst] in Hdb.
  split.
  - intros err Herr entry. rewrite Herr in Hrun. cbv zeta in Hrun.
    eexists. split; [exact Hrun|]. cbn [http.trace http.emit http.db].
    split; [by rewrite <- !app_assoc|].
    split_and!; try reflexivity.
    unfold database.CreateUsageLog.
    destruct (http.insert_fails env); cbn [fst snd database.usage_logs]; by rewrite Hdb.
  - intros resp Hresp. rewrite Hresp in Hrun. cbv zeta in Hrun.
    eexists. split.
    + rewrite Hrun. f_equal. unfold database.CreateUsageLog.
      destruct (http.insert_fails env); cbn [fst snd http.db http.emit];
        by rewrite ?Hdb.
    + cbn [http.db http.emit]. unfold database.CreateUsageLog.
      destruct (http.insert_fails env); cbn [fst snd database.usage_logs];
        by rewrite Hdb.
Qed.

(** C7 at the scenario's client: once with a failing command, once with a
    failing insert *)
Lemma C7_execution_failure_logged_insert_failure_swallowed_witness :
  (∃ s',
     handlers.HandleChatCompletion scenario_handler env_exec_fails
       (authenticated scenario_client "m1") (server_of scenario_client)
     = (s', http.respondError 500
              "CLI execution failed: copilot CLI execution failed: exit status 1, output: boom")
     ∧ length (database.usage_logs (http.db s')) = 1%nat)
  ∧ (∃ s',
       handlers.HandleChatCompletion scenario_handler env_insert_fails
         (authenticated scenario_client "m1") (server_of scenario_client)
       = (s', success_response scenario_client "m1"
                (agents.ExecuteResponse.mk "Hello, world!" "m1" 0 3 3 1500000000 "")
                0)
       ∧ database.usage_logs (http.db s') = []).
Proof.
  assert (∀ env, agents.LookPath (http.os env) "copilot" = true →
                 reaches_dispatch scenario_handler env
                   (authenticated scenario_client "m1") (server_of scenario_client)
                   scenario_client (chat "m1") (server_of scenario_client) "m1"
                   (copilot.as_Provider (copilot.NewProvider "" 0 ""))) as Hreach.
  { intros env Hav. unfold reaches_dispatch.
    split_and!; [reflexivity | reflexivity | reflexivity | discriminate
                | by vm_compute | exact Hav | by vm_compute]. }
  split.
  - destruct (proj1 (C7_execution_failure_logged_insert_failure_swallowed
                       _ _ _ _ _ _ _ _ _ (Hreach env_exec_fails eq_refl))
                    "copilot CLI execution failed: exit status 1, output: boom"
                    eq_refl)
      as (s' & Hrun & _ & _ & _ & _ & _ & _ & _ & Hlog).
    exists s'. split; [exact Hrun|]. cbn in Hlog. by rewrite Hlog.
  - destruct (proj2 (C7_execution_failure_logged_insert_failure_swallowed
                       _ _ _ _ _ _ _ _ _ (Hreach env_insert_fails eq_refl))
                    (agents.ExecuteResponse.mk "Hello, world!" "m1" 0 3 3 1500000000 "")
                    eq_refl)
      as (s' & Hrun & Hdb).
    exists s'. split; [exact Hrun|]. cbn in Hdb. by rewrite Hdb.
Defined.

(** ** Rate admission *)
Section RateAdmission.
Import models http middleware.

Lemma Allow_zero_limiter t : rate.Allow zero_limiter t = (false, zero_limiter).
Proof. reflexivity. Qed.

Lemma RateLimit_zero {B R} (next : Handler B R) env r s client :
  Context r = Some client →
  Client.RateLimitPerMinute client = 0 →
  zero_limited s (Client.ID client) →
  ∃ s', RateLimit next env r s = (s', RateLimitExceeded)
        ∧ db s' = db s ∧ trace s' = trace s
        ∧ limiters s' !! Client.ID client = Some zero_limiter.
Proof.
  intros Hctx Hrate Hlim. unfold RateLimit, getLimiter.
  rewrite Hctx, Hrate.
  destruct Hlim as [-> | ->]; fold zero_limiter; rewrite Allow_zero_limiter;
    cbn [negb]; eexists; (split; [reflexivity|]);
    cbn [db trace limiters]; by rewrite lookup_insert_eq.
Qed.
End RateAdmission.

(** C1, as the code has it: a client whose rate limit is 0 gets the limiter
    NewLimiter(0, 0), which never allows an event.  From a state in which
    the client has no limiter yet (or that one), RateLimit answers every
    request of the client, however many and whenever they come, with 429
    "rate limit exceeded"; it never calls the next handler, touches neither
    the store nor the trace, and leaves that limiter in place. *)
Theorem C1_zero_limit_rejects_every_request :
  ∀ (B R : Type) (next : http.Handler B R) client,
    models.Client.RateLimitPerMinute client = 0 →
    ∀ reqs s,
      Forall (λ er, http.Context er.2 = Some client) reqs →
      zero_limited s (models.Client.ID client) →
      ∃ s', serve (middleware.RateLimit next) reqs s
            = (s', repeat RateLimitExceeded (length reqs))
            ∧ http.db s' = http.db s ∧ http.trace s' = http.trace s
            ∧ zero_limited s' (models.Client.ID client).
Proof.
  intros B R next client Hrate reqs.
  induction reqs as [|[env r] reqs IH]; intros s Hctx Hlim.
  - exists s. by split_and!.
  - apply Forall_cons in Hctx as [Hr Hctx]. cbn [snd] in Hr.
    destruct (RateLimit_zero next env r s client Hr Hrate Hlim)
      as (s1 & Hrun & Hdb & Htr & Hl).
    destruct (IH s1 Hctx (or_intror Hl)) as (s2 & Hrest & Hdb2 & Htr2 & Hl2).
    exists s2. cbn [serve length repeat]. rewrite Hrun, Hrest.
    split_and!; [done | congruence | congruence | done].
Qed.

(** C1 at two requests an hour apart, and through the whole chain at two
    chat requests a minute apart *)
Lemma C1_zero_limit_rejects_every_request_witness :
  (∃ s', serve (middleware.RateLimit admit_all)
           [(env_at scenario_start,
             http.mkRequest "" None (Some client_unlimited));
            (env_at (scenario_start + 3600 * rate.Second),
             http.mkRequest "" None (Some client_unlimited))]
           (server_of client_unlimited)
         = (s', [RateLimitExceeded; RateLimitExceeded]))
  ∧ (serve (api.chat_completions scenario_handler)
           [(env_at scenario_start, request_with "aics_zero" "m1");
            (env_at (scenario_start + 60 * rate.Second),
             request_with "aics_zero" "m1")]
           (server_of client_unlimited)).2
    = [RateLimitExceeded; RateLimitExceeded].
Proof.
  split; [|by vm_compute].
  destruct (C1_zero_limit_rejects_every_request unit unit admit_all
              client_unlimited eq_refl
              [(env_at scenario_start,
                http.mkRequest "" None (Some client_unlimited));
               (env_at (scenario_start + 3600 * rate.Second),
                http.mkRequest "" None (Some client_unlimited))]
              (server_of client_unlimited)
              ltac:(by repeat constructor) (or_introl eq_refl))
    as (s' & Hrun & _).
  by exists s'.
Defined.

(** C2 as stated fails: in the scenario the responses are not 200, 403,
    200, 429 (the third request is rejected with RateLimitExceeded) and the
    final aggregate does not show two requests. *)
Lemma C2_counterexample :
  http.Status <$> scenario_run.2 ≠ [200; 403; 200; 429]
  ∧ nth_error scenario_run.2 2 = Some RateLimitExceeded
  ∧ scenario_total_requests ≠ Some 2.
Proof. split_and!; [by vm_compute | by vm_compute | by vm_compute]. Qed.

(** C2, amended: in the scenario, request 1 (model m1) is admitted and
    logged with status 200; request 2 (model m2) passes rate admission,
    taking the second token, and is then rejected with ModelNotAllowed
    without a usage-ledger entry; requests 3 and 4 (model m1) are rejected
    with RateLimitExceeded without a usage-ledger entry; the ledger ends
    with the single entry of request 1, the minute bucket counts the two
    requests that passed rate admission, and the final aggregate shows
    total_requests = 1. *)
Theorem C2_scenario_as_served :
  scenario_run.2
  = [ success_response scenario_client "m1"
        (agents.ExecuteResponse.mk "Hello, world!" "m1" 0 3 3 1500000000 "") 1;
      ModelNotAllowed "m2"; RateLimitExceeded; RateLimitExceeded ]
  ∧ models.UsageLog.ResponseStatus <$> database.usage_logs (http.db scenario_run.1)
    = [200]
  ∧ database.rate_limit_buckets (http.db scenario_run.1)
      !! (1, middleware.Truncate_Minute scenario_start) = Some 2
  ∧ scenario_total_requests = Some 1.
Proof. by vm_compute. Qed.

(** ** Fingerprints *)
Section Fingerprints.
Import models http middleware.

Lemma Sum256_num_range msg : 0 <= auth.Sum256_num msg < 2 ^ 256.
Proof. unfold auth.Sum256_num, auth.digest_num. apply Z.mod_pos_bound. lia. Qed.

Lemma HashAPIKey_of_Sum256_num key1 key2 :
  auth.Sum256_num (bytes_of_string key1) = auth.Sum256_num (bytes_of_string key2) →
  auth.HashAPIKey key1 = auth.HashAPIKey key2.
Proof. unfold auth.HashAPIKey, auth.Sum256. by intros ->. Qed.

Lemma a_string_length n : String.length (a_string n) = n.
Proof. induction n as [|n IH]; simpl; [done | by rewrite IH]. Qed.

(** no function from the naturals into [0, N) is injective *)
Lemma no_injection_below (N : nat) (g : nat → nat) :
  (∀ n, (g n < N)%nat) → ¬ (∀ i j, g i = g j → i = j).
Proof.
  intros Hrange Hinj.
  assert (NoDup (g <$> seq 0 (S N))) as Hnd.
  { apply NoDup_fmap_2; [exact Hinj | apply NoDup_seq]. }
  assert (g <$> seq 0 (S N) ⊆+ seq 0 N) as Hsub.
  { apply NoDup_submseteq; [done|].
    intros x (n & -> & _)%list_elem_of_fmap.
    apply elem_of_seq. specialize (Hrange n). lia. }
  apply submseteq_length in Hsub.
  rewrite length_fmap, !length_seq in Hsub. lia.
Qed.

(** the fingerprint takes fewer values than there are keys *)
Lemma HashAPIKey_collides :
  ¬ (∀ key1 key2, auth.HashAPIKey key1 = auth.HashAPIKey key2 → key1 = key2).
Proof.
  intros Hinj.
  apply (no_injection_below (Z.to_nat (2 ^ 256))
           (λ n, Z.to_nat (auth.Sum256_num (bytes_of_string (a_string n))))).
  - intros n. apply Z2Nat.inj_lt; [apply Sum256_num_range | lia
                                   | apply Sum256_num_range].
  - intros i j Hij.
    apply Z2Nat.inj in Hij; [| apply Sum256_num_range | apply Sum256_num_range].
    apply HashAPIKey_of_Sum256_num, Hinj in Hij.
    by rewrite <- (a_string_length i), <- (a_string_length j), Hij.
Qed.

(** RateLimit and HandleChatCompletion read the context and the body of
    a request, not its headers *)
Lemma HandleChatCompletion_ext h env r r' s :
  Context r = Context r' → Body r = Body r' →
  handlers.HandleChatCompletion h env r s = handlers.HandleChatCompletion h env r' s.
Proof. intros Hc Hb. unfold handlers.HandleChatCompletion. by rewrite Hc, Hb. Qed.

Lemma RateLimit_ext h env r r' s :
  Context r = Context r' → Body r = Body r' →
  RateLimit (handlers.HandleChatCompletion h) env r s
  = RateLimit (handlers.HandleChatCompletion h) env r' s.
Proof.
  intros Hc Hb. unfold RateLimit. rewrite Hc.
  destruct (Context r') as [client|] eqn:Hc'; [|done].
  destruct (getLimiter _ _ _) as [limiter lims].
  destruct (rate.Allow limiter (Now env)) as [ok limiter'].
  destruct (negb ok); [done|].
  destruct (database.IncrementRateLimitBucket _ _ _ _) as [db' e].
  apply HandleChatCompletion_ext; congruence.
Qed.

(** what Authenticate does with a well-formed bearer key is decided by
    the key's fingerprint *)
Lemma Authenticate_by_fingerprint {B R} (next : Handler B R) env (body : option B)
      s key :
  auth.ValidateAPIKeyFormat key = true →
  Authenticate next env (bearer key body) s
  = let s := emit (LookupClient (auth.HashAPIKey key)) s in
    match database.GetClientByAPIKeyHash (lookup_fails env) (db s)
                                         (auth.HashAPIKey key) with
    | inr _ =>
        (s, respondError StatusInternalServerError "failed to validate API key")
    | inl None => (s, respondError StatusUnauthorized "invalid API key")
    | inl (Some client) =>
        if negb (Client.IsActive client) then
          (s, respondError StatusForbidden "API key is inactive")
        else if match Client.ExpiresAt client with
                | Some t => t <? Now env
                | None => false
                end then
          (s, respondError StatusForbidden "API key has expired")
        else next env (mkRequest ("Bearer " +:+ key) body (Some client)) s
    end.
Proof.
  intros Hok. unfold Authenticate, bearer. cbn [Authorization Body].
  rewrite SplitN2_Bearer.
  cbn [String.eqb String.append Ascii.eqb Bool.eqb negb]. by rewrite Hok.
Qed.

Lemma chat_completions_by_fingerprint h env body s key1 key2 :
  auth.ValidateAPIKeyFormat key1 = true →
  auth.ValidateAPIKeyFormat key2 = true →
  auth.HashAPIKey key1 = auth.HashAPIKey key2 →
  api.chat_completions h env (bearer key1 body) s
  = api.chat_completions h env (bearer key2 body) s.
Proof.
  intros H1 H2 Hh. unfold api.chat_completions, api.applyMiddleware.
  cbn [fold_right]. rewrite !Authenticate_by_fingerprint by done.
  rewrite Hh. cbv zeta.
  destruct (database.GetClientByAPIKeyHash _ _ _) as [[client|]|];
    [|reflexivity|reflexivity].
  destruct (negb (Client.IsActive client)); [done|].
  destruct (match Client.ExpiresAt client with Some _ => _ | None => _ end);
    [done|].
  by apply RateLimit_ext.
Qed.

Lemma HashAPIKey_length key : String.length (auth.HashAPIKey key) = 44%nat.
Proof.
  unfold auth.HashAPIKey, auth.Sum256.
  generalize (auth.Sum256_num (bytes_of_string key)). intros x.
  cbn [auth.be_bytes auth.EncodeToString]. reflexivity.
Qed.
End Fingerprints.

(** C3 as stated fails: fingerprints are 256-bit digests, so two different
    secrets with the same fingerprint exist, and "iff" does not hold. *)
Lemma C3_counterexample :
  ¬ (∀ s1 s2, auth.HashAPIKey s1 = auth.HashAPIKey s2 ↔ s1 = s2).
Proof. intros H. apply HashAPIKey_collides. intros k1 k2. apply H. Qed.

(** C3, amended: HashAPIKey is deterministic (equal secrets have equal
    fingerprints) and maps every secret to a 44-character encoding of its
    SHA-256 digest; the gateway uses a presented key only through its
    fingerprint: the one store lookup of Authenticate is made with
    HashAPIKey(key), and two well-formed keys with the same fingerprint are
    served identically (same response, same resulting store, limiters and
    calls), so the raw secret is neither stored nor compared. *)
Theorem C3_fingerprint_deterministic_sole_lookup_key :
  (∀ s1 s2, s1 = s2 → auth.HashAPIKey s1 = auth.HashAPIKey s2)
  ∧ (∀ key, String.length (auth.HashAPIKey key) = 44%nat)
  ∧ (∀ (B R : Type) (next : http.Handler B R) env body s key,
       auth.ValidateAPIKeyFormat key = true →
       middleware.Authenticate next env (bearer key body) s
       = let s := http.emit (http.LookupClient (auth.HashAPIKey key)) s in
         match database.GetClientByAPIKeyHash (http.lookup_fails env) (http.db s)
                                              (auth.HashAPIKey key) with
         | inr _ =>
             (s, http.respondError http.StatusInternalServerError
                   "failed to validate API key")
         | inl None =>
             (s, http.respondError http.StatusUnauthorized "invalid API key")
         | inl (Some client) =>
             if negb (models.Client.IsActive client) then
               (s, http.respondError http.StatusForbidden "API key is inactive")
             else if match models.Client.ExpiresAt client with
                     | Some t => t <? http.Now env
                     | None => false
                     end then
               (s, http.respondError http.StatusForbidden "API key has expired")
             else next env (http.mkRequest ("Bearer " +:+ key) body (Some client)) s
         end)
  ∧ (∀ h env body s key1 key2,
       auth.ValidateAPIKeyFormat key1 = true →
       auth.ValidateAPIKeyFormat key2 = true →
       auth.HashAPIKey key1 = auth.HashAPIKey key2 →
       api.chat_completions h env (bearer key1 body) s
       = api.chat_completions h env (bearer key2 body) s).
Proof.
  split_and!.
  - by intros s1 s2 ->.
  - apply HashAPIKey_length.
  - intros B R next env body s key Hok. by apply Authenticate_by_fingerprint.
  - apply chat_completions_by_fingerprint.
Qed.

(** C3 at the scenario's key: the only store lookup carries its
    fingerprint *)
Lemma C3_fingerprint_deterministic_sole_lookup_key_witness :
  auth.ValidateAPIKeyFormat scenario_key = true
  ∧ ∃ s',
      middleware.Authenticate
        (middleware.RateLimit (handlers.HandleChatCompletion scenario_handler))
        (env_at scenario_start)
        (bearer scenario_key (Some (chat "m1"))) (server_of scenario_client)
      = (s', success_response scenario_client "m1"
               (agents.ExecuteResponse.mk "Hello, world!" "m1" 0 3 3 1500000000 "") 1)
      ∧ http.trace s'
        = [ http.LookupClient "g5zXL987bps-ac7KyhuWrXF92RIZBMdqXKy-qBKdruM=";
            http.IncrementBucket 1 (middleware.Truncate_Minute scenario_start);
            http.ProbeProvider "copilot";
            http.Dispatch "copilot" (cliReq_of (chat "m1") "m1");
            http.InsertUsageLog
              (success_entry (env_at scenario_start) scenario_client (chat "m1") "m1"
                 (agents.ExecuteResponse.mk "Hello, world!" "m1" 0 3 3 1500000000 "")) ].
Proof.
  split; [reflexivity|].
  rewrite (proj1 (proj2 (proj2 C3_fingerprint_deterministic_sole_lookup_key))
             _ _ _ (env_at scenario_start) (Some (chat "m1"))
             (server_of scenario_client) scenario_key eq_refl).
  eexists. split; by vm_compute.
Defined.

(** * Further properties of the code *)

(** ** Authenticate *)
Section Authentication.
Import models http middleware.

Lemma find_resolves s key client :
  List.find (λ c, String.eqb (Client.APIKeyHash c) (auth.HashAPIKey key))
            (database.clients (db s)) = Some client →
  resolves_to s key client.
Proof.
  intros Hfind. destruct (find_some _ _ Hfind) as [Hin Heq].
  apply String.eqb_eq in Heq. by split_and!.
Qed.
Lemma cut_space_spec s a b :
  cut_space s = Some (a, b) → s = a +:+ String " " b.
Proof.
  revert a. induction s as [|c s IH]; intros a; [done|]. cbn [cut_space].
  destruct (Ascii.eqb c " ") eqn:Hc.
  - apply Ascii.eqb_eq in Hc as ->. by intros [= <- <-].
  - destruct (cut_space s) as [[a' b']|]; [|done].
    intros [= <- <-]. by rewrite (IH a' eq_refl).
Qed.

Lemma SplitN2_two h scheme key :
  SplitN2 h = [scheme; key] → h = scheme +:+ String " " key.
Proof.
  unfold SplitN2. destruct (cut_space h) as [[a b]|] eqn:Hcut; [|done].
  intros [= <- <-]. by apply cut_space_spec.
Qed.

Lemma SplitN2_not_Bearer h :
  (∀ scheme key, SplitN2 h = [scheme; key] → scheme ≠ "Bearer") →
  ∀ key, h ≠ "Bearer " +:+ key.
Proof.
  intros Hno key ->. by apply (Hno "Bearer" key (SplitN2_Bearer key)).
Qed.

Lemma expired_not_in_good_standing env client t :
  Client.ExpiresAt client = Some t → (t <? Now env) = true →
  ¬ in_good_standing env client.
Proof.
  intros Hexp Hlt [_ Hok]. apply Z.ltb_lt in Hlt. specialize (Hok t Hexp). lia.
Qed.
End Authentication.

(** X1: Authenticate lets a request through to the next handler only when
    the header is a bearer key of the right shape, the store lookup by the
    key's fingerprint succeeds and finds a client, and that client is
    active and not expired; the next handler then sees that client in the
    context.  Every other request is answered by Authenticate itself: 401
    without any store access for a missing or malformed header or key, and
    after the one lookup 500 when the lookup fails, 401 when no client has
    the fingerprint, 403 when the client is inactive or expired. *)
Theorem X1_authenticate_gatekeeping :
  ∀ (B R : Type) (next : http.Handler B R) env r s,
    (((∀ key, http.Authorization r ≠ "Bearer " +:+ key)
      ∨ ∃ key, http.Authorization r = "Bearer " +:+ key
               ∧ auth.ValidateAPIKeyFormat key = false)
     ∧ ∃ msg, middleware.Authenticate next env r s
              = (s, http.respondError http.StatusUnauthorized msg))
    ∨ ∃ key,
        http.Authorization r = "Bearer " +:+ key
        ∧ auth.ValidateAPIKeyFormat key = true
        ∧ let s1 := http.emit (http.LookupClient (auth.HashAPIKey key)) s in
          (http.lookup_fails env = true
           ∧ middleware.Authenticate next env r s
             = (s1, http.respondError http.StatusInternalServerError
                      "failed to validate API key"))
          ∨ (http.lookup_fails env = false
             ∧ (∀ client, In client (database.clients (http.db s)) →
                          models.Client.APIKeyHash client ≠ auth.HashAPIKey key)
             ∧ middleware.Authenticate next env r s
               = (s1, http.respondError http.StatusUnauthorized "invalid API key"))
          ∨ (∃ client msg,
               http.lookup_fails env = false
               ∧ resolves_to s key client
               ∧ ¬ in_good_standing env client
               ∧ middleware.Authenticate next env r s
                 = (s1, http.respondError http.StatusForbidden msg))
          ∨ (∃ client,
               http.lookup_fails env = false
               ∧ resolves_to s key client
               ∧ in_good_standing env client
               ∧ middleware.Authenticate next env r s
                 = next env (http.mkRequest (http.Authorization r) (http.Body r)
                                            (Some client)) s1).
Proof.
  intros B R next env r s. unfold middleware.Authenticate.
  destruct (String.eqb (http.Authorization r) "") eqn:Hempty.
  { left. split; [|by eauto]. left. intros key Hk.
    apply String.eqb_eq in Hempty. by rewrite Hempty in Hk. }
  destruct (middleware.SplitN2 (http.Authorization r))
    as [|scheme [|key [|]]] eqn:Hsplit;
    try (left; split; [|by eauto]; left; apply SplitN2_not_Bearer;
         intros ? ? Heq; by rewrite Hsplit in Heq).
  destruct (String.eqb scheme "Bearer") eqn:Hscheme; cbn [negb].
  2:{ left. split; [|by eauto]. left. apply SplitN2_not_Bearer.
      intros scheme' key' Heq. rewrite Hsplit in Heq. injection Heq as <- <-.
      by apply String.eqb_neq. }
  apply String.eqb_eq in Hscheme as ->.
  apply SplitN2_two in Hsplit.
  destruct (auth.ValidateAPIKeyFormat key) eqn:Hshape; cbn [negb].
  2:{ left. split; [|by eauto]. right. by exists key. }
  right. exists key. split; [done|]. split; [done|]. cbv zeta.
  unfold database.GetClientByAPIKeyHash. cbn [http.db http.emit].
  destruct (http.lookup_fails env); [by left|]. right.
  destruct (List.find _ (database.clients (http.db s))) as [client|] eqn:Hfind.
  2:{ left. split; [done|]. split; [|done]. intros client Hin Heq.
      apply (find_none _ _ Hfind) in Hin. by rewrite Heq, String.eqb_refl in Hin. }
  right. apply find_resolves in Hfind.
  destruct (models.Client.IsActive client) eqn:Hact; cbn [negb].
  2:{ left. exists client. eexists. split_and!; [done | done | | done].
      intros [Ha _]. congruence. }
  destruct (models.Client.ExpiresAt client) as [t|] eqn:Hexp.
  - destruct (t <? http.Now env) eqn:Hlt.
    + left. exists client. eexists. split_and!; [done | done | | done].
      by eapply expired_not_in_good_standing.
    + right. exists client. split_and!; [done | done | | done].
      split; [done|]. intros t' Ht'. rewrite Hexp in Ht'. injection Ht' as <-.
      by apply Z.ltb_ge.
  - right. exists client. split_and!; [done | done | | done].
    split; [done|]. intros t' Ht'. by rewrite Hexp in Ht'.
Qed.

(** ** The footprint of a chat request *)
Section Footprint.
Import models http handlers.

Lemma db_eta d :
  database.mkDB (database.clients d) (database.usage_logs d)
                (database.usage_logs_seq d) (database.rate_limit_buckets d) = d.
Proof. by destruct d. Qed.

(** HandleChatCompletion leaves the limiters alone, and the store too but
    for the one ledger row of a dispatched request *)
Lemma HandleChatCompletion_footprint h env r s client :
  Context r = Some client →
  ∃ s' resp,
    HandleChatCompletion h env r s = (s', resp)
    ∧ limiters s' = limiters s
    ∧ ledger_step (db s) (db s') client resp
    ∧ handler_status (Status resp)
    ∧ (Status resp = 200 → insert_fails env = false → db s' ≠ db s).
Proof.
  intros Hctx. unfold HandleChatCompletion, handler_status. rewrite Hctx.
  destruct (Body r) as [req|].
  2:{ do 2 eexists. split_and!; [reflexivity | done | by left | | done].
      cbn. tauto. }
  destruct (resolve_model h env client req s) as [s1 model] eqn:Hres.
  destruct (resolve_model_quiet _ _ _ _ _ _ _ Hres) as (Hdb & Hlim & _).
  destruct (String.eqb model "").
  { do 2 eexists. split_and!; [reflexivity | done | by left | | done].
    cbn. tauto. }
  destruct (providers h !! Client.Provider client) as [provider|].
  2:{ do 2 eexists. split_and!; [reflexivity | done | by left | | done].
      cbn. tauto. }
  destruct (agents.IsAvailable provider (os env)); cbn [negb].
  2:{ do 2 eexists. split_and!; [reflexivity | done | by left | | done].
      cbn. tauto. }
  destruct (negb (database.IsModelAllowed client model)
            && negb (database.IsModelAllowed client "*")).
  { do 2 eexists. split_and!; [reflexivity | done | by left | | done].
    cbn. tauto. }
  unfold database.CreateUsageLog. cbn [db emit limiters trace].
  destruct (agents.Execute provider (os env) _) as [out|err];
    destruct (insert_fails env) eqn:Hins.
  - do 2 eexists. split_and!; [reflexivity | done | by left | | done].
    cbn. tauto.
  - do 2 eexists. split_and!; [reflexivity | done | | cbn; tauto | ].
    + right. eexists. rewrite Hdb. split_and!; try reflexivity.
      * by left.
      * by unfold echoes.
    + intros _ _. cbn [db]. rewrite Hdb. intros Heq.
      apply (f_equal database.usage_logs_seq) in Heq. cbn in Heq. lia.
  - do 2 eexists. split_and!; [reflexivity | done | by left | | done].
    cbn. tauto.
  - do 2 eexists. split_and!; [reflexivity | done | | cbn; tauto | done].
    right. eexists. rewrite Hdb. split_and!; try reflexivity. by right.
Qed.

Lemma HandleChatCompletion_no_client h env r s :
  Context r = None →
  HandleChatCompletion h env r s
  = (s, respondError StatusInternalServerError "client not found in context").
Proof. intros Hctx. unfold HandleChatCompletion. by rewrite Hctx. Qed.
End Footprint.

(** ** The chain of /v1/chat/completions *)
Section Chain.
Import models http middleware handlers.

(** Authenticate answers itself, leaving store and limiters alone, or
    hands an authenticated request on *)
Lemma Authenticate_outcome {B R} (next : Handler B R) env r s :
  (∃ status msg,
     Authenticate next env r s
     = (mkServer (db s) (limiters s) (trace (Authenticate next env r s).1),
        respondError status msg)
     ∧ (status = 401 ∨ status = 403 ∨ status = 500))
  ∨ ∃ client,
      authenticated_as env r s client
      ∧ Authenticate next env r s
        = next env (mkRequest (Authorization r) (Body r) (Some client))
               (mkServer (db s) (limiters s)
                  (trace s ++ [LookupClient (Client.APIKeyHash client)])).
Proof.
  unfold Authenticate.
  destruct (String.eqb (Authorization r) ""); [left; destruct s; by eauto|].
  destruct (SplitN2 (Authorization r)) as [|scheme [|key [|]]] eqn:Hsplit;
    try (left; destruct s; by eauto).
  destruct (String.eqb scheme "Bearer") eqn:Hscheme; cbn [negb];
    [|left; destruct s; by eauto].
  apply String.eqb_eq in Hscheme as ->. apply SplitN2_two in Hsplit.
  destruct (auth.ValidateAPIKeyFormat key) eqn:Hshape; cbn [negb];
    [|left; destruct s; by eauto].
  unfold database.GetClientByAPIKeyHash, emit. cbn [db limiters trace].
  destruct (lookup_fails env) eqn:Hfail; [left; by eauto 6|].
  destruct (List.find _ (database.clients (db s))) as [client|] eqn:Hfind;
    [|left; by eauto 6].
  apply find_resolves in Hfind.
  destruct (Client.IsActive client) eqn:Hact; cbn [negb]; [|left; by eauto 6].
  assert (Client.APIKeyHash client = auth.HashAPIKey key) as Hhash
    by apply Hfind.
  destruct (Client.ExpiresAt client) as [t|] eqn:Hexp.
  - destruct (t <? Now env) eqn:Hlt; [left; by eauto 6|].
    right. exists client. rewrite Hhash. split; [|done].
    exists key. do 4 (split; [done|]). split; [done|].
    intros t' Ht'. rewrite Hexp in Ht'. injection Ht' as <-. by apply Z.ltb_ge.
  - right. exists client. rewrite Hhash. split; [|done].
    exists key. do 4 (split; [done|]). split; [done|].
    intros t' Ht'. by rewrite Hexp in Ht'.
Qed.

(** RateLimit answers 429 with the store as it was, or hands the request
    on after the bucket upsert *)
Lemma RateLimit_cases {B R} (next : Handler B R) env r s client :
  Context r = Some client →
  ∃ lims,
    RateLimit next env r s
    = (mkServer (db s) lims (trace s), RateLimitExceeded)
    ∨ RateLimit next env r s
      = next env r
          (mkServer
             (database.IncrementRateLimitBucket (bucket_fails env) (db s)
                (Client.ID client) (Truncate_Minute (Now env))).1
             lims
             (trace s ++ [IncrementBucket (Client.ID client)
                                          (Truncate_Minute (Now env))])).
Proof.
  intros Hctx. unfold RateLimit. rewrite Hctx.
  destruct (getLimiter _ _ _) as [limiter lims].
  destruct (rate.Allow limiter (Now env)) as [[|] limiter']; cbn [negb].
  - eexists. right. cbn [db limiters trace emit].
    by destruct (database.IncrementRateLimitBucket _ _ _ _).
  - eexists. by left.
Qed.

Lemma IncrementRateLimitBucket_ledger fail d id w :
  let d' := (database.IncrementRateLimitBucket fail d id w).1 in
  database.clients d' = database.clients d
  ∧ database.usage_logs d' = database.usage_logs d
  ∧ database.usage_logs_seq d' = database.usage_logs_seq d.
Proof. unfold database.IncrementRateLimitBucket. by destruct fail. Qed.

(** what a chat request does to the store: nothing when Authenticate
    answers, nothing when RateLimit answers, and otherwise the bucket
    upsert followed by the handler's ledger step *)
Lemma chat_completions_footprint h env r s :
  ∃ s' resp,
    api.chat_completions h env r s = (s', resp)
    ∧ ((db s' = db s ∧ limiters s' = limiters s
        ∧ (Status resp = 401 ∨ Status resp = 403 ∨ Status resp = 500))
       ∨ (∃ client, authenticated_as env r s client
                    ∧ db s' = db s ∧ resp = RateLimitExceeded)
       ∨ ∃ client,
           authenticated_as env r s client
           ∧ ledger_step
               (database.IncrementRateLimitBucket (bucket_fails env) (db s)
                  (Client.ID client) (Truncate_Minute (Now env))).1
               (db s') client resp
           ∧ handler_status (Status resp)).
Proof.
  unfold api.chat_completions, api.applyMiddleware. cbn [fold_right].
  destruct (Authenticate_outcome
              (RateLimit (HandleChatCompletion h)) env r s)
    as [(status & msg & Hrun & Hstatus) | (client & Hauth & Hrun)].
  { rewrite Hrun. do 2 eexists. split; [reflexivity|]. left.
    cbn [db limiters Status respondError]. by split_and!. }
  rewrite Hrun.
  destruct (RateLimit_cases (HandleChatCompletion h) env
              (mkRequest (Authorization r) (Body r) (Some client))
              (mkServer (db s) (limiters s)
                 (trace s ++ [LookupClient (Client.APIKeyHash client)]))
              client eq_refl) as [lims [Hrl | Hrl]]; rewrite Hrl.
  { do 2 eexists. split; [reflexivity|]. right. left. by exists client. }
  destruct (HandleChatCompletion_footprint h env
              (mkRequest (Authorization r) (Body r) (Some client))
              (mkServer
                 (database.IncrementRateLimitBucket (bucket_fails env) (db s)
                    (Client.ID client) (Truncate_Minute (Now env))).1
                 lims
                 (trace s ++ [LookupClient (Client.APIKeyHash client)]
                  ++ [IncrementBucket (Client.ID client)
                                      (Truncate_Minute (Now env))]))
              client eq_refl)
    as (s' & resp & Hh & _ & Hstep & Hst & _).
  cbn [db trace limiters] in *. rewrite <- app_assoc, Hh.
  do 2 eexists. split; [reflexivity|]. right. right. by exists client.
Qed.

Lemma ledger_step_rows d0 d d' client resp :
  database.clients d = database.clients d0 →
  database.usage_logs d = database.usage_logs d0 →
  database.usage_logs_seq d = database.usage_logs_seq d0 →
  ledger_step d d' client resp →
  database.clients d' = database.clients d0
  ∧ database.rate_limit_buckets d' = database.rate_limit_buckets d
  ∧ ((database.usage_logs d' = database.usage_logs d0
      ∧ database.usage_logs_seq d' = database.usage_logs_seq d0)
     ∨ ∃ row,
         database.usage_logs d' = (database.usage_logs d0 ++ [row])%list
         ∧ database.usage_logs_seq d' = database.usage_logs_seq d0 + 1
         ∧ UsageLog.ID row = database.usage_logs_seq d0 + 1
         ∧ UsageLog.ClientID row = Client.ID client
         ∧ UsageLog.ResponseStatus row = Status resp
         ∧ (Status resp = 200 ∨ Status resp = 500)
         ∧ echoes resp row).
Proof.
  intros Hc Hl Hs [-> | (row & -> & Hid & Hown & Hst & H25 & Hecho)].
  - split_and!; [done | done | by left].
  - cbn. split_and!; [done | done |]. right. exists row.
    rewrite <- Hl, <- Hs. by split_and!.
Qed.
End Chain.

(** X2: whatever the request, /v1/chat/completions leaves the clients table
    alone and adds at most one row to the usage ledger.  A row is added
    only for a request that carried the key of an active, unexpired client;
    the row belongs to that client, gets the next id, and records the
    status of the response, which is then 200 or 500; a 200 response
    reports the id, provider, model, token counts, cost and duration that
    the row records.  Requests answered with any other status (400, 401,
    403, 429, 503) leave no ledger entry. *)
Theorem X2_ledger_at_most_one_row_per_request :
  ∀ h env r s,
    ∃ s' resp,
      api.chat_completions h env r s = (s', resp)
      ∧ database.clients (http.db s') = database.clients (http.db s)
      ∧ ((database.usage_logs (http.db s') = database.usage_logs (http.db s)
          ∧ database.usage_logs_seq (http.db s')
            = database.usage_logs_seq (http.db s))
         ∨ ∃ client row,
             authenticated_as env r s client
             ∧ database.usage_logs (http.db s')
               = (database.usage_logs (http.db s) ++ [row])%list
             ∧ database.usage_logs_seq (http.db s')
               = database.usage_logs_seq (http.db s) + 1
             ∧ models.UsageLog.ID row = database.usage_logs_seq (http.db s) + 1
             ∧ models.UsageLog.ClientID row = models.Client.ID client
             ∧ models.UsageLog.ResponseStatus row = http.Status resp
             ∧ (http.Status resp = 200 ∨ http.Status resp = 500)
             ∧ echoes resp row)
      ∧ (http.Status resp ≠ 200 → http.Status resp ≠ 500 →
         database.usage_logs (http.db s') = database.usage_logs (http.db s)).
Proof.
  intros h env r s.
  destruct (chat_completions_footprint h env r s)
    as (s' & resp & Hrun & [(Hdb & _ & _) | [(client & _ & Hdb & _)
                                            | (client & Hauth & Hstep & _)]]).
  - exists s', resp. rewrite Hdb. split_and!; [done | done | by left | done].
  - exists s', resp. rewrite Hdb. split_and!; [done | done | by left | done].
  - destruct (IncrementRateLimitBucket_ledger (http.bucket_fails env) (http.db s)
                (models.Client.ID client)
                (middleware.Truncate_Minute (http.Now env))) as (Hc & Hl & Hs).
    destruct (ledger_step_rows _ _ _ _ _ Hc Hl Hs Hstep)
      as (Hc' & _ & [[Hl' Hs'] | (row & Hrows & Hrest)]).
    + exists s', resp. split_and!; [done | done | by left | done].
    + exists s', resp. split_and!; [done | done | |].
      * right. by exists client, row.
      * intros H200 H500. destruct Hrest as (_ & _ & _ & _ & [?|?] & _); done.
Qed.

(** X3: a request that does not carry the key of an active, unexpired
    client changes neither the store nor the limiters: it takes no rate
    token, bumps no minute bucket and writes no ledger row.  In particular
    every 401 answer leaves store and limiters as they were. *)
Theorem X3_unauthenticated_requests_cost_nothing :
  ∀ h env r s,
    ∃ s' resp,
      api.chat_completions h env r s = (s', resp)
      ∧ ((∃ client, authenticated_as env r s client)
         ∨ (http.db s' = http.db s ∧ http.limiters s' = http.limiters s
            ∧ (http.Status resp = 401 ∨ http.Status resp = 403
               ∨ http.Status resp = 500)))
      ∧ (http.Status resp = 401 →
         http.db s' = http.db s ∧ http.limiters s' = http.limiters s).
Proof.
  intros h env r s.
  destruct (chat_completions_footprint h env r s)
    as (s' & resp & Hrun & [(Hdb & Hlim & Hst) | [(client & Hauth & Hdb & ->)
                                                 | (client & Hauth & _ & Hst)]]).
  - exists s', resp. split_and!; [done | by right | done].
  - exists s'. eexists. split_and!; [done | left; by exists client | done].
  - exists s', resp. split_and!; [done | left; by exists client |].
    intros H401. unfold handler_status in Hst. lia.
Qed.

Section LedgerIds.
Import models http.

Lemma ledger_ids_ok_same d d' :
  database.usage_logs d' = database.usage_logs d →
  database.usage_logs_seq d' = database.usage_logs_seq d →
  ledger_ids_ok d → ledger_ids_ok d'.
Proof. unfold ledger_ids_ok. by intros -> ->. Qed.

Lemma ledger_ids_ok_row d d' row :
  database.usage_logs d' = (database.usage_logs d ++ [row])%list →
  database.usage_logs_seq d' = database.usage_logs_seq d + 1 →
  UsageLog.ID row = database.usage_logs_seq d + 1 →
  ledger_ids_ok d → ledger_ids_ok d'.
Proof.
  unfold ledger_ids_ok. intros -> -> Hid [Hnd Hle]. split.
  - rewrite fmap_app. apply NoDup_app. split_and!; [done | | ].
    + intros id (row' & -> & Hin)%list_elem_of_fmap Hrow.
      apply list_elem_of_singleton in Hrow.
      rewrite Forall_forall in Hle. specialize (Hle _ Hin). cbn in Hrow. lia.
    + apply NoDup_singleton.
  - apply Forall_app. split.
    + eapply Forall_impl; [exact Hle|]. intros row' Hr. cbn in Hr. lia.
    + constructor; [lia | constructor].
Qed.

Lemma chat_completions_ids h env r s :
  ledger_ids_ok (db s) → ledger_ids_ok (db (api.chat_completions h env r s).1).
Proof.
  intros Hok.
  destruct (chat_completions_footprint h env r s)
    as (s' & resp & Hrun & [(Hdb & _ & _) | [(client & _ & Hdb & _)
                                            | (client & Hauth & Hstep & _)]]);
    rewrite Hrun; cbn [fst].
  - by rewrite Hdb.
  - by rewrite Hdb.
  - destruct (IncrementRateLimitBucket_ledger (bucket_fails env) (db s)
                (Client.ID client) (middleware.Truncate_Minute (Now env)))
      as (Hc & Hl & Hs).
    destruct (ledger_step_rows _ _ _ _ _ Hc Hl Hs Hstep)
      as (_ & _ & [[Hl' Hs'] | (row & Hrows & Hseq & Hid & _)]).
    + by eapply ledger_ids_ok_same.
    + by eapply ledger_ids_ok_row.
Qed.
End LedgerIds.

(** X4: the ids of the usage ledger stay distinct, and at most the row
    counter, through any sequence of requests to /v1/chat/completions; so
    the id that a 200 response reports names one ledger row only. *)
Theorem X4_ledger_ids_stay_distinct :
  ∀ h reqs s,
    ledger_ids_ok (http.db s) →
    ledger_ids_ok (http.db (serve (api.chat_completions h) reqs s).1).
Proof.
  intros h reqs. induction reqs as [|[env r] reqs IH]; intros s Hok; [done|].
  cbn [serve].
  pose proof (chat_completions_ids h env r s Hok) as Hstep.
  destruct (api.chat_completions h env r s) as [s1 resp].
  specialize (IH s1 Hstep).
  by destruct (serve (api.chat_completions h) reqs s1) as [s2 resps].
Qed.

(** X4 on the four requests of the scenario, from an empty ledger *)
Lemma X4_ledger_ids_stay_distinct_witness :
  ledger_ids_ok (http.db (server_of scenario_client))
  ∧ ledger_ids_ok (http.db scenario_run.1).
Proof.
  assert (ledger_ids_ok (http.db (server_of scenario_client))) as Hok.
  { split; [apply NoDup_nil_2 | constructor]. }
  split; [exact Hok|].
  exact (X4_ledger_ids_stay_distinct scenario_handler scenario_requests
           (server_of scenario_client) Hok).
Defined.

(** ** The durable minute buckets *)
Section Buckets.
Import models http middleware.

Lemma GetRateLimitCount_increment d id w id' w' :
  usage.GetRateLimitCount false
    (database.IncrementRateLimitBucket false d id w).1 id' w'
  = match usage.GetRateLimitCount false d id' w' with
    | inl count => inl (if decide ((id', w') = (id, w)) then count + 1 else count)
    | inr e => inr e
    end.
Proof.
  unfold usage.GetRateLimitCount, database.IncrementRateLimitBucket.
  cbn [fst database.rate_limit_buckets].
  destruct (decide ((id', w') = (id, w))) as [[= -> ->] | Hne].
  - rewrite lookup_insert_eq.
    by destruct (database.rate_limit_buckets d !! (id, w)).
  - by rewrite lookup_insert_ne.
Qed.

Lemma Truncate_Minute_window t :
  Truncate_Minute t <= t < Truncate_Minute t + 60 * rate.Second
  ∧ Truncate_Minute t mod (60 * rate.Second) = 0.
Proof.
  unfold Truncate_Minute, rate.Second.
  pose proof (Z.mod_pos_bound t (60 * 1000000000) ltac:(lia)).
  split; [lia|].
  rewrite Zminus_mod, Z.mod_mod, Z.sub_diag by lia. done.
Qed.
End Buckets.

(** X5: RateLimit bumps the durable minute bucket exactly for the requests
    it lets through.  A request answered 429 leaves the store as it was;
    a request handed on reaches the next handler with the count of its
    client's bucket for the minute containing the request raised by one
    (a missing row counting 0), every other bucket unchanged, and clients
    and ledger untouched; when the upsert fails the request is handed on
    all the same, with the store unchanged. *)
Theorem X5_bucket_counts_the_admitted_requests :
  ∀ (B R : Type) (next : http.Handler B R) env r s client,
    http.Context r = Some client →
    let id := models.Client.ID client in
    let w := middleware.Truncate_Minute (http.Now env) in
    (w <= http.Now env < w + 60 * rate.Second ∧ w mod (60 * rate.Second) = 0)
    ∧ ((∃ lims, middleware.RateLimit next env r s
                = (http.mkServer (http.db s) lims (http.trace s), RateLimitExceeded))
       ∨ ∃ s1,
           middleware.RateLimit next env r s = next env r s1
           ∧ database.clients (http.db s1) = database.clients (http.db s)
           ∧ database.usage_logs (http.db s1) = database.usage_logs (http.db s)
           ∧ if http.bucket_fails env then http.db s1 = http.db s
             else ∀ id' w',
                 usage.GetRateLimitCount false (http.db s1) id' w'
                 = match usage.GetRateLimitCount false (http.db s) id' w' with
                   | inl count =>
                       inl (if decide ((id', w') = (id, w))
                            then count + 1 else count)
                   | inr e => inr e
                   end).
Proof.
  intros B R next env r s client Hctx id w.
  split; [apply Truncate_Minute_window|].
  destruct (RateLimit_cases next env r s client Hctx) as [lims [Hrl | Hrl]].
  - left. by exists lims.
  - right. eexists. split; [exact Hrl|]. cbn [http.db].
    destruct (IncrementRateLimitBucket_ledger (http.bucket_fails env) (http.db s)
                id w) as (Hc & Hl & _).
    split_and!; [done | done |].
    destruct (http.bucket_fails env) eqn:Hf; [done|].
    intros id' w'. apply GetRateLimitCount_increment.
Qed.

(** X5 at the first request of the scenario's client: the bucket of its
    minute goes from 0 to 1 *)
Lemma X5_bucket_counts_the_admitted_requests_witness :
  ∃ s1,
    middleware.RateLimit admit_all (env_at scenario_start)
      (http.mkRequest "" None (Some scenario_client)) (server_of scenario_client)
    = admit_all (env_at scenario_start)
        (http.mkRequest "" None (Some scenario_client)) s1
    ∧ usage.GetRateLimitCount false (http.db (server_of scenario_client)) 1
        (middleware.Truncate_Minute scenario_start) = inl 0
    ∧ usage.GetRateLimitCount false (http.db s1) 1
        (middleware.Truncate_Minute scenario_start) = inl 1.
Proof.
  destruct (X5_bucket_counts_the_admitted_requests unit unit admit_all
              (env_at scenario_start)
              (http.mkRequest "" None (Some scenario_client))
              (server_of scenario_client) scenario_client eq_refl)
    as [_ [[lims Hrej] | (s1 & Hrun & _ & _ & Hcount)]].
  - by vm_compute in Hrej.
  - exists s1. split; [exact Hrun|]. split; [reflexivity|].
    cbn [http.bucket_fails env_at] in Hcount. rewrite Hcount. by vm_compute.
Defined.

(** X6: CleanupOldRateLimitBuckets removes exactly the buckets whose window
    starts before the horizon: afterwards such a window counts 0 for every
    client, every window from the horizon on counts what it counted
    before, and clients and ledger are untouched; a failing cleanup leaves
    the store as it was. *)
Theorem X6_cleanup_drops_exactly_the_old_buckets :
  ∀ d before,
    (usage.CleanupOldRateLimitBuckets true d before).1 = d
    ∧ let d' := (usage.CleanupOldRateLimitBuckets false d before).1 in
      database.clients d' = database.clients d
      ∧ database.usage_logs d' = database.usage_logs d
      ∧ database.usage_logs_seq d' = database.usage_logs_seq d
      ∧ ∀ id w,
          usage.GetRateLimitCount false d' id w
          = if decide (w < before) then inl 0
            else usage.GetRateLimitCount false d id w.
Proof.
  intros d before. split; [done|]. cbv zeta.
  unfold usage.CleanupOldRateLimitBuckets, usage.GetRateLimitCount.
  cbn [fst database.clients database.usage_logs database.usage_logs_seq
       database.rate_limit_buckets].
  split_and!; try done. intros id w.
  destruct (decide (w < before)) as [Hold | Hnew].
  - rewrite map_lookup_filter_None_2; [done|]. right. intros x _. cbn. lia.
  - destruct (database.rate_limit_buckets d !! (id, w)) as [count|] eqn:Hrow.
    + by rewrite (map_lookup_filter_Some_2 _ _ _ _ Hrow Hnew).
    + rewrite map_lookup_filter_None_2; [done|]. by left.
Qed.
(** ** Bursts *)
Section Burst.
Import models http middleware handlers.

Variable N : Z.
Variable t0 : Z.
Hypothesis HN : 0 < N.

Let lim : Q := Qdiv (inject_Z N) 60.















End Burst.

Section BurstChain.
Import models http middleware handlers.

(** a request with the key of a client in good standing passes Authenticate *)
Lemma Authenticate_passes {B R} (next : Handler B R) env r s client :
  authenticated_as env r s client →
  Authenticate next env r s
  = next env (mkRequest (Authorization r) (Body r) (Some client))
         (mkServer (db s) (limiters s)
            (trace s ++ [LookupClient (Client.APIKeyHash client)])).
Proof.
  intros (key & Hhdr & Hshape & Hfail & (_ & Hhash & Hfind) & Hact & Hexp).
  unfold Authenticate. rewrite Hhdr, SplitN2_Bearer, append_cons.
  cbn [String.eqb Ascii.eqb Bool.eqb negb]. rewrite Hshape. cbn [negb].
  unfold database.GetClientByAPIKeyHash, emit. cbn [db limiters trace].
  rewrite Hfail, Hfind, Hact, Hhash. cbn [negb].
  destruct (Client.ExpiresAt client) as [t|]; [|done].
  by replace (t <? Now env) with false
    by (symmetry; apply Z.ltb_ge; by apply Hexp).
Qed.

End BurstChain.

Section BurstRun.
Import models http middleware handlers.





End BurstRun.



(** ** What reaches the command line *)
Section Dispatches.
Import models http middleware handlers.




End Dispatches.


(** ** The usage endpoints *)
Section UsagePages.
Import models http middleware.

Global Instance newer_total : Total database.newer.
Proof. intros a b. unfold database.newer. lia. Qed.

Global Instance newer_trans : Transitive database.newer.
Proof. intros a b c. unfold database.newer. lia. Qed.

Lemma limit_of_pos q : 0 < usage_handlers.limit_of q.
Proof.
  unfold usage_handlers.limit_of.
  destruct (usage_handlers.Atoi _) as [parsed|]; [|done].
  destruct (0 <? parsed) eqn:H; [by apply Z.ltb_lt | done].
Qed.

Lemma offset_of_nonneg q : 0 <= usage_handlers.offset_of q.
Proof.
  unfold usage_handlers.offset_of.
  destruct (usage_handlers.Atoi _) as [parsed|]; [|done].
  destruct (0 <=? parsed) eqn:H; [by apply Z.leb_le | done].
Qed.

(** what GetUsageLogs returns: a window of the client's rows in the time
    range, newest first *)
Lemma GetUsageLogs_window d id limit offset startTime endTime :
  ∃ all,
    all ≡ₚ filter (database.selected id startTime endTime) (database.usage_logs d)
    ∧ StronglySorted database.newer all
    ∧ database.GetUsageLogs false d id limit offset startTime endTime
      = inl (take (Z.to_nat limit) (drop (Z.to_nat offset) all)).
Proof.
  exists (database.newest_first
            (filter (database.selected id startTime endTime) (database.usage_logs d))).
  split_and!; [apply (merge_sort_Permutation database.newer) | | reflexivity].
  apply (StronglySorted_merge_sort database.newer).
Qed.

Lemma window_rows (all : list UsageLog.t) n k rows P :
  rows = take n (drop k all) →
  Forall P all →
  StronglySorted database.newer all →
  (length rows <= n)%nat ∧ Forall P rows ∧ StronglySorted database.newer rows.
Proof.
  intros -> Hall Hsorted. split_and!.
  - rewrite length_take. lia.
  - by apply Forall_take, Forall_drop.
  - rewrite <- (take_drop k all) in Hsorted.
    apply StronglySorted_app_1_r in Hsorted.
    rewrite <- (take_drop n (drop k all)) in Hsorted.
    by apply StronglySorted_app_1_l in Hsorted.
Qed.
End UsagePages.

(** X9: /v1/usage is read-only and shows a client its own rows only.  The
    store and the limiters are never changed.  An answer with a body is a
    200 to a request authenticated as a client in good standing; it
    reports a limit > 0 (100 unless the parameter is a positive integer)
    and an offset >= 0, and its rows are the window [offset, offset +
    limit) of a newest-first ordering of exactly the usage-log rows of that
    client inside the requested time range: at most limit rows, each a row
    of the log that belongs to the client. *)
Theorem X9_usage_page_holds_own_rows_only :
  ∀ parse fail env r s,
    let out := usage_handlers.usage_route parse fail env r s in
    http.db out.1 = http.db s ∧ http.limiters out.1 = http.limiters s
    ∧ match http.Payload out.2 with
      | inl _ => http.Status out.2 = 401 ∨ http.Status out.2 = 403
                 ∨ http.Status out.2 = 500
      | inr page =>
          http.Status out.2 = 200
          ∧ 0 < usage_handlers.page_limit page
          ∧ 0 <= usage_handlers.page_offset page
          ∧ ∃ client all,
              authenticated_as env r s client
              ∧ all ≡ₚ filter (database.selected (models.Client.ID client)
                                 (usage_handlers.time_of parse
                                    (usage_handlers.start_time
                                       (usage_handlers.query_of r)))
                                 (usage_handlers.time_of parse
                                    (usage_handlers.end_time
                                       (usage_handlers.query_of r))))
                              (database.usage_logs (http.db s))
              ∧ StronglySorted database.newer all
              ∧ usage_handlers.logs page
                = take (Z.to_nat (usage_handlers.page_limit page))
                       (drop (Z.to_nat (usage_handlers.page_offset page)) all)
              ∧ (length (usage_handlers.logs page)
                 <= Z.to_nat (usage_handlers.page_limit page))%nat
              ∧ Forall (λ row, In row (database.usage_logs (http.db s))
                               ∧ models.UsageLog.ClientID row
                                 = models.Client.ID client)
                       (usage_handlers.logs page)
              ∧ StronglySorted database.newer (usage_handlers.logs page)
      end.
Proof.
  intros parse fail env r s out. subst out.
  unfold usage_handlers.usage_route, api.applyMiddleware. cbn [fold_right].
  destruct (Authenticate_outcome (usage_handlers.HandleGetUsage parse fail) env r s)
    as [(status & msg & -> & Hstatus) | (client & Hauth & ->)].
  { cbn. by split_and!. }
  unfold usage_handlers.HandleGetUsage.
  cbn [http.Context http.db http.limiters].
  match goal with |- context [usage_handlers.query_of ?r1] =>
    change (usage_handlers.query_of r1) with (usage_handlers.query_of r)
  end.
  set (q := usage_handlers.query_of r).
  destruct fail.
  { cbn. split_and!; [done | done | by right; right]. }
  destruct (GetUsageLogs_window (http.db s) (models.Client.ID client)
              (usage_handlers.limit_of q) (usage_handlers.offset_of q)
              (usage_handlers.time_of parse (usage_handlers.start_time q))
              (usage_handlers.time_of parse (usage_handlers.end_time q)))
    as (all & Hperm & Hsorted & ->).
  cbn [fst snd http.db http.limiters http.Payload http.Status
       usage_handlers.logs usage_handlers.page_limit usage_handlers.page_offset].
  split_and!; [done | done | done | apply limit_of_pos | apply offset_of_nonneg |].
  exists client, all.
  assert (Forall (λ row, In row (database.usage_logs (http.db s))
                         ∧ models.UsageLog.ClientID row = models.Client.ID client)
                 all) as Hown.
  { apply Forall_forall. intros row Hin.
    rewrite Hperm in Hin.
    apply list_elem_of_filter in Hin as [(Hid & _) Hrow].
    split; [by apply list_elem_of_In | done]. }
  destruct (window_rows all (Z.to_nat (usage_handlers.limit_of q))
              (Z.to_nat (usage_handlers.offset_of q)) _ _ eq_refl Hown Hsorted)
    as (Hlen & Hrows & Hs).
  by split_and!.
Qed.

(** ** Whose usage a request changes *)
Section OwnUsage.
Import models http middleware.


Lemma usage_queries_rows d d' id st et :
  filter (database.selected id st et) (database.usage_logs d')
  = filter (database.selected id st et) (database.usage_logs d) →
  (∀ f1 f2 f3, database.GetUsageStats f1 f2 f3 d' id st et
               = database.GetUsageStats f1 f2 f3 d id st et)
  ∧ (∀ f limit offset, database.GetUsageLogs f d' id limit offset st et
                       = database.GetUsageLogs f d id limit offset st et).
Proof.
  intros Heq. unfold database.GetUsageStats, database.GetUsageLogs.
  by rewrite Heq.
Qed.

End OwnUsage.



(** ** Removing a client *)
Section Removal.
Import models http middleware.

Lemma NoDup_fmap_eq {A B} (f : A → B) (l : list A) x y :
  NoDup (f <$> l) → x ∈ l → y ∈ l → f x = f y → x = y.
Proof.
  induction l as [|a l IH]; intros Hnd Hx Hy Hf; [by apply elem_of_nil in Hx|].
  rewrite fmap_cons in Hnd. apply NoDup_cons in Hnd as [Ha Hnd].
  apply elem_of_cons in Hx as [-> | Hx]; apply elem_of_cons in Hy as [-> | Hy].
  - done.
  - exfalso. apply Ha. rewrite Hf. by apply list_elem_of_fmap_2.
  - exfalso. apply Ha. rewrite <- Hf. by apply list_elem_of_fmap_2.
  - by apply IH.
Qed.

(** a well-formed key whose fingerprint no client carries is answered 401
    after the one lookup *)
Lemma Authenticate_unknown_key {B R} (next : Handler B R) env key body s :
  auth.ValidateAPIKeyFormat key = true →
  lookup_fails env = false →
  List.find (λ c, String.eqb (Client.APIKeyHash c) (auth.HashAPIKey key))
            (database.clients (db s)) = None →
  Authenticate next env (bearer key body) s
  = (emit (LookupClient (auth.HashAPIKey key)) s,
     respondError StatusUnauthorized "invalid API key").
Proof.
  intros Hshape Hfail Hfind. unfold Authenticate, bearer.
  cbn [Authorization]. rewrite SplitN2_Bearer, append_cons.
  cbn [String.eqb Ascii.eqb Bool.eqb negb]. rewrite Hshape. cbn [negb].
  unfold database.GetClientByAPIKeyHash. cbn [emit db].
  by rewrite Hfail, Hfind.
Qed.

Lemma filter_not_id_In (id : Z) (l : list Client.t) c :
  In c (List.filter (λ c, negb (Client.ID c =? id)) l)
  ↔ In c l ∧ Client.ID c ≠ id.
Proof.
  rewrite filter_In, negb_true_iff, Z.eqb_neq. tauto.
Qed.

Lemma filter_selected_gone id st et (rows : list UsageLog.t) :
  filter (database.selected id st et)
         (List.filter (λ l, negb (UsageLog.ClientID l =? id)) rows) = [].
Proof.
  induction rows as [|row rows IH]; [done|]. cbn [List.filter].
  destruct (UsageLog.ClientID row =? id) eqn:Hid; cbn [negb]; [done|].
  apply Z.eqb_neq in Hid. rewrite filter_cons_False; [done|]. by intros [? _].
Qed.

Lemma filter_selected_kept id other st et (rows : list UsageLog.t) :
  other ≠ id →
  filter (database.selected other st et)
         (List.filter (λ l, negb (UsageLog.ClientID l =? id)) rows)
  = filter (database.selected other st et) rows.
Proof.
  intros Hne. induction rows as [|row rows IH]; [done|]. cbn [List.filter].
  destruct (UsageLog.ClientID row =? id) eqn:Hid; cbn [negb].
  - apply Z.eqb_eq in Hid. rewrite IH, (filter_cons_False _ row); [done|].
    intros [? _]. congruence.
  - destruct (decide (database.selected other st et row)) as [Hs | Hs].
    + by rewrite !filter_cons_True, IH.
    + by rewrite !filter_cons_False, IH.
Qed.

(** the tables after DeleteClientJSON *)
Lemma DeleteClientJSON_tables fail_logs fail_client cascade d id :
  let out := management.DeleteClientJSON fail_logs fail_client cascade d id in
  (out.2 = false → database.clients out.1 = database.clients d)
  ∧ (out.2 = true →
     database.clients out.1
     = List.filter (λ c, negb (Client.ID c =? id)) (database.clients d)
     ∧ ∀ other st et,
         filter (database.selected other st et) (database.usage_logs out.1)
         = if decide (other = id) then []
           else filter (database.selected other st et) (database.usage_logs d)).
Proof.
  unfold management.DeleteClientJSON, usage.DeleteUsageLogsByClient,
    clients.DeleteClient.
  destruct fail_logs as [err|]; [by split|].
  destruct fail_client; [by split|].
  cbn [fst snd database.clients database.usage_logs].
  split; [done|]. intros _. split; [done|]. intros other st et.
  destruct cascade, (decide (other = id)) as [-> | Hne];
    rewrite ?filter_selected_gone; try done.
  - by rewrite !filter_selected_kept.
  - by rewrite filter_selected_kept.
Qed.
End Removal.

(** X11: DeleteClientJSON locks the client out and drops its usage, and
    touches no other client.  When it reports success, the clients table
    holds the rows it held but for those with the given id; the usage
    queries for that id find no row and answer for every other id what
    they answered before; and, the fingerprints in the table being
    distinct, a request with the key of the removed client is answered
    401 by Authenticate after the one lookup.  When it reports failure
    the clients table is as it was (the usage rows may be gone
    already). *)
Theorem X11_removed_client_is_locked_out :
  ∀ fail_logs fail_client cascade d id,
    hashes_unique d →
    let out := management.DeleteClientJSON fail_logs fail_client cascade d id in
    (out.2 = false → database.clients out.1 = database.clients d)
    ∧ (out.2 = true →
       (∀ c, In c (database.clients out.1)
             ↔ In c (database.clients d) ∧ models.Client.ID c ≠ id)
       ∧ (∀ limit offset startTime endTime,
            database.GetUsageLogs false out.1 id limit offset startTime endTime
            = inl [])
       ∧ (∀ other startTime endTime,
            other ≠ id →
            (∀ fail1 fail2 fail3,
               database.GetUsageStats fail1 fail2 fail3 out.1 other
                                      startTime endTime
               = database.GetUsageStats fail1 fail2 fail3 d other
                                        startTime endTime)
            ∧ (∀ fail limit offset,
                 database.GetUsageLogs fail out.1 other limit offset
                                       startTime endTime
                 = database.GetUsageLogs fail d other limit offset
                                         startTime endTime))
       ∧ ∀ (B R : Type) (next : http.Handler B R) env key body lims tr c,
           In c (database.clients d) → models.Client.ID c = id →
           models.Client.APIKeyHash c = auth.HashAPIKey key →
           auth.ValidateAPIKeyFormat key = true →
           http.lookup_fails env = false →
           middleware.Authenticate next env (bearer key body)
                                   (http.mkServer out.1 lims tr)
           = (http.mkServer out.1 lims
                (tr ++ [http.LookupClient (auth.HashAPIKey key)]),
              http.respondError http.StatusUnauthorized "invalid API key")).
Proof.
  intros fail_logs fail_client cascade d id Huniq out.
  destruct (DeleteClientJSON_tables fail_logs fail_client cascade d id)
    as [Hfail Hok]. fold out in Hfail, Hok.
  split; [exact Hfail|]. intros Hout. destruct (Hok Hout) as [Hclients Hrows].
  split_and!.
  - intros c. rewrite Hclients. apply filter_not_id_In.
  - intros limit offset startTime endTime. unfold database.GetUsageLogs.
    rewrite Hrows, decide_True by done. unfold database.newest_first.
    by rewrite skipn_nil, firstn_nil.
  - intros other startTime endTime Hne. apply usage_queries_rows.
    by rewrite Hrows, decide_False.
  - intros B R next env key body lims tr c Hin Hid Hhash Hshape Hlookup.
    rewrite Authenticate_unknown_key; [done | done | done |].
    cbn [http.db]. rewrite Hclients.
    destruct (List.find _ _) as [c'|] eqn:Hfind; [|done]. exfalso.
    apply find_some in Hfind as [Hin' Heq].
    apply filter_not_id_In in Hin' as [Hin' Hid'].
    apply String.eqb_eq in Heq. apply Hid'. rewrite <- Hid. f_equal.
    apply (NoDup_fmap_eq models.Client.APIKeyHash (database.clients d));
      [exact Huniq | by apply list_elem_of_In | by apply list_elem_of_In
       | congruence].
Qed.

(** X11 on the scenario's client: once removed, its key is answered 401 *)
Lemma X11_removed_client_is_locked_out_witness :
  let d := http.db (server_of scenario_client) in
  let out := management.DeleteClientJSON None false true d 1 in
  hashes_unique d ∧ out.2 = true
  ∧ middleware.Authenticate admit_all (env_at 0) (bearer scenario_key None)
                            (http.mkServer out.1 ∅ [])
    = (http.mkServer out.1 ∅
         [http.LookupClient (auth.HashAPIKey scenario_key)],
       http.respondError http.StatusUnauthorized "invalid API key").
Proof.
  assert (hashes_unique (http.db (server_of scenario_client))) as Huniq.
  { unfold hashes_unique. cbn. apply NoDup_singleton. }
  split; [exact Huniq|]. split; [reflexivity|].
  destruct (X11_removed_client_is_locked_out None false true
              (http.db (server_of scenario_client)) 1 Huniq) as [_ Hok].
  destruct (Hok eq_refl) as (_ & _ & _ & Hauth).
  apply (Hauth unit unit admit_all (env_at 0) scenario_key None ∅ []
           scenario_client); [by left | done | done | by vm_compute | done].
Defined.

(** ** Adding a client *)
Section Creation.
Import models http middleware.

Lemma hash_taken_spec d keyHash :
  clients.hash_taken d keyHash = true
  ↔ keyHash ∈ Client.APIKeyHash <$> database.clients d.
Proof.
  unfold clients.hash_taken. rewrite existsb_exists, list_elem_of_fmap. split.
  - intros (c & Hin & Heq). apply String.eqb_eq in Heq.
    exists c. split; [done | by apply list_elem_of_In].
  - intros (c & -> & Hin). exists c. split; [by apply list_elem_of_In|].
    apply String.eqb_refl.
Qed.

Lemma find_hash_free d keyHash :
  clients.hash_taken d keyHash = false →
  List.find (λ c, String.eqb (Client.APIKeyHash c) keyHash) (database.clients d)
  = None.
Proof.
  intros Hfree. destruct (List.find _ _) as [c|] eqn:Hfind; [|done].
  apply find_some in Hfind as [Hin Heq].
  assert (clients.hash_taken d keyHash = true) as Htaken by
    (unfold clients.hash_taken; apply existsb_exists; by exists c).
  congruence.
Qed.

Lemma find_app_l {A} (f : A → bool) (l1 l2 : list A) x :
  List.find f l1 = Some x → List.find f (l1 ++ l2)%list = Some x.
Proof.
  induction l1 as [|a l1 IH]; [done|]. cbn. by destruct (f a).
Qed.

Lemma find_app_r {A} (f : A → bool) (l1 l2 : list A) :
  List.find f l1 = None → List.find f (l1 ++ l2)%list = List.find f l2.
Proof.
  induction l1 as [|a l1 IH]; [done|]. cbn. by destruct (f a).
Qed.
End Creation.

(** X12: CreateClient and the lookups.  A client whose fingerprint is in
    the table already is refused and the store stays as it was.
    Otherwise the struct gets the new row id, the table keeps its rows
    and gains one, the fingerprints stay distinct if they were, the
    lookup by the new fingerprint finds the new row, every other
    fingerprint finds what it found before, the lookup by the new id
    finds the new row when no older row has that id, and a request with
    a well-formed key of that fingerprint is handed on by Authenticate,
    with the new row in its context, if the client is active and not
    expired. *)
Theorem X12_created_client_is_found_by_its_key :
  ∀ rowid stamp now d client,
    let out := clients.CreateClient false rowid stamp now d client in
    let row := clients.with_ID_times rowid stamp stamp client in
    if clients.hash_taken d (models.Client.APIKeyHash client)
    then out.1.1 = d ∧ out.2 = Some "failed to insert client"
    else
      out.2 = None ∧ models.Client.ID out.1.2 = rowid
      ∧ database.clients out.1.1 = (database.clients d ++ [row])%list
      ∧ database.usage_logs out.1.1 = database.usage_logs d
      ∧ database.rate_limit_buckets out.1.1 = database.rate_limit_buckets d
      ∧ (hashes_unique d → hashes_unique out.1.1)
      ∧ clients.hash_taken out.1.1 (models.Client.APIKeyHash client) = true
      ∧ (∀ keyHash,
           database.GetClientByAPIKeyHash false out.1.1 keyHash
           = if decide (keyHash = models.Client.APIKeyHash client)
             then inl (Some row)
             else database.GetClientByAPIKeyHash false d keyHash)
      ∧ ((∀ c, In c (database.clients d) → models.Client.ID c ≠ rowid) →
         clients.GetClientByID false out.1.1 rowid = inl (Some row))
      ∧ ∀ (B R : Type) (next : http.Handler B R) env key body lims tr,
          models.Client.APIKeyHash client = auth.HashAPIKey key →
          auth.ValidateAPIKeyFormat key = true →
          http.lookup_fails env = false →
          in_good_standing env client →
          middleware.Authenticate next env (bearer key body)
                                  (http.mkServer out.1.1 lims tr)
          = next env (http.mkRequest ("Bearer " +:+ key) body (Some row))
                 (http.mkServer out.1.1 lims
                    (tr ++ [http.LookupClient (auth.HashAPIKey key)])).
Proof.
  intros rowid stamp now d client out row. subst out.
  unfold clients.CreateClient. cbn [orb].
  destruct (clients.hash_taken d (models.Client.APIKeyHash client)) eqn:Hfree;
    [done|].
  cbn [fst snd database.clients database.usage_logs database.rate_limit_buckets].
  pose proof (find_hash_free d _ Hfree) as Hnone.
  assert (∀ keyHash,
            List.find (λ c, String.eqb (models.Client.APIKeyHash c) keyHash)
                      (database.clients d ++ [row])%list
            = if decide (keyHash = models.Client.APIKeyHash client)
              then Some row
              else List.find (λ c, String.eqb (models.Client.APIKeyHash c) keyHash)
                             (database.clients d)) as Hfind.
  { intros keyHash. destruct (decide _) as [-> | Hne].
    - rewrite find_app_r by done. cbn. by rewrite String.eqb_refl.
    - destruct (List.find (λ c, String.eqb (models.Client.APIKeyHash c) keyHash)
                          (database.clients d)) as [c|] eqn:Hc.
      + by apply find_app_l.
      + rewrite find_app_r by done. cbn.
        by replace (String.eqb (models.Client.APIKeyHash client) keyHash)
          with false by (symmetry; apply String.eqb_neq; congruence). }
  split_and!; try done.
  - unfold hashes_unique. cbn [database.clients]. intros Huniq.
    rewrite fmap_app. apply NoDup_app.
    split; [done|]. split; [|apply NoDup_singleton].
    intros h Hin Hnew. apply list_elem_of_singleton in Hnew. cbn in Hnew. subst h.
    apply hash_taken_spec in Hin. congruence.
  - unfold clients.hash_taken. cbn [database.clients].
    rewrite existsb_app. cbn. by rewrite String.eqb_refl, orb_true_r.
  - intros keyHash. unfold database.GetClientByAPIKeyHash.
    cbn [database.clients]. rewrite Hfind. by destruct (decide _).
  - intros Hfresh. unfold clients.GetClientByID. cbn [database.clients].
    rewrite find_app_r; [cbn; by rewrite Z.eqb_refl|].
    destruct (List.find (λ c, models.Client.ID c =? rowid) (database.clients d))
      as [c|] eqn:Hc; [|done]. exfalso.
    apply find_some in Hc as [Hin Heq]. apply Z.eqb_eq in Heq.
    by apply (Hfresh c).
  - intros B R next env key body lims tr Hhash Hshape Hlookup Hgood.
    assert (authenticated_as env (bearer key body)
              (http.mkServer
                 (database.mkDB (database.clients d ++ [row])%list
                    (database.usage_logs d) (database.usage_logs_seq d)
                    (database.rate_limit_buckets d)) lims tr) row) as Hauth.
    { exists key. split; [done|]. split; [done|]. split; [done|].
      split; [|exact Hgood]. split; [|split; [exact Hhash|]].
      - apply in_app_iff. right. by left.
      - cbn [http.db database.clients]. rewrite Hfind, <- Hhash.
        by rewrite decide_True. }
    rewrite (Authenticate_passes _ _ _ _ _ Hauth).
    cbn [http.db http.limiters http.trace bearer http.Authorization http.Body].
    change (models.Client.APIKeyHash row) with (models.Client.APIKeyHash client).
    by rewrite Hhash.
Qed.

(** ** Updating a client *)
Section Update.
Import models http middleware.

Lemma find_fmap_same {A} (f : A → bool) (g : A → A) (l : list A) :
  (∀ x, f (g x) = f x) →
  List.find f (g <$> l) = g <$> List.find f l.
Proof.
  intros Hfg. induction l as [|a l IH]; [done|].
  cbn. rewrite Hfg. by destruct (f a).
Qed.

Lemma update_of_hash now client row :
  Client.APIKeyHash (update_of now client row) = Client.APIKeyHash row.
Proof. unfold update_of. by destruct (_ =? _). Qed.

Lemma update_of_id now client row :
  Client.ID (update_of now client row) = Client.ID row.
Proof. unfold update_of. by destruct (_ =? _). Qed.

Lemma update_of_created now client row :
  Client.CreatedAt (update_of now client row) = Client.CreatedAt row.
Proof. unfold update_of. by destruct (_ =? _). Qed.

Lemma UpdateClient_clients now d client :
  database.clients (clients.UpdateClient false now d client).1
  = update_of now client <$> database.clients d.
Proof. done. Qed.

(** Authenticate on a well-formed key, once the lookup has found [row] *)
Lemma Authenticate_found {B R} (next : Handler B R) env key body s row :
  auth.ValidateAPIKeyFormat key = true →
  lookup_fails env = false →
  List.find (λ c, String.eqb (Client.APIKeyHash c) (auth.HashAPIKey key))
            (database.clients (db s)) = Some row →
  Authenticate next env (bearer key body) s
  = let s1 := emit (LookupClient (auth.HashAPIKey key)) s in
    if negb (Client.IsActive row) then
      (s1, respondError StatusForbidden "API key is inactive")
    else if expired env row then
      (s1, respondError StatusForbidden "API key has expired")
    else next env (mkRequest ("Bearer " +:+ key) body (Some row)) s1.
Proof.
  intros Hshape Hfail Hfind. unfold Authenticate, bearer, expired.
  cbn [Authorization Body]. rewrite SplitN2_Bearer, append_cons.
  cbn [String.eqb Ascii.eqb Bool.eqb negb]. rewrite Hshape. cbn [negb].
  unfold database.GetClientByAPIKeyHash. cbn [emit db].
  by rewrite Hfail, Hfind.
Qed.
End Update.

(** X13: UpdateClient changes the settings of the rows with the given id
    and nothing else: ids, fingerprints and creation times of all rows,
    the usage log and the buckets stay as they were, and an id that no
    row carries gives success with the store unchanged.  A key therefore
    keeps finding its row, now with the new settings: after the update a
    request with the key of an updated row is answered 403 if the new
    settings are inactive or expired, and is handed on with the updated
    row in its context otherwise. *)
Theorem X13_update_keeps_keys_and_applies_new_standing :
  ∀ now d client,
    let out := clients.UpdateClient false now d client in
    out.2 = None
    ∧ models.Client.ID <$> database.clients out.1
      = models.Client.ID <$> database.clients d
    ∧ models.Client.APIKeyHash <$> database.clients out.1
      = models.Client.APIKeyHash <$> database.clients d
    ∧ models.Client.CreatedAt <$> database.clients out.1
      = models.Client.CreatedAt <$> database.clients d
    ∧ database.usage_logs out.1 = database.usage_logs d
    ∧ database.usage_logs_seq out.1 = database.usage_logs_seq d
    ∧ database.rate_limit_buckets out.1 = database.rate_limit_buckets d
    ∧ (∀ row, In row (database.clients d) →
              models.Client.ID row ≠ models.Client.ID client →
              In row (database.clients out.1))
    ∧ ((∀ row, In row (database.clients d)
               → models.Client.ID row ≠ models.Client.ID client) →
       out.1 = d)
    ∧ (∀ keyHash,
         database.GetClientByAPIKeyHash false out.1 keyHash
         = match database.GetClientByAPIKeyHash false d keyHash with
           | inl found => inl (update_of now client <$> found)
           | inr err => inr err
           end)
    ∧ ∀ (B R : Type) (next : http.Handler B R) env key body lims tr row,
        auth.ValidateAPIKeyFormat key = true →
        http.lookup_fails env = false →
        database.GetClientByAPIKeyHash false d (auth.HashAPIKey key)
        = inl (Some row) →
        models.Client.ID row = models.Client.ID client →
        middleware.Authenticate next env (bearer key body)
                                (http.mkServer out.1 lims tr)
        = let s1 := http.mkServer out.1 lims
                      (tr ++ [http.LookupClient (auth.HashAPIKey key)]) in
          if negb (models.Client.IsActive client) then
            (s1, http.respondError http.StatusForbidden "API key is inactive")
          else if expired env client then
            (s1, http.respondError http.StatusForbidden "API key has expired")
          else
            next env (http.mkRequest ("Bearer " +:+ key) body
                        (Some (clients.updated_row now client row))) s1.
Proof.
  intros now d client out.
  assert (∀ keyHash,
            List.find (λ c, String.eqb (models.Client.APIKeyHash c) keyHash)
                      (database.clients out.1)
            = update_of now client
                <$> List.find (λ c, String.eqb (models.Client.APIKeyHash c) keyHash)
                              (database.clients d)) as Hfind.
  { intros keyHash. subst out. rewrite UpdateClient_clients.
    apply find_fmap_same. intros row. by rewrite update_of_hash. }
  split; [done|]. subst out. rewrite !UpdateClient_clients.
  rewrite <- !list_fmap_compose.
  split_and!.
  - apply list_fmap_ext. intros i row _. apply update_of_id.
  - apply list_fmap_ext. intros i row _. apply update_of_hash.
  - apply list_fmap_ext. intros i row _. apply update_of_created.
  - done.
  - done.
  - done.
  - intros row Hin Hne. apply in_map_iff. exists row. split; [|done].
    unfold update_of. by replace (_ =? _) with false
      by (symmetry; by apply Z.eqb_neq).
  - intros Hnone. unfold clients.UpdateClient. cbn [fst].
    assert (map (λ row, if models.Client.ID row =? models.Client.ID client
                        then clients.updated_row now client row else row)
                (database.clients d) = database.clients d) as ->.
    { rewrite <- (map_id (database.clients d)) at 2.
      apply map_ext_in. intros row Hin.
      by replace (_ =? _) with false
        by (symmetry; apply Z.eqb_neq; by apply Hnone). }
    apply db_eta.
  - intros keyHash. unfold database.GetClientByAPIKeyHash.
    by rewrite Hfind.
  - intros B R next env key body lims tr row Hshape Hlookup Hrow Hid.
    unfold database.GetClientByAPIKeyHash in Hrow. injection Hrow as Hrow.
    rewrite (Authenticate_found next env key body _
               (update_of now client row) Hshape Hlookup)
      by (cbn [http.db]; by rewrite Hfind, Hrow).
    unfold update_of. rewrite Hid, Z.eqb_refl. done.
Qed.

(** X13 on the scenario's client, switched off: its key is answered 403 *)
Lemma X13_update_keeps_keys_and_applies_new_standing_witness :
  let d := http.db (server_of scenario_client) in
  let off := models.Client.mk 1 "acme" "" "copilot" (json.js "['m1']") "" 2 0 0
                              None false "" in
  middleware.Authenticate admit_all (env_at 0) (bearer scenario_key None)
    (http.mkServer (clients.UpdateClient false 5 d off).1 ∅ [])
  = (http.mkServer (clients.UpdateClient false 5 d off).1 ∅
       [http.LookupClient (auth.HashAPIKey scenario_key)],
     http.respondError http.StatusForbidden "API key is inactive").
Proof.
  intros d off.
  destruct (X13_update_keeps_keys_and_applies_new_standing 5 d off)
    as (_ & _ & _ & _ & _ & _ & _ & _ & _ & _ & Hauth).
  rewrite (Hauth unit unit admit_all (env_at 0) scenario_key None ∅ []
             scenario_client); [done | by vm_compute | done | | done].
  unfold database.GetClientByAPIKeyHash. cbn [List.find d http.db server_of
    database.clients]. unfold scenario_client at 1.
  cbn [models.Client.APIKeyHash]. by rewrite String.eqb_refl.
Defined.

(** ** A limiter, once made, stays *)
Section StaleLimiter.
Import models http middleware handlers.

(** with a limiter in the map, RateLimit consults it and nothing else *)
Lemma RateLimit_existing {B R} (next : Handler B R) env r s client l :
  Context r = Some client →
  limiters s !! Client.ID client = Some l →
  RateLimit next env r s
  = if (rate.Allow l (Now env)).1
    then next env r
           (mkServer
              (database.IncrementRateLimitBucket (bucket_fails env) (db s)
                 (Client.ID client) (Truncate_Minute (Now env))).1
              (<[Client.ID client := (rate.Allow l (Now env)).2]> (limiters s))
              (trace s ++ [IncrementBucket (Client.ID client)
                                           (Truncate_Minute (Now env))]))
    else (mkServer (db s)
            (<[Client.ID client := (rate.Allow l (Now env)).2]> (limiters s))
            (trace s),
          RateLimitExceeded).
Proof.
  intros Hctx Hl. unfold RateLimit, getLimiter. rewrite Hctx, Hl.
  destruct (rate.Allow l (Now env)) as [[|] l']; cbn [negb fst snd]; [|done].
  cbn [emit db limiters trace].
  by destruct (database.IncrementRateLimitBucket _ _ _ _).
Qed.

(** the answer of HandleChatCompletion depends on the client through its
    id, provider, allow-list and default model, and on the store through
    the ledger counter *)
Lemma HandleChatCompletion_reads h env auth auth' body c c' s s' :
  Client.ID c = Client.ID c' → Client.Provider c = Client.Provider c' →
  Client.AllowedModels c = Client.AllowedModels c' →
  Client.DefaultModel c = Client.DefaultModel c' →
  database.usage_logs_seq (db s) = database.usage_logs_seq (db s') →
  limiters s = limiters s' →
  (HandleChatCompletion h env (mkRequest auth body (Some c)) s).2
  = (HandleChatCompletion h env (mkRequest auth' body (Some c')) s').2
  ∧ limiters (HandleChatCompletion h env (mkRequest auth body (Some c)) s).1
    = limiters (HandleChatCompletion h env (mkRequest auth' body (Some c')) s').1.
Proof.
  intros Hid Hprov Hallowed Hdefault Hseq Hlims.
  unfold HandleChatCompletion, resolve_model, database.IsModelAllowed,
    database.CreateUsageLog.
  cbn [Context Body]. rewrite Hid, Hprov, Hallowed, Hdefault.
  destruct body as [req|]; [|done].
  destruct (negb (String.eqb (ChatCompletionRequest.Model req) "")).
  all: repeat first
    [ done
    | match goal with
      | |- context [if String.eqb ?a ?b then _ else _] =>
          destruct (String.eqb a b)
      | |- context [if negb ?b then _ else _] => destruct b; cbn [negb]
      | |- context [providers ?hh !! ?p] => destruct (providers hh !! p)
      | |- context [json.Unmarshal ?x] => destruct (json.Unmarshal x)
      | |- context [if ?b && ?b' then _ else _] => destruct b, b'; cbn [andb]
      | |- context [agents.Execute ?p ?o ?q] => destruct (agents.Execute p o q)
      | |- context [if insert_fails ?e then _ else _] =>
          destruct (insert_fails e)
      end
    | progress cbn [emit db limiters trace fst snd negb] ].
  all: try (rewrite Hseq, Hlims; done).
Qed.
End StaleLimiter.

(** X14: a change of a client's rate limit does not reach a limiter that
    exists.  If the process holds a limiter for a client, then after
    UpdateClient has stored another per-minute limit for it (all other
    settings as they were) a request with the client's key gets the answer
    it would have got without the change, and leaves the limiters as it
    would have left them: the limiter made at the client's first request
    keeps the limit of that time. *)
Theorem X14_rate_limit_change_does_not_reach_existing_limiter :
  ∀ h env r s client l limit now,
    authenticated_as env r s client →
    http.limiters s !! models.Client.ID client = Some l →
    let stored := (clients.UpdateClient false now (http.db s)
                     (with_limit limit client)).1 in
    let s' := http.mkServer stored (http.limiters s) (http.trace s) in
    In (clients.updated_row now (with_limit limit client) client)
       (database.clients stored)
    ∧ (api.chat_completions h env r s').2 = (api.chat_completions h env r s).2
    ∧ http.limiters (api.chat_completions h env r s').1
      = http.limiters (api.chat_completions h env r s).1.
Proof.
  intros h env r s client l limit now Hauth Hl stored s'.
  set (client' := clients.updated_row now (with_limit limit client) client).
  assert (update_of now (with_limit limit client) client = client') as Hupd.
  { unfold update_of. cbn [with_limit models.Client.ID]. by rewrite Z.eqb_refl. }
  assert (authenticated_as env r s' client') as Hauth'.
  { destruct Hauth as (key & Hhdr & Hshape & Hfail & (Hin & Hhash & Hfind) & Hact & Hexp).
    exists key. split; [done|]. split; [done|]. split; [done|]. split.
    - split; [|split; [exact Hhash|]].
      + subst s' stored. cbn [http.db]. rewrite UpdateClient_clients.
        apply in_map_iff. exists client. by split.
      + subst s' stored. cbn [http.db]. rewrite UpdateClient_clients.
        rewrite find_fmap_same by (intros row; by rewrite update_of_hash).
        by rewrite Hfind, <- Hupd.
    - split; [exact Hact | exact Hexp]. }
  split.
  { destruct Hauth' as (key & _ & _ & _ & (Hin & _) & _). exact Hin. }
  unfold api.chat_completions, api.applyMiddleware. cbn [fold_right].
  rewrite (Authenticate_passes _ _ _ _ _ Hauth),
    (Authenticate_passes _ _ _ _ _ Hauth').
  rewrite (RateLimit_existing (handlers.HandleChatCompletion h) env
             (http.mkRequest (http.Authorization r) (http.Body r) (Some client))
             (http.mkServer (http.db s) (http.limiters s)
                (http.trace s
                 ++ [http.LookupClient (models.Client.APIKeyHash client)]))
             client l eq_refl Hl).
  rewrite (RateLimit_existing (handlers.HandleChatCompletion h) env
             (http.mkRequest (http.Authorization r) (http.Body r) (Some client'))
             (http.mkServer (http.db s') (http.limiters s')
                (http.trace s'
                 ++ [http.LookupClient (models.Client.APIKeyHash client')]))
             client' l eq_refl Hl).
  change (models.Client.ID client') with (models.Client.ID client).
  destruct (rate.Allow l (http.Now env)) as [[|] l1]; cbn [fst snd]; [|done].
  apply HandleChatCompletion_reads; try done.
  subst s'. cbn [http.db].
  destruct (IncrementRateLimitBucket_ledger (http.bucket_fails env) stored
              (models.Client.ID client)
              (middleware.Truncate_Minute (http.Now env))) as (_ & _ & ->).
  destruct (IncrementRateLimitBucket_ledger (http.bucket_fails env) (http.db s)
              (models.Client.ID client)
              (middleware.Truncate_Minute (http.Now env))) as (_ & _ & ->).
  done.
Qed.

(** X14 on the scenario's client, held by a limiter that lets nothing
    pass: the stored limit is raised to 1000, the request is refused all
    the same *)
Lemma X14_rate_limit_change_does_not_reach_existing_limiter_witness :
  let s := http.mkServer (http.db (server_of scenario_client))
                         {[ 1 := zero_limiter ]} [] in
  let stored := (clients.UpdateClient false 7 (http.db s)
                   (with_limit 1000 scenario_client)).1 in
  (api.chat_completions scenario_handler (env_at scenario_start)
     (request_with scenario_key "m1")
     (http.mkServer stored (http.limiters s) (http.trace s))).2
  = RateLimitExceeded.
Proof.
  intros s stored.
  assert (authenticated_as (env_at scenario_start)
            (request_with scenario_key "m1") s scenario_client) as Hauth.
  { exists scenario_key. split; [done|]. split; [by vm_compute|].
    split; [done|]. split.
    + split; [by left|]. split; [done | by vm_compute].
    + split; [done|]. by intros t [=]. }
  assert (http.limiters s !! models.Client.ID scenario_client
          = Some zero_limiter) as Hl by apply lookup_singleton_eq.
  destruct (X14_rate_limit_change_does_not_reach_existing_limiter
              scenario_handler (env_at scenario_start)
              (request_with scenario_key "m1") s scenario_client zero_limiter
              1000 7 Hauth Hl) as (_ & Hresp & _).
  fold stored in Hresp. rewrite Hresp. by vm_compute.
Defined.

(** ** Key generation *)
Section KeyGeneration.

Lemma below_spec n b : 0 <= b < Z.of_nat n → In b (below n).
Proof.
  intros Hb. unfold below. apply in_map_iff. exists (Z.to_nat b).
  split; [lia|]. apply in_seq. lia.
Qed.

Lemma forall_below1 (P : Z → bool) n :
  forallb P (below n) = true → ∀ b, 0 <= b < Z.of_nat n → P b = true.
Proof.
  intros H b Hb. rewrite forallb_forall in H. by apply H, below_spec.
Qed.

Lemma forall_below2 (P : Z → Z → bool) n :
  forallb (λ a, forallb (P a) (below n)) (below n) = true →
  ∀ a b, 0 <= a < Z.of_nat n → 0 <= b < Z.of_nat n → P a b = true.
Proof.
  intros H a b Ha Hb. rewrite forallb_forall in H.
  apply (forall_below1 (P a) n); [|done]. by apply H, below_spec.
Qed.

(** the alphabet has 64 distinct letters, none of them the padding *)
Lemma b64char_inj i j :
  0 <= i < 64 → 0 <= j < 64 → auth.b64char i = auth.b64char j → i = j.
Proof.
  intros Hi Hj Heq.
  pose proof (forall_below2
                (λ a b, implb (Ascii.eqb (auth.b64char a) (auth.b64char b))
                              (a =? b)) 64 ltac:(by vm_compute) i j Hi Hj) as H.
  cbv beta in H. rewrite Heq, Ascii.eqb_refl in H. by apply Z.eqb_eq.
Qed.

Lemma b64char_not_pad i : 0 <= i < 64 → auth.b64char i ≠ "="%char.
Proof.
  intros Hi Heq.
  pose proof (forall_below1
                (λ a, negb (Ascii.eqb (auth.b64char a) "="%char)) 64
                ltac:(by vm_compute) i Hi) as H.
  cbv beta in H. by rewrite Heq in H.
Qed.

(** the four sextets of a group of bytes, as quotients and remainders *)
Lemma sextet_first b : is_byte b → Z.shiftr b 2 = b / 4.
Proof.
  intros Hb. apply Z.eqb_eq.
  by apply (forall_below1 (λ b, Z.shiftr b 2 =? b / 4) 256 ltac:(by vm_compute)).
Qed.

Lemma sextet_last b : is_byte b → Z.land b 63 = b mod 64.
Proof.
  intros Hb. apply Z.eqb_eq.
  by apply (forall_below1 (λ b, Z.land b 63 =? b mod 64) 256
              ltac:(by vm_compute)).
Qed.

Lemma sextet_second_alone b :
  is_byte b → Z.land (Z.shiftl b 4) 63 = b mod 4 * 16.
Proof.
  intros Hb. apply Z.eqb_eq.
  by apply (forall_below1 (λ b, Z.land (Z.shiftl b 4) 63 =? b mod 4 * 16) 256
              ltac:(by vm_compute)).
Qed.

Lemma sextet_third_alone b :
  is_byte b → Z.land (Z.shiftl b 2) 63 = b mod 16 * 4.
Proof.
  intros Hb. apply Z.eqb_eq.
  by apply (forall_below1 (λ b, Z.land (Z.shiftl b 2) 63 =? b mod 16 * 4) 256
              ltac:(by vm_compute)).
Qed.

Lemma sextet_second a b :
  is_byte a → is_byte b →
  Z.land (Z.lor (Z.shiftl a 4) (Z.shiftr b 4)) 63 = a mod 4 * 16 + b / 16.
Proof.
  intros Ha Hb. apply Z.eqb_eq.
  by apply (forall_below2
              (λ a b, Z.land (Z.lor (Z.shiftl a 4) (Z.shiftr b 4)) 63
                      =? a mod 4 * 16 + b / 16) 256 ltac:(by vm_compute)).
Qed.

Lemma sextet_third a b :
  is_byte a → is_byte b →
  Z.land (Z.lor (Z.shiftl a 2) (Z.shiftr b 6)) 63 = a mod 16 * 4 + b / 64.
Proof.
  intros Ha Hb. apply Z.eqb_eq.
  by apply (forall_below2
              (λ a b, Z.land (Z.lor (Z.shiftl a 2) (Z.shiftr b 6)) 63
                      =? a mod 16 * 4 + b / 64) 256 ltac:(by vm_compute)).
Qed.

Lemma list_ind3 {A} (P : list A → Prop) :
  P [] → (∀ a, P [a]) → (∀ a b, P [a; b]) →
  (∀ a b c l, P l → P (a :: b :: c :: l)) → ∀ l, P l.
Proof.
  intros H0 H1 H2 H3 l.
  assert (P l ∧ (∀ a, P (a :: l)) ∧ ∀ a b, P (a :: b :: l)) as [H _].
  { induction l as [|x l (IH0 & IH1 & IH2)]; [by split_and!|].
    split_and!; [apply IH1 | intros a; apply IH2 |].
    intros a b. by apply H3. }
  exact H.
Qed.

Lemma EncodeToString_length bs :
  len (auth.EncodeToString bs) = 4 * ((Z.of_nat (length bs) + 2) / 3).
Proof.
  induction bs as [| a | a b | a b c l IH] using list_ind3; try done.
  assert (auth.EncodeToString (a :: b :: c :: l)
          = String (auth.b64char (Z.shiftr a 2))
           (String (auth.b64char (Z.land (Z.lor (Z.shiftl a 4) (Z.shiftr b 4)) 63))
           (String (auth.b64char (Z.land (Z.lor (Z.shiftl b 2) (Z.shiftr c 6)) 63))
           (String (auth.b64char (Z.land c 63)) (auth.EncodeToString l))))) as ->
    by done.
  unfold len in *. cbn [String.length length].
  replace (Z.of_nat (S (S (S (length l)))) + 2)
    with ((Z.of_nat (length l) + 2) + 1 * 3) by lia.
  rewrite Z.div_add by lia. lia.
Qed.

Lemma sextet_range_first b : is_byte b → 0 <= Z.shiftr b 2 < 64.
Proof.
  intros Hb. rewrite sextet_first by done. unfold is_byte in Hb.
  split; [apply Z.div_pos; lia | apply Z.div_lt_upper_bound; lia].
Qed.

Lemma land_63_range x : 0 <= Z.land x 63 < 64.
Proof.
  change 63 with (Z.ones 6). rewrite Z.land_ones by lia.
  apply Z.mod_pos_bound. lia.
Qed.

(** a group of three bytes is read back from its four sextets *)
Lemma group_inj a b c a' b' c' :
  is_byte a → is_byte b → is_byte c → is_byte a' → is_byte b' → is_byte c' →
  a / 4 = a' / 4 →
  a mod 4 * 16 + b / 16 = a' mod 4 * 16 + b' / 16 →
  b mod 16 * 4 + c / 64 = b' mod 16 * 4 + c' / 64 →
  c mod 64 = c' mod 64 →
  a = a' ∧ b = b' ∧ c = c'.
Proof. unfold is_byte. intros. Z.div_mod_to_equations. lia. Qed.

Lemma pair_inj a b a' b' :
  is_byte a → is_byte b → is_byte a' → is_byte b' →
  a / 4 = a' / 4 →
  a mod 4 * 16 + b / 16 = a' mod 4 * 16 + b' / 16 →
  b mod 16 * 4 = b' mod 16 * 4 →
  a = a' ∧ b = b'.
Proof. unfold is_byte. intros. Z.div_mod_to_equations. lia. Qed.

Lemma single_inj a a' :
  is_byte a → is_byte a' →
  a / 4 = a' / 4 → a mod 4 * 16 = a' mod 4 * 16 → a = a'.
Proof. unfold is_byte. intros. Z.div_mod_to_equations. lia. Qed.

Lemma EncodeToString_group a b c l :
  auth.EncodeToString (a :: b :: c :: l)
  = String (auth.b64char (Z.shiftr a 2))
   (String (auth.b64char (Z.land (Z.lor (Z.shiftl a 4) (Z.shiftr b 4)) 63))
   (String (auth.b64char (Z.land (Z.lor (Z.shiftl b 2) (Z.shiftr c 6)) 63))
   (String (auth.b64char (Z.land c 63)) (auth.EncodeToString l)))).
Proof. done. Qed.

Lemma EncodeToString_one a :
  auth.EncodeToString [a]
  = String (auth.b64char (Z.shiftr a 2))
      (String (auth.b64char (Z.land (Z.shiftl a 4) 63)) "==").
Proof. done. Qed.

Lemma EncodeToString_two a b :
  auth.EncodeToString [a; b]
  = String (auth.b64char (Z.shiftr a 2))
     (String (auth.b64char (Z.land (Z.lor (Z.shiftl a 4) (Z.shiftr b 4)) 63))
     (String (auth.b64char (Z.land (Z.shiftl b 2) 63)) "=")).
Proof. done. Qed.

Lemma pad_clash x : "="%char = auth.b64char (Z.land x 63) → False.
Proof.
  intros H. symmetry in H.
  by apply (b64char_not_pad _ (land_63_range x)) in H.
Qed.

(** the encoding loses nothing *)
Lemma EncodeToString_inj bs1 bs2 :
  Forall is_byte bs1 → Forall is_byte bs2 →
  auth.EncodeToString bs1 = auth.EncodeToString bs2 → bs1 = bs2.
Proof.
  revert bs2.
  induction bs1 as [| a | a b | a b c l IH] using list_ind3;
    intros [|a' [|b' [|c' l']]] H1 H2;
    rewrite ?EncodeToString_group, ?EncodeToString_one, ?EncodeToString_two;
    intros Heq; try done;
    repeat match goal with
           | H : Forall is_byte (_ :: _) |- _ =>
               apply Forall_cons in H as [? H]
           end.
  - (* one, one *)
    injection Heq as Hc0 Hc1.
    apply b64char_inj in Hc0; [|by apply sextet_range_first..].
    apply b64char_inj in Hc1; [|by apply land_63_range..].
    rewrite !sextet_first in Hc0 by done.
    rewrite !sextet_second_alone in Hc1 by done.
    f_equal. by apply single_inj.
  - (* one, two *)
    injection Heq; intros;
      repeat match goal with
             | H : "="%char = auth.b64char _ |- _ => by apply pad_clash in H
             | H : auth.b64char _ = "="%char |- _ =>
                 symmetry in H; by apply pad_clash in H
             end.
  - (* one, group *)
    injection Heq; intros;
      repeat match goal with
             | H : "="%char = auth.b64char _ |- _ => by apply pad_clash in H
             | H : auth.b64char _ = "="%char |- _ =>
                 symmetry in H; by apply pad_clash in H
             end.
  - (* two, one *)
    injection Heq; intros;
      repeat match goal with
             | H : "="%char = auth.b64char _ |- _ => by apply pad_clash in H
             | H : auth.b64char _ = "="%char |- _ =>
                 symmetry in H; by apply pad_clash in H
             end.
  - (* two, two *)
    injection Heq as Hc0 Hc1 Hc2.
    apply b64char_inj in Hc0; [|by apply sextet_range_first..].
    apply b64char_inj in Hc1; [|by apply land_63_range..].
    apply b64char_inj in Hc2; [|by apply land_63_range..].
    rewrite !sextet_first in Hc0 by done.
    rewrite !sextet_second in Hc1 by done.
    rewrite !sextet_third_alone in Hc2 by done.
    by destruct (pair_inj a b a' b') as [-> ->].
  - (* two, group *)
    injection Heq; intros;
      repeat match goal with
             | H : "="%char = auth.b64char _ |- _ => by apply pad_clash in H
             | H : auth.b64char _ = "="%char |- _ =>
                 symmetry in H; by apply pad_clash in H
             end.
  - (* group, one *)
    injection Heq; intros;
      repeat match goal with
             | H : "="%char = auth.b64char _ |- _ => by apply pad_clash in H
             | H : auth.b64char _ = "="%char |- _ =>
                 symmetry in H; by apply pad_clash in H
             end.
  - (* group, two *)
    injection Heq; intros;
      repeat match goal with
             | H : "="%char = auth.b64char _ |- _ => by apply pad_clash in H
             | H : auth.b64char _ = "="%char |- _ =>
                 symmetry in H; by apply pad_clash in H
             end.
  - (* group, group *)
    injection Heq as Hc0 Hc1 Hc2 Hc3 Hrest.
    apply IH in Hrest; [|done..]. subst l'.
    apply b64char_inj in Hc0; [|by apply sextet_range_first..].
    apply b64char_inj in Hc1; [|by apply land_63_range..].
    apply b64char_inj in Hc2; [|by apply land_63_range..].
    apply b64char_inj in Hc3; [|by apply land_63_range..].
    rewrite !sextet_first in Hc0 by done.
    rewrite !sextet_second in Hc1 by done.
    rewrite !sextet_third in Hc2 by done.
    rewrite !sextet_last in Hc3 by done.
    by destruct (group_inj a b c a' b' c') as (-> & -> & ->).
Qed.
End KeyGeneration.

(** X15: the keys that GenerateAPIKey makes are well formed and differ
    when the random bytes differ.  For the bytes that rand.Read delivers,
    the key is the prefix followed by their encoding; it passes
    ValidateAPIKeyFormat, is 5 + 4 * ceil(n / 3) characters long for n
    bytes (49 for the 32 bytes of APIKeyLength), and comes from no other
    sequence of bytes. *)
Theorem X15_generated_keys_are_well_formed_and_distinct :
  ∀ bytes,
    Forall is_byte bytes →
    ∃ key,
      keygen.GenerateAPIKey (inl bytes) = inl key
      ∧ auth.ValidateAPIKeyFormat key = true
      ∧ len key = 5 + 4 * ((Z.of_nat (length bytes) + 2) / 3)
      ∧ (Z.of_nat (length bytes) = auth.APIKeyLength → len key = 49)
      ∧ ∀ bytes', Forall is_byte bytes' →
                  keygen.GenerateAPIKey (inl bytes') = inl key → bytes' = bytes.
Proof.
  intros bytes Hbytes. eexists. split; [reflexivity|].
  assert (∀ rest, auth.APIKeyPrefix +:+ rest
                  = String "a" (String "i" (String "c" (String "s"
                      (String "_" rest))))) as Hprefix by done.
  assert (len (auth.APIKeyPrefix +:+ auth.EncodeToString bytes)
          = 5 + 4 * ((Z.of_nat (length bytes) + 2) / 3)) as Hlen.
  { rewrite <- EncodeToString_length, Hprefix. unfold len.
    cbn [String.length]. lia. }
  split_and!.
  - apply ValidateAPIKeyFormat_prefix. by eexists.
  - exact Hlen.
  - intros Hn. rewrite Hlen, Hn. by vm_compute.
  - intros bytes' Hbytes' Heq. unfold keygen.GenerateAPIKey in Heq.
    rewrite !Hprefix in Heq. injection Heq as Heq.
    by apply EncodeToString_inj.
Qed.

(** X15 on 32 zero bytes *)
Lemma X15_generated_keys_are_well_formed_and_distinct_witness :
  ∃ key, keygen.GenerateAPIKey (inl (repeat 0 32)) = inl key
         ∧ auth.ValidateAPIKeyFormat key = true ∧ len key = 49.
Proof.
  destruct (X15_generated_keys_are_well_formed_and_distinct (repeat 0 32))
    as (key & Hkey & Hshape & _ & Hlen & _).
  - apply Forall_forall. intros b Hb. apply list_elem_of_In, repeat_spec in Hb.
    subst b. unfold is_byte. lia.
  - exists key. split_and!; [done | done |]. by apply Hlen.
Defined.

(** X16: /v1/usage/stats is read-only, reports on the authenticated client
    only, and counts what /v1/usage lists.  Store and limiters are never
    changed; an answer with a body is a 200 to a request authenticated as
    a client in good standing and holds the aggregate of that client's
    rows in the requested time range; and for the same request /v1/usage
    answers 200 with min(limit, max(0, total_requests - offset)) rows. *)
Theorem X16_stats_count_what_usage_lists :
  ∀ parse fail1 fail2 fail3 env r s,
    let out := usage_handlers.stats_route parse fail1 fail2 fail3 env r s in
    let listed := usage_handlers.usage_route parse false env r s in
    http.db out.1 = http.db s ∧ http.limiters out.1 = http.limiters s
    ∧ match http.Payload out.2 with
      | inl _ => http.Status out.2 = 401 ∨ http.Status out.2 = 403
                 ∨ http.Status out.2 = 500
      | inr stats =>
          http.Status out.2 = 200
          ∧ (∃ client,
               authenticated_as env r s client
               ∧ database.GetUsageStats false false false (http.db s)
                   (models.Client.ID client)
                   (usage_handlers.time_of parse
                      (usage_handlers.start_time (usage_handlers.query_of r)))
                   (usage_handlers.time_of parse
                      (usage_handlers.end_time (usage_handlers.query_of r)))
                 = inl stats)
          ∧ match http.Payload listed.2 with
            | inl _ => False
            | inr page =>
                Z.of_nat (length (usage_handlers.logs page))
                = Z.min (usage_handlers.page_limit page)
                        (Z.max 0 (models.UsageStats.TotalRequests stats
                                  - usage_handlers.page_offset page))
            end
      end.
Proof.
  intros parse fail1 fail2 fail3 env r s out listed. subst out listed.
  unfold usage_handlers.stats_route, usage_handlers.usage_route,
    api.applyMiddleware. cbn [fold_right].
  destruct (Authenticate_outcome
              (usage_handlers.HandleGetUsageStats parse fail1 fail2 fail3) env r s)
    as [(status & msg & -> & Hstatus) | (client & Hauth & ->)].
  { cbn. by split_and!. }
  rewrite (Authenticate_passes (usage_handlers.HandleGetUsage parse false)
             env r s client Hauth).
  unfold usage_handlers.HandleGetUsageStats, usage_handlers.HandleGetUsage.
  cbn [http.Context http.db http.limiters].
  repeat match goal with |- context [usage_handlers.query_of ?r1] =>
    progress change (usage_handlers.query_of r1) with (usage_handlers.query_of r)
  end.
  set (q := usage_handlers.query_of r).
  set (st := usage_handlers.time_of parse (usage_handlers.start_time q)).
  set (et := usage_handlers.time_of parse (usage_handlers.end_time q)).
  unfold database.GetUsageStats, database.GetUsageLogs.
  destruct fail1; [cbn; by split_and!; [| |right; right]|].
  destruct fail2; [cbn; by split_and!; [| |right; right]|].
  destruct fail3; [cbn; by split_and!; [| |right; right]|].
  cbn [fst snd http.db http.limiters http.Payload http.Status
       usage_handlers.logs usage_handlers.page_limit usage_handlers.page_offset
       models.UsageStats.TotalRequests].
  split_and!; [done | done | done | by exists client |].
  rewrite length_take, length_drop. unfold database.newest_first.
  rewrite (Permutation_length (merge_sort_Permutation database.newer _)).
  pose proof (limit_of_pos q). pose proof (offset_of_nonneg q). lia.
Qed.
